(** * promptgen: the versioned template store and the generation pipeline

    A shallow embedding of [promptgen.go].  The program is a command-line
    tool: every invocation runs one command against a directory of files
    ([~/.promptgen/templates]), prints messages, and may talk to the
    clipboard and to an external editor.

    - Go strings are byte strings: [string] with [ascii] as the byte.
    - [int] is a 64-bit signed integer: [Z] with the wrap-around of [++]
      written out ([wrap64]).
    - The template directory is a finite map from file names to contents
      ([gmap string file_data]).
    - Every command is a computation in a small monad that threads the file
      system and the trace of observable events, and that can return early,
      as the Go functions do after printing an error.
    - The libraries are described by what they do: [strings], [strconv] and
      [path/filepath] as functions on byte strings, [encoding/json] up to
      decoding ([file_data]), the operating system as operations on the map
      of files that can fail, and [text/template] as an interface
      ([TemplateEngine]) together with a description of the part of its
      language that the program produces ([TextTemplate]).

    The description has its bounds, and the properties that depend on them
    carry them as hypotheses:
    - a template name is a file name: for a name without a separator
      ([no_separator]) [filepath.Join] of the directory and the file name is
      their concatenation, which is what the paths below are;
    - [encoding/json] reads back what it wrote for text that is valid UTF-8
      ([utf8.ValidString]); it puts U+FFFD for every other byte;
    - a pattern is read per byte, which is how [filepath.Match] reads a
      pattern of literal text and [*] ([all_plain]);
    - standard input is read as it arrives from a terminal, a line at a
      time;
    - a write or a removal that fails leaves the file as it was. *)

From Stdlib Require Import ZArith Ascii String DecimalString DecimalZ.

From stdpp Require Import gmap strings list sorting.

Local Open Scope string_scope.

(** ** The functions of Go's [strings] and [fmt] packages that the program uses *)

Module Strings.

(** [strings.HasPrefix]. *)
Fixpoint HasPrefix (s pre : string) {struct pre} : bool :=
  match pre with
  | EmptyString => true
  | String a pre' =>
      match s with
      | EmptyString => false
      | String b s' => Ascii.eqb a b && HasPrefix s' pre'
      end
  end.

(** [strings.HasSuffix]. *)
Definition HasSuffix (s suf : string) : bool :=
  HasPrefix (String.rev s) (String.rev suf).

(** [strings.Contains]. *)
Fixpoint Contains (s sub : string) : bool :=
  HasPrefix s sub ||
  match s with
  | EmptyString => false
  | String _ s' => Contains s' sub
  end.

(** [s[1:]] of a string that is not empty. *)
Definition tail (s : string) : string :=
  match s with
  | EmptyString => EmptyString
  | String _ r => r
  end.

(** [strings.TrimSuffix]. *)
Definition TrimSuffix (s suf : string) : string :=
  if HasSuffix s suf
  then String.substring 0 (String.length s - String.length suf) s
  else s.

(** The scanning loop shared by [ReplaceAll] and [Split]: [skip] counts the
    bytes of a match of [old] that are still to be passed over. *)
Fixpoint replace_from (old new : string) (skip : nat) (s : string) : string :=
  match s with
  | EmptyString => EmptyString
  | String c s' =>
      match skip with
      | S k => replace_from old new k s'
      | O =>
          if HasPrefix s old
          then new ++ replace_from old new (String.length old - 1) s'
          else String c (replace_from old new 0 s')
      end
  end.

(** [strings.ReplaceAll s old new] for a non-empty [old], which is the only
    way the program calls it (with [old = "<input>"]): the occurrences of
    [old] are found left to right and do not overlap. *)
Definition ReplaceAll (s old new : string) : string := replace_from old new 0 s.

Fixpoint split_from (sep : string) (skip : nat) (s : string) : string * list string :=
  match s with
  | EmptyString => (EmptyString, [])
  | String c s' =>
      match skip with
      | S k => split_from sep k s'
      | O =>
          if HasPrefix s sep
          then let '(p, ps) := split_from sep (String.length sep - 1) s' in
               (EmptyString, p :: ps)
          else let '(p, ps) := split_from sep 0 s' in
               (String c p, ps)
      end
  end.

(** [strings.Split s sep] for a non-empty [sep] (the program splits at
    ["_v"]; [filepath.Base] below splits at the separator). *)
Definition Split (s sep : string) : list string :=
  let '(p, ps) := split_from sep 0 s in p :: ps.

(** White space as [unicode.IsSpace] sees it, on the UTF-8 encoding: the
    function strips one white-space code point from the front of [s].
    The code points are U+0009..U+000D, U+0020, U+0085, U+00A0, U+1680,
    U+2000..U+200A, U+2028, U+2029, U+202F, U+205F and U+3000. *)
Definition byte (n : nat) (c : ascii) : bool := Nat.eqb (nat_of_ascii c) n.

Definition ascii_space (c : ascii) : bool :=
  let n := nat_of_ascii c in
  (Nat.leb 9 n && Nat.leb n 13) || Nat.eqb n 32.

Definition strip_space (s : string) : option string :=
  match s with
  | String a r1 =>
      if ascii_space a then Some r1 else
      match r1 with
      | String b r2 =>
          if byte 194 a && (byte 133 b || byte 160 b) then Some r2 else
          match r2 with
          | String c r3 =>
              if byte 225 a && byte 154 b && byte 128 c then Some r3
              else if byte 226 a && byte 128 b &&
                      ((Nat.leb 128 (nat_of_ascii c) && Nat.leb (nat_of_ascii c) 138)
                       || byte 168 c || byte 169 c || byte 175 c) then Some r3
              else if byte 226 a && byte 129 b && byte 159 c then Some r3
              else if byte 227 a && byte 128 b && byte 128 c then Some r3
              else None
          | EmptyString => None
          end
      | EmptyString => None
      end
  | EmptyString => None
  end.

(** The same from the back of the string, on the reversed bytes. *)
Definition strip_space_rev (s : string) : option string :=
  match s with
  | String a r1 =>
      if ascii_space a then Some r1 else
      match r1 with
      | String b r2 =>
          if byte 194 b && (byte 133 a || byte 160 a) then Some r2 else
          match r2 with
          | String c r3 =>
              if byte 225 c && byte 154 b && byte 128 a then Some r3
              else if byte 226 c && byte 128 b &&
                      ((Nat.leb 128 (nat_of_ascii a) && Nat.leb (nat_of_ascii a) 138)
                       || byte 168 a || byte 169 a || byte 175 a) then Some r3
              else if byte 226 c && byte 129 b && byte 159 a then Some r3
              else if byte 227 c && byte 128 b && byte 128 a then Some r3
              else None
          | EmptyString => None
          end
      | EmptyString => None
      end
  | EmptyString => None
  end.

Fixpoint trim_with (strip : string -> option string) (fuel : nat) (s : string) : string :=
  match fuel with
  | O => s
  | S f => match strip s with
           | Some s' => trim_with strip f s'
           | None => s
           end
  end.

Definition TrimLeft (s : string) : string := trim_with strip_space (String.length s) s.

Definition TrimRight (s : string) : string :=
  String.rev (trim_with strip_space_rev (String.length s) (String.rev s)).

(** [strings.TrimSpace]. *)
Definition TrimSpace (s : string) : string := TrimRight (TrimLeft s).

(** [%d] of [fmt.Sprintf] on an [int]. *)
Definition Itoa (z : Z) : string := NilZero.string_of_int (Z.to_int z).

(** [%q] is only used inside messages, which are kept symbolic below. *)

End Strings.

Import Strings.

(** ** [path/filepath]: shell patterns

    [filepath.Match] is modelled by what a pattern means: the pattern is read
    into a list of items, and the items are matched against the file name.
    [*] stands for any run of bytes other than the separator, [?] for one
    such byte, [[...]] for a class of bytes, and a backslash quotes the next
    byte.  (Go reads [?] and classes per UTF-8 code point; the model reads
    them per byte, which is the same on ASCII names.) *)

Module Pattern.

Inductive item : Type :=
| Star
| AnyChar
| Lit (c : ascii)
| Class (negated : bool) (ranges : list (ascii * ascii)).

Definition is_byte (c : ascii) (d : ascii) : bool := Ascii.eqb c d.

(** [getEsc]: one (possibly quoted) byte of a class; it must be followed by
    more of the pattern. *)
Definition getEsc (chunk : string) : option (ascii * string) :=
  match chunk with
  | EmptyString => None
  | String c r =>
      if is_byte c "-" || is_byte c "]" then None else
      let quoted := if is_byte c "\" then
                      match r with
                      | EmptyString => None
                      | String c2 r2 => Some (c2, r2)
                      end
                    else Some (c, r) in
      match quoted with
      | Some (lo, String d r') => Some (lo, String d r')
      | _ => None
      end
  end.

(** The ranges of a class, up to the closing bracket. *)
Fixpoint ranges_of (fuel : nat) (chunk : string) (acc : list (ascii * ascii))
  : option (list (ascii * ascii) * string) :=
  match fuel with
  | O => None
  | S f =>
      if HasPrefix chunk "]" && negb (Nat.eqb (length acc) 0) then Some (rev acc, tail chunk)
      else
        match getEsc chunk with
        | None => None
        | Some (lo, r) =>
            if HasPrefix r "-" then
              match getEsc (tail r) with
              | None => None
              | Some (hi, r') => ranges_of f r' ((lo, hi) :: acc)
              end
            else ranges_of f r ((lo, lo) :: acc)
        end
  end.

Fixpoint items_of (fuel : nat) (pattern : string) : option (list item) :=
  match pattern with
  | EmptyString => Some []
  | String c r =>
      match fuel with
      | O => None
      | S f =>
          if is_byte c "*" then cons Star <$> items_of f r
          else if is_byte c "?" then cons AnyChar <$> items_of f r
          else if is_byte c "\" then
            match r with
            | EmptyString => None
            | String c2 r2 => cons (Lit c2) <$> items_of f r2
            end
          else if is_byte c "[" then
            let negated := HasPrefix r "^" in
            let body := if negated then tail r else r in
            match ranges_of (String.length body) body [] with
            | None => None
            | Some (rs, rest) => cons (Class negated rs) <$> items_of f rest
            end
          else cons (Lit c) <$> items_of f r
      end
  end.

Definition in_range (c : ascii) (r : ascii * ascii) : bool :=
  Nat.leb (nat_of_ascii r.1) (nat_of_ascii c) && Nat.leb (nat_of_ascii c) (nat_of_ascii r.2).

Definition Separator : ascii := "/"%char.

Fixpoint matches (p : list item) : string -> bool :=
  match p with
  | [] => fun s => match s with EmptyString => true | _ => false end
  | Star :: p' =>
      fix star (s : string) : bool :=
        matches p' s ||
        match s with
        | EmptyString => false
        | String c s' => negb (is_byte c Separator) && star s'
        end
  | AnyChar :: p' =>
      fun s => match s with
               | EmptyString => false
               | String c s' => negb (is_byte c Separator) && matches p' s'
               end
  | Lit a :: p' =>
      fun s => match s with
               | EmptyString => false
               | String c s' => is_byte a c && matches p' s'
               end
  | Class negated rs :: p' =>
      fun s => match s with
               | EmptyString => false
               | String c s' => negb (eqb (existsb (in_range c) rs) negated) && matches p' s'
               end
  end.

(** [filepath.Match]: [None] is [ErrBadPattern]. *)
Definition Match (pattern name : string) : option bool :=
  (fun p => matches p name) <$> items_of (String.length pattern) pattern.

End Pattern.

(** ** Data model *)

(** [type PromptTemplate struct]. *)
Record PromptTemplate : Type := mkTemplate {
  Name : string;
  Version : Z;
  Template : string;
}.

(** Go's [int] on a 64-bit platform: the value of an arithmetic result after
    wrap-around. *)
Definition wrap64 (z : Z) : Z := ((z + 2 ^ 63) mod 2 ^ 64 - 2 ^ 63)%Z.

(** The errors of the operating system and of the libraries.  The program
    never inspects an error beyond [os.IsNotExist]; it prints it. *)
Inductive error : Type :=
| ENOENT                      (* no such file or directory *)
| EACCES                      (* permission denied *)
| ErrBadPattern               (* filepath.ErrBadPattern *)
| ErrSyntax                   (* a decoding or conversion error *)
| ErrOther (what : string).

Inductive result (A : Type) : Type :=
| Ok (a : A)
| Err (e : error).

Arguments Ok {A} a.

Arguments Err {A} e.

(** What a file holds, up to decoding.  [encoding/json] is not modelled byte
    by byte: a file is either a document that [json.Unmarshal] decodes to a
    [PromptTemplate] (as is every document that [json.MarshalIndent] writes,
    for text that is valid UTF-8), or bytes that it rejects (the history log,
    a damaged record). *)
Inductive file_data : Type :=
| Json (t : PromptTemplate)
| Undecodable (raw : string).

Definition Marshal (t : PromptTemplate) : file_data := Json t.

Definition Unmarshal (d : file_data) : result PromptTemplate :=
  match d with
  | Json t => Ok t
  | Undecodable _ => Err ErrSyntax
  end.

(** The template directory.  [files] maps a path below the directory to the
    contents of the file; [denied] are the paths on which reading, writing and
    removing fail; [dir_blocked] says that the directory cannot be created.
    A path is the text that the program builds from the name, taken as it is:
    a name is a file name, not a route into another directory. *)
Record FileSystem : Type := mkFS {
  files : gmap string file_data;
  denied : gset string;
  dir_blocked : bool;
}.

Definition with_files (fs : FileSystem) (m : gmap string file_data) : FileSystem :=
  {| files := m; denied := denied fs; dir_blocked := dir_blocked fs |}.

Module os.

Definition Stat (path : string) (fs : FileSystem) : result unit :=
  match files fs !! path with
  | Some _ => Ok tt
  | None => Err ENOENT
  end.

Definition ReadFile (path : string) (fs : FileSystem) : result file_data :=
  match files fs !! path with
  | None => Err ENOENT
  | Some d => if decide (path ∈ denied fs) then Err EACCES else Ok d
  end.

Definition WriteFile (path : string) (d : file_data) (fs : FileSystem) : result FileSystem :=
  if decide (path ∈ denied fs) then Err EACCES
  else Ok (with_files fs (<[path := d]> (files fs))).

Definition Remove (path : string) (fs : FileSystem) : result FileSystem :=
  match files fs !! path with
  | None => Err ENOENT
  | Some _ =>
      if decide (path ∈ denied fs) then Err EACCES
      else Ok (with_files fs (delete path (files fs)))
  end.

Definition MkdirAll (fs : FileSystem) : result unit :=
  if dir_blocked fs then Err EACCES else Ok tt.

(** The names in the directory, sorted as [filepath.Glob] sorts them. *)
Definition Readdirnames (fs : FileSystem) : list string :=
  merge_sort (fun x y => Is_true (String.leb x y)) (elements (dom (files fs))).

Definition IsNotExist (e : error) : bool :=
  match e with ENOENT => true | _ => false end.

End os.

Module filepath.

(** [filepath.Glob], for a pattern below the template directory.  The only
    error is [ErrBadPattern]. *)
Definition Glob (pattern : string) (fs : FileSystem) : result (list string) :=
  match Pattern.items_of (String.length pattern) pattern with
  | None => Err ErrBadPattern
  | Some p => Ok (List.filter (Pattern.matches p) (os.Readdirnames fs))
  end.

(** [filepath.Base] of a path that does not end in a separator: the part
    after the last separator. *)
Definition Base (path : string) : string := List.last (Split path "/") path.

End filepath.

(** ** Paths (the helpers of the program, relative to the template directory) *)

Definition getTemplatePath (name : string) : string := name ++ ".json".

Definition getTemplateVersionPath (name : string) (version : Z) : string :=
  name ++ "_v" ++ Itoa version ++ ".json".

Definition getHistoryPath : string := "history.log".

(** ** What the program prints, and what else it does to the outside *)

Inductive message : Type :=
| Usage
| PromptTemplateName                              (* "Template name: " *)
| NameCannotBeEmpty
| AlreadyExists                                   (* "Template already exists. Use update command to modify it." *)
| EnterContent
| ErrorReadingContent (e : error)
| ErrorCreatingDirectory (e : error)
| ErrorSavingVersioned (e : error)
| WarningLatestPointer (e : error)                (* "Warning: failed to save/update main template pointer:" *)
| SavedVersion1                                   (* "Template saved with version 1." *)
| ErrorAccessingTemplates (e : error)
| ErrorListingTemplates (e : error)
| NoTemplatesFound
| TemplatesHeader                                 (* "Templates:" *)
| TemplateEntry (name : string) (version : Z)     (* " - %s (version %d)" *)
| UsageDelete
| ErrorListingFiles (e : error)                   (* "Error listing template files:" *)
| NoSuchTemplate (name : string)                  (* "No such template found:" *)
| ErrorDeletingFile (path : string) (e : error)
| DeletedAll (name : string)                      (* "Deleted template and all versions:" *)
| UsageUpdate
| TemplateNotFound (name : string)                (* "Template not found:" *)
| EnterNewContent
| UpdatedTo (name : string) (version : Z)         (* "Template %q updated to version %d." *)
| UsageGenerate
| ErrorLoadingTemplate (e : error)                (* "Error loading template:" *)
| FailedClipboardRead (e : error)                 (* "Failed to read from clipboard:" *)
| UsingClipboard
| UsingClipboardFallback
| UsingEditor
| TemplateParseError (e : error)                  (* "Template parse error:" *)
| TemplateExecutionError (e : error)              (* "Template execution error:" *)
| GeneratedPrompt (version : Z) (prompt : string) (* "Generated Prompt (from template version %d):" and the prompt *)
| WarningClipboardWrite (e : error)
| CopiedToClipboard
| UsageReview
| ReviewNotFound (name : string)                  (* "Template %q not found." *)
| ReviewContent (name : string) (version : Z) (content : string)
| UsageCompletion
| BashCompletionScript
| ZshCompletionScript
| UnsupportedShell (shell : string)
| NoHistoryFound
| ErrorReadingHistory (e : error)
| History (d : file_data)                         (* "Prompt Generation History:" and the log *)
| UsageVersions
| ErrorListingVersions (e : error)
| NoVersionsFound (name : string)
| VersionsHeader (name : string)
| VersionLine (v : string)                        (* "Version" and the text between _v and .json *)
| UsageView
| InvalidVersionNumber (text : string)
| VersionNotFound (version : Z) (name : string)
| VersionContent (name : string) (version : Z) (content : string).

Inductive event : Type :=
| Print (m : message)
| ClipboardRead                                   (* clipboard.ReadAll was called *)
| ClipboardWrite (text : string)                  (* clipboard.WriteAll was called *)
| TempCreate                                      (* ioutil.TempFile was called *)
| EditorRun (program path : string)               (* the editor was started on the file *)
| TempRemove (path : string).                     (* the deferred os.Remove *)

(** What one invocation of the program finds around it. *)
Record Env : Type := mkEnv {
  Args : list string;                             (* os.Args *)
  Stdin : string;                                 (* what is typed on standard input *)
  StdinErr : option error;                        (* reading to the end of it fails *)
  EDITOR : string;                                (* os.Getenv("EDITOR") *)
  TempFile : result string;                       (* ioutil.TempFile *)
  RunEditor : string -> result (result string);   (* cmd.Run, then os.ReadFile of the scratch file *)
  ClipRead : result string;                       (* clipboard.ReadAll *)
  ClipWrite : string -> option error;             (* clipboard.WriteAll *)
}.

Record State : Type := mkState {
  fs : FileSystem;
  input : string;                                 (* standard input not yet read *)
  out : list event;
}.

(** ** The monad of a command: reader of [Env], state [State], early return *)

Definition M (A : Type) : Type := Env -> State -> option A * State.

#[global] Instance M_ret : MRet M := fun A a _ s => (Some a, s).

#[global] Instance M_bind : MBind M := fun A B f m e s =>
  match m e s with
  | (Some a, s') => f a e s'
  | (None, s') => (None, s')
  end.

(** Go's [return] in the middle of a command. *)
Definition exit {A : Type} : M A := fun _ s => (None, s).

Definition ask : M Env := fun e s => (Some e, s).

Definition emit (ev : event) : M unit :=
  fun _ s => (Some tt, {| fs := fs s; input := input s; out := out s ++ [ev] |}).

Definition print (m : message) : M unit := emit (Print m).

Definition getFS : M FileSystem := fun _ s => (Some (fs s), s).

Definition putFS (f : FileSystem) : M unit :=
  fun _ s => (Some tt, {| fs := f; input := input s; out := out s |}).

(** A read-only operation of the file system. *)
Definition query {A : Type} (op : FileSystem -> A) : M A :=
  fun _ s => (Some (op (fs s)), s).

(** An operation that changes the file system when it succeeds. *)
Definition change (op : FileSystem -> result FileSystem) : M (option error) :=
  f ← getFS;
  match op f with
  | Ok f' => putFS f';; mret None
  | Err e => mret (Some e)
  end.

(** [for _, x := range xs]. *)
Fixpoint for_each {A : Type} (xs : list A) (body : A -> M unit) : M unit :=
  match xs with
  | [] => mret tt
  | x :: xs' => body x;; for_each xs' body
  end.

(** Running a command in a fresh process. *)
Definition init (e : Env) (f : FileSystem) : State :=
  {| fs := f; input := Stdin e; out := [] |}.

Definition run (cmd : M unit) (e : Env) (f : FileSystem) : FileSystem * list event :=
  let s := snd (cmd e (init e f)) in
  (fs s, out s).

(** ** Standard input and [strconv] *)

Fixpoint read_line (s : string) : string * string :=
  match s with
  | EmptyString => (EmptyString, EmptyString)
  | String c r =>
      if Ascii.eqb c "010" then (String c EmptyString, r)
      else let '(l, r') := read_line r in (String c l, r')
  end.

(** [reader.ReadString('\n')]: the line with its newline, or what is left at
    the end of the input.  (The input is taken as it arrives from a terminal,
    a line at a time, so that the buffered reader holds no more than the line
    it returns.) *)
Definition ReadString : M string :=
  fun _ s => let '(l, r) := read_line (input s) in
             (Some l, {| fs := fs s; input := r; out := out s |}).

(** [io.ReadAll(os.Stdin)]. *)
Definition ReadAll : M (result string) :=
  fun e s =>
    let s' := {| fs := fs s; input := EmptyString; out := out s |} in
    match StdinErr e with
    | Some err => (Some (Err err), s')
    | None => (Some (Ok (input s)), s')
    end.

Module strconv.

Definition digit (c : ascii) : option Z :=
  let n := nat_of_ascii c in
  if Nat.leb 48 n && Nat.leb n 57 then Some (Z.of_nat (n - 48)) else None.

Fixpoint digits (acc : Z) (s : string) : option Z :=
  match s with
  | EmptyString => Some acc
  | String c r => match digit c with
                  | Some d => digits (10 * acc + d) r
                  | None => None
                  end
  end.

Definition magnitude (s : string) : option Z :=
  match s with
  | EmptyString => None
  | _ => digits 0 s
  end.

(** [strconv.Atoi]: an optional sign and decimal digits, within [int]. *)
Definition Atoi (s : string) : result Z :=
  let v := match s with
           | String "-" r => Z.opp <$> magnitude r
           | String "+" r => magnitude r
           | _ => magnitude s
           end in
  match v with
  | Some z => if (- 2 ^ 63 <=? z)%Z && (z <? 2 ^ 63)%Z then Ok z else Err ErrSyntax
  | None => Err ErrSyntax
  end.

End strconv.

(** ** [text/template]

    The program hands the template to Go's template engine.  The engine is a
    library of its own; the commands below use it through this interface. *)

Class TemplateEngine : Type := {
  Compiled : Type;
  (** [template.New(name).Parse(text)] *)
  Parse : string -> string -> result Compiled;
  (** [tmpl.Execute(&output, data)], with the contents of the buffer *)
  Execute : Compiled -> gmap string string -> result string;
}.

(** What is known of the engine, on the part of its language that the
    program itself produces: text without the opening delimiter, and the
    action [{{.Field}}]. *)
Module TextTemplate.

Inductive node : Type :=
| TextNode (text : string)
| FieldNode (ident : string).

Inductive parsed : Type :=
| Tree (nodes : list node)
| Rejected                  (* the engine reports a parse error *)
| Beyond.                   (* not in the part of the language described here *)

Inductive action : Type :=
| ActField (ident : string)
| ActRejected
| ActBeyond.

Definition alnum (c : ascii) : bool :=
  let n := nat_of_ascii c in
  (Nat.leb 48 n && Nat.leb n 57) || (Nat.leb 65 n && Nat.leb n 90)
  || (Nat.leb 97 n && Nat.leb n 122) || Nat.eqb n 95.

Definition digit (c : ascii) : bool :=
  Nat.leb 48 (nat_of_ascii c) && Nat.leb (nat_of_ascii c) 57.

(** The longest identifier at the front of [s], and what follows it. *)
Fixpoint ident_of (s : string) : string * string :=
  match s with
  | EmptyString => (EmptyString, EmptyString)
  | String c r =>
      if alnum c then let '(i, r') := ident_of r in (String c i, r')
      else (EmptyString, s)
  end.

(** The action that starts after an opening delimiter.
    - Without a closing delimiter in the rest of the text there is no
      action: the lexer ends in an error.
    - A dot, an identifier that does not start with a digit, and the closing
      delimiter are a field of the data.
    - A brace is a character that no command starts with: the parser
      reports it as unexpected.
    - Everything else (pipelines, comments, trim markers, keywords) is
      left undescribed. *)
Definition action_at (rest : string) : action :=
  if negb (Contains rest "}}") then ActRejected else
  match rest with
  | String "." r =>
      let '(i, r') := ident_of r in
      match i with
      | EmptyString => ActBeyond
      | String c _ =>
          if negb (digit c) && HasPrefix r' "}}" then ActField i
          else ActBeyond
      end
  | String "{" _ => ActRejected
  | _ => ActBeyond
  end.

Definition cons_node (n : node) (p : parsed) : parsed :=
  match p with
  | Tree ns => Tree (n :: ns)
  | _ => p
  end.

Definition cons_char (c : ascii) (p : parsed) : parsed :=
  match p with
  | Tree (TextNode t :: ns) => Tree (TextNode (String c t) :: ns)
  | Tree ns => Tree (TextNode (String c EmptyString) :: ns)
  | _ => p
  end.

(** The text is read left to right; at the leftmost opening delimiter the
    action is read, and the text goes on after its closing delimiter
    ([skip] counts the bytes of the action still to be passed over). *)
Fixpoint scan (skip : nat) (s : string) : parsed :=
  match s with
  | EmptyString => Tree []
  | String c r =>
      match skip with
      | S k => scan k r
      | O =>
          if HasPrefix s "{{" then
            match action_at (tail r) with
            | ActField i => cons_node (FieldNode i) (scan (String.length i + 4) r)
            | ActRejected => Rejected
            | ActBeyond => Beyond
            end
          else cons_char c (scan 0 r)
      end
  end.

Definition parse (text : string) : parsed := scan 0 text.

(** A field of a [map[string]string]: the value under the key, and the
    engine's ["<no value>"] for a key that the map does not have. *)
Definition eval (data : gmap string string) (n : node) : string :=
  match n with
  | TextNode t => t
  | FieldNode i => default "<no value>" (data !! i)
  end.

Fixpoint render (data : gmap string string) (ns : list node) : string :=
  match ns with
  | [] => EmptyString
  | n :: ns' => eval data n ++ render data ns'
  end.

(** An engine agrees with this description where the description says
    something. *)
Definition conforms (E : TemplateEngine) : Prop :=
  forall name text,
    match parse text with
    | Tree ns => exists t, Parse name text = Ok t /\
                           forall data, Execute t data = Ok (render data ns)
    | Rejected => exists e, Parse name text = Err e
    | Beyond => True
    end.

(** The description itself as an engine; it rejects what it does not
    describe. *)
Definition fragment : TemplateEngine := {|
  Compiled := list node;
  Parse := fun _ text => match parse text with
                         | Tree ns => Ok ns
                         | Rejected => Err ErrSyntax
                         | Beyond => Err (ErrOther "not described")
                         end;
  Execute := fun ns data => Ok (render data ns);
|}.

End TextTemplate.

(** ** The commands *)

(** [if err != nil { fmt.Println(..., err); return }]. *)
Definition or_return {A : Type} (r : result A) (msg : error -> message) : M A :=
  match r with
  | Ok a => mret a
  | Err e => print (msg e);; exit
  end.

Definition or_return_unit (r : option error) (msg : error -> message) : M unit :=
  match r with
  | None => mret tt
  | Some e => print (msg e);; exit
  end.

Definition ensureTemplateDir : M (result unit) := query os.MkdirAll.

Definition loadTemplate (name : string) (f : FileSystem) : result PromptTemplate :=
  match os.ReadFile (getTemplatePath name) f with
  | Err e => Err e
  | Ok data => Unmarshal data
  end.

Definition loadTemplateVersion (name : string) (version : Z) (f : FileSystem)
  : result PromptTemplate :=
  match os.ReadFile (getTemplateVersionPath name version) f with
  | Err e => Err e
  | Ok data => Unmarshal data
  end.

Definition addTemplate : M unit :=
  print PromptTemplateName;;
  line ← ReadString;
  let name := TrimSpace line in
  (if String.eqb name "" then print NameCannotBeEmpty;; exit else mret tt);;
  (* Check if template exists already *)
  st ← query (os.Stat (getTemplatePath name));
  (match st with
   | Ok _ => print AlreadyExists;; exit
   | Err _ => mret tt
   end);;
  print EnterContent;;
  r ← ReadAll;
  content ← or_return r ErrorReadingContent;
  d ← ensureTemplateDir;
  or_return d ErrorCreatingDirectory;;
  let tpl := {| Name := name; Version := 1; Template := content |} in
  let data := Marshal tpl in
  (* Save versioned file *)
  w ← change (os.WriteFile (getTemplateVersionPath name (Version tpl)) data);
  or_return_unit w ErrorSavingVersioned;;
  (* Save pointer to latest *)
  w' ← change (os.WriteFile (getTemplatePath name) data);
  (match w' with
   | Some e => print (WarningLatestPointer e)
   | None => mret tt
   end);;
  print SavedVersion1.

Definition listTemplates : M unit :=
  d ← ensureTemplateDir;
  or_return d ErrorAccessingTemplates;;
  g ← query (filepath.Glob "*.json");
  paths ← or_return g ErrorListingTemplates;
  (match paths with
   | [] => print NoTemplatesFound;; exit
   | _ => mret tt
   end);;
  print TemplatesHeader;;
  for_each paths (fun f =>
    let base := filepath.Base f in
    (* Skip versioned files (containing _v) *)
    if Contains base "_v" then mret tt else
    r ← query (os.ReadFile f);
    match r with
    | Err _ => mret tt
    | Ok data =>
        match Unmarshal data with
        | Ok t => print (TemplateEntry (Name t) (Version t))
        | Err _ => mret tt
        end
    end).

Definition deleteTemplate : M unit :=
  e ← ask;
  match Args e !! 2%nat with
  | None => print UsageDelete
  | Some name =>
      d ← ensureTemplateDir;
      or_return d ErrorAccessingTemplates;;
      g ← query (filepath.Glob (name ++ "*.json"));
      paths ← or_return g ErrorListingFiles;
      (match paths with
       | [] => print (NoSuchTemplate name);; exit
       | _ => mret tt
       end);;
      for_each paths (fun f =>
        r ← change (os.Remove f);
        match r with
        | Some err => print (ErrorDeletingFile f err)
        | None => mret tt
        end);;
      print (DeletedAll name)
  end.

Definition updateTemplate : M unit :=
  e ← ask;
  match Args e !! 2%nat with
  | None => print UsageUpdate
  | Some name =>
      (* Load current template to get version *)
      l ← query (loadTemplate name);
      tpl ← or_return l (fun _ => TemplateNotFound name);
      print EnterNewContent;;
      r ← ReadAll;
      content ← or_return r ErrorReadingContent;
      let tpl := {| Name := Name tpl;
                    Version := wrap64 (Version tpl + 1);     (* increment version *)
                    Template := content |} in
      let data := Marshal tpl in
      d ← ensureTemplateDir;
      or_return d ErrorCreatingDirectory;;
      w ← change (os.WriteFile (getTemplateVersionPath name (Version tpl)) data);
      or_return_unit w ErrorSavingVersioned;;
      (* Update latest pointer *)
      w' ← change (os.WriteFile (getTemplatePath name) data);
      (match w' with
       | Some err => print (WarningLatestPointer err)
       | None => mret tt
       end);;
      print (UpdatedTo name (Version tpl))
  end.

Definition reviewTemplate : M unit :=
  e ← ask;
  match Args e !! 2%nat with
  | None => print UsageReview
  | Some name =>
      l ← query (loadTemplate name);
      tpl ← or_return l (fun _ => ReviewNotFound name);
      print (ReviewContent name (Version tpl) (Template tpl))
  end.

Definition completion : M unit :=
  e ← ask;
  match Args e !! 2%nat with
  | None => print UsageCompletion
  | Some shell =>
      if String.eqb shell "bash" then print BashCompletionScript
      else if String.eqb shell "zsh" then print ZshCompletionScript
      else print (UnsupportedShell shell)
  end.

Definition showHistory : M unit :=
  r ← query (os.ReadFile getHistoryPath);
  match r with
  | Err err => if os.IsNotExist err then print NoHistoryFound
               else print (ErrorReadingHistory err)
  | Ok data => print (History data)
  end.

Definition listVersions : M unit :=
  e ← ask;
  match Args e !! 2%nat with
  | None => print UsageVersions
  | Some name =>
      g ← query (filepath.Glob (name ++ "_v*.json"));
      paths ← or_return g ErrorListingVersions;
      (match paths with
       | [] => print (NoVersionsFound name);; exit
       | _ => mret tt
       end);;
      print (VersionsHeader name);;
      for_each paths (fun f =>
        let base := filepath.Base f in           (* e.g. "example_v3.json" *)
        let verStr := TrimSuffix base ".json" in
        let verParts := Split verStr "_v" in
        match verParts with
        | [_; v] => print (VersionLine v)
        | _ => mret tt
        end)
  end.

Definition viewVersion : M unit :=
  e ← ask;
  match Args e !! 2%nat, Args e !! 3%nat with
  | Some name, Some versionStr =>
      version ← or_return (strconv.Atoi versionStr) (fun _ => InvalidVersionNumber versionStr);
      l ← query (loadTemplateVersion name version);
      tpl ← or_return l (fun _ => VersionNotFound version name);
      print (VersionContent name version (Template tpl))
  | _, _ => print UsageView
  end.

Definition openEditorForInput : M (string * option error) :=
  e ← ask;
  let editor := if String.eqb (EDITOR e) "" then "vim" else EDITOR e in
  emit TempCreate;;
  match TempFile e with
  | Err err => mret ("", Some err)
  | Ok tmpfile =>
      emit (EditorRun editor tmpfile);;
      let r := match RunEditor e editor with
               | Err err => ("", Some err)        (* cmd.Run *)
               | Ok (Err err) => ("", Some err)   (* os.ReadFile *)
               | Ok (Ok content) => (content, None)
               end in
      emit (TempRemove tmpfile);;                 (* defer os.Remove(tmpfile.Name()) *)
      mret r
  end.

Definition placeholder : string := "<input>".

(** Lines 300 to 324 of [generatePrompt]: where the input comes from. *)
Definition resolveInput : M string :=
  e ← ask;
  (* Check for --clip flag *)
  if bool_decide (Args e !! 3%nat = Some "--clip") then
    emit ClipboardRead;;
    input ← or_return (ClipRead e) FailedClipboardRead;
    print UsingClipboard;;
    mret input
  else
    match Args e !! 3%nat with
    | Some text => mret text
    | None =>
        '(input, err) ← openEditorForInput;
        if bool_decide (err ≠ None) || String.eqb (TrimSpace input) "" then
          emit ClipboardRead;;
          input ← or_return (ClipRead e) FailedClipboardRead;
          print UsingClipboardFallback;;
          mret input
        else
          print UsingEditor;;
          mret input
    end.

Section Generate.

Context {E : TemplateEngine}.

(** Lines 326 to 350 of [generatePrompt]: substitution, and the delivery
    of the prompt. *)
Definition finishPrompt (tpl : PromptTemplate) (input : string) : M unit :=
  e ← ask;
  (* Replace <input> with Go template syntax *)
  let normalizedTpl := ReplaceAll (Template tpl) placeholder "{{.Input}}" in
  let data : gmap string string := {[ "Input" := input ]} in
  tmpl ← or_return (Parse (Name tpl) normalizedTpl) TemplateParseError;
  promptStr ← or_return (Execute tmpl data) TemplateExecutionError;
  print (GeneratedPrompt (Version tpl) promptStr);;
  emit (ClipboardWrite promptStr);;
  match ClipWrite e promptStr with
  | Some err => print (WarningClipboardWrite err)
  | None => print CopiedToClipboard
  end.

Definition generatePrompt : M unit :=
  e ← ask;
  match Args e !! 2%nat with
  | None => print UsageGenerate
  | Some name =>
      l ← query (loadTemplate name);
      tpl ← or_return l ErrorLoadingTemplate;
      input ← resolveInput;
      finishPrompt tpl input
  end.

Definition main : M unit :=
  e ← ask;
  match Args e !! 1%nat with
  | None => print Usage
  | Some cmd =>
      if String.eqb cmd "add" then addTemplate
      else if String.eqb cmd "list" then listTemplates
      else if String.eqb cmd "delete" then deleteTemplate
      else if String.eqb cmd "update" then updateTemplate
      else if String.eqb cmd "generate" then generatePrompt
      else if String.eqb cmd "review" then reviewTemplate
      else if String.eqb cmd "completion" then completion
      else if String.eqb cmd "history" then showHistory
      else if String.eqb cmd "versions" then listVersions
      else if String.eqb cmd "view" then viewVersion
      else print Usage
  end.

End Generate.

(** ** Vocabulary of the statements *)

(** The state after more events. *)
Definition say (s : State) (evs : list event) : State :=
  {| fs := fs s; input := input s; out := out s ++ evs |}.

(** A computation that leaves the files and the standard input alone, and
    adds to the trace only events that satisfy [P]. *)
Definition only_says (P : event -> Prop) {A : Type} (m : M A) : Prop :=
  forall e s, exists evs, (m e s).2 = say s evs /\ Forall P evs.

(** The events of the resolution of the input, and those of the
    substitution and delivery. *)
Definition input_event (ev : event) : Prop :=
  match ev with
  | TempCreate | EditorRun _ _ | TempRemove _ | ClipboardRead
  | Print UsingClipboard | Print UsingClipboardFallback | Print UsingEditor
  | Print (FailedClipboardRead _) => True
  | _ => False
  end.

Definition delivery_event (ev : event) : Prop :=
  match ev with
  | Print (TemplateParseError _) | Print (TemplateExecutionError _)
  | Print (GeneratedPrompt _ _) | ClipboardWrite _
  | Print (WarningClipboardWrite _) | Print CopiedToClipboard => True
  | _ => False
  end.

(** A template without an opening delimiter of its own, and without a brace
    right before a placeholder (which would make one with the delimiter that
    replaces the placeholder). *)
Definition plain (content : string) : bool :=
  negb (Contains content "{{") && negb (Contains content ("{" +:+ placeholder)).

(** A computation that leaves the file at [path] as it is. *)
Definition keeps (path : string) {A : Type} (m : M A) : Prop :=
  forall e s, files (fs (m e s).2) !! path = files (fs s) !! path.

(** The bytes that mean something in a pattern, and text without them. *)
Definition special (c : ascii) : bool :=
  Pattern.is_byte c "*" || Pattern.is_byte c "?" || Pattern.is_byte c "\"
  || Pattern.is_byte c "[" || Pattern.is_byte c "]".

Fixpoint all_plain (s : string) : bool :=
  match s with
  | EmptyString => true
  | String c r => negb (special c) && all_plain r
  end.

(** The items of a plain text. *)
Definition lits (s : string) : list Pattern.item :=
  List.map Pattern.Lit (list_ascii_of_string s).

(** A path that is neither a latest record nor a version record. *)
Definition not_a_record (path : string) : Prop := forall stem, path <> stem +:+ ".json".

Fixpoint last_byte (s : string) : option ascii :=
  match s with
  | EmptyString => None
  | String c r => match r with
                  | EmptyString => Some c
                  | _ => last_byte r
                  end
  end.

(** Text without a path separator. *)
Fixpoint no_separator (s : string) : bool :=
  match s with
  | EmptyString => true
  | String c r => negb (Pattern.is_byte c Pattern.Separator) && no_separator r
  end.

(** The body of the loop of [deleteTemplate]. *)
Definition remove_and_report (f : string) : M unit :=
  r ← change (os.Remove f);
  match r with
  | Some err => print (ErrorDeletingFile f err)
  | None => mret tt
  end.

(** ** [unicode/utf8]

    [encoding/json] writes a string as it is where it is valid UTF-8 (what
    it escapes, it reads back), and puts U+FFFD for every byte that is not;
    [Marshal] above is what it does on valid text. *)

Module utf8.

(** [utf8.ValidString]: [need] is the number of continuation bytes still
    to come, and [lo], [hi] bound the next one (the second byte of a
    sequence has its own bounds after E0, ED, F0 and F4). *)
Fixpoint valid (need lo hi : nat) (s : string) : bool :=
  match s with
  | EmptyString => Nat.eqb need 0
  | String c r =>
      let n := nat_of_ascii c in
      match need with
      | O =>
          if Nat.ltb n 128 then valid 0 128 191 r
          else if Nat.leb 194 n && Nat.leb n 223 then valid 1 128 191 r
          else if Nat.eqb n 224 then valid 2 160 191 r
          else if Nat.leb 225 n && Nat.leb n 236 then valid 2 128 191 r
          else if Nat.eqb n 237 then valid 2 128 159 r
          else if Nat.leb 238 n && Nat.leb n 239 then valid 2 128 191 r
          else if Nat.eqb n 240 then valid 3 144 191 r
          else if Nat.leb 241 n && Nat.leb n 243 then valid 3 128 191 r
          else if Nat.eqb n 244 then valid 3 128 143 r
          else false
      | S k => Nat.leb lo n && Nat.leb n hi && valid k 128 191 r
      end
  end.

Definition ValidString (s : string) : bool := valid 0 128 191 s.

End utf8.

(** ** Vocabulary of the further properties *)

(** The value of a decimal numeral, read from the left as [strconv.digits]
    reads its text. *)
Fixpoint horner (acc : Z) (d : Decimal.uint) : Z :=
  match d with
  | Decimal.Nil => acc
  | Decimal.D0 d => horner (10 * acc + 0) d
  | Decimal.D1 d => horner (10 * acc + 1) d
  | Decimal.D2 d => horner (10 * acc + 2) d
  | Decimal.D3 d => horner (10 * acc + 3) d
  | Decimal.D4 d => horner (10 * acc + 4) d
  | Decimal.D5 d => horner (10 * acc + 5) d
  | Decimal.D6 d => horner (10 * acc + 6) d
  | Decimal.D7 d => horner (10 * acc + 7) d
  | Decimal.D8 d => horner (10 * acc + 8) d
  | Decimal.D9 d => horner (10 * acc + 9) d
  end.

(** Text of ASCII white space only. *)
Fixpoint blank (s : string) : bool :=
  match s with
  | EmptyString => true
  | String c r => ascii_space c && blank r
  end.

(** Text of decimal digits and minus signs, as [%d] prints an [int]. *)
Fixpoint numeral (s : string) : bool :=
  match s with
  | EmptyString => true
  | String c r => (TextTemplate.digit c || Pattern.is_byte c "-") && numeral r
  end.

(** The events of the editor. *)
Definition editor_event (ev : event) : Prop :=
  match ev with
  | TempCreate | EditorRun _ _ | TempRemove _ => True
  | _ => False
  end.

(** The events of a clipboard read, with its messages. *)
Definition clipboard_event (ev : event) : Prop :=
  match ev with
  | ClipboardRead | Print UsingClipboard | Print UsingClipboardFallback
  | Print UsingEditor | Print (FailedClipboardRead _) => True
  | _ => False
  end.

(** One invocation of the program after the other, each in a process of its
    own, on the directory that the one before has left. *)
Fixpoint session {E : TemplateEngine} (es : list Env) (f : FileSystem) : FileSystem :=
  match es with
  | [] => f
  | e :: es' => session es' (run main e f).1
  end.

(** ** Concrete surroundings and stores *)

Definition nl : string := String "010" "".

(** No editor, no clipboard to read from, a clipboard that accepts what is
    written to it. *)
Definition quiet (args : list string) (stdin : string) : Env :=
  {| Args := args; Stdin := stdin; StdinErr := None; EDITOR := "";
     TempFile := Err (ErrOther "no scratch file");
     RunEditor := fun _ => Err (ErrOther "no editor");
     ClipRead := Err (ErrOther "no clipboard");
     ClipWrite := fun _ => None |}.

(** A clipboard that holds [clip]. *)
Definition clip_env (args : list string) (clip : string) : Env :=
  {| Args := args; Stdin := ""; StdinErr := None; EDITOR := "";
     TempFile := Err (ErrOther "no scratch file");
     RunEditor := fun _ => Err (ErrOther "no editor");
     ClipRead := Ok clip;
     ClipWrite := fun _ => None |}.

(** An editor that leaves [text] in the scratch file, and no clipboard to
    read from. *)
Definition editor_env (args : list string) (text : string) : Env :=
  {| Args := args; Stdin := ""; StdinErr := None; EDITOR := "";
     TempFile := Ok "/tmp/promptgen_input_1.txt";
     RunEditor := fun _ => Ok (Ok text);
     ClipRead := Err (ErrOther "no clipboard");
     ClipWrite := fun _ => None |}.

(** A healthy directory with the given files. *)
Definition store (l : list (string * file_data)) : FileSystem :=
  {| files := list_to_map l; denied := ∅; dir_blocked := false |}.

Definition record (name : string) (version : Z) (content : string) : file_data :=
  Json {| Name := name; Version := version; Template := content |}.

(** A version record that has lost its latest record. *)
Definition orphan_store : FileSystem := store [("sum_v1.json", record "sum" 1 "old")].

(** A latest record that is one version behind the version records. *)
Definition stale_store : FileSystem :=
  store [("sum.json", record "sum" 1 "one");
         ("sum_v1.json", record "sum" 1 "one");
         ("sum_v2.json", record "sum" 2 "lost")].

(** A template with an action of its own, which is never closed. *)
Definition dear_store : FileSystem :=
  store [("dear.json", record "dear" 1 "<input>, yours {{name")].

(** A brace right before the placeholder. *)
Definition brace_store : FileSystem := store [("t.json", record "t" 1 "{<input>")].

(** An action that is never closed. *)
Definition unclosed_store : FileSystem := store [("u.json", record "u" 1 "Dear {{name")].

Definition summarize_store : FileSystem :=
  store [("s.json", record "s" 1 ("Summarize:" +:+ nl +:+ "<input>"))].

Definition sum_store : FileSystem :=
  store [("sum.json", record "sum" 1 "Q: <input>");
         ("sum_v1.json", record "sum" 1 "Q: <input>")].

Definition summary_store : FileSystem :=
  store [("summary.json", record "summary" 1 "S: <input>");
         ("summary_v1.json", record "summary" 1 "S: <input>")].

Definition two_templates : FileSystem :=
  store [("sum.json", record "sum" 1 "Q: <input>");
         ("sum_v1.json", record "sum" 1 "Q: <input>");
         ("summary.json", record "summary" 1 "S: <input>");
         ("summary_v1.json", record "summary" 1 "S: <input>")].

(** A template with a field of its own. *)
Definition field_store : FileSystem :=
  store [("hi.json", record "hi" 1 "Hi {{.Name}} <input>")].

(** The store after [add] of a template named [my_var]. *)
Definition my_var_store : FileSystem :=
  (run addTemplate (quiet ["promptgen"; "add"] ("my_var" +:+ nl +:+ "Q: <input>")) (store [])).1.

(** One [update] per element of [contents], each in a process of its own. *)
Fixpoint updates (name : string) (contents : list string) (f : FileSystem) : FileSystem :=
  match contents with
  | [] => f
  | c :: cs => updates name cs (run updateTemplate (quiet ["promptgen"; "update"; name] c) f).1
  end.

(** * Properties *)

Local Open Scope list_scope.

(** ** The library functions on examples *)

Example TrimSpace_ex : TrimSpace (" sum" ++ String "009" (String "010" "")) = "sum".
Proof. reflexivity. Qed.

Example TrimSpace_nbsp :
  TrimSpace (String "194" (String "160" (String "226" (String "128" (String "131" ""))))) = "".
Proof. reflexivity. Qed.

Example Split_ex : Split "my_var_v1" "_v" = ["my"; "ar"; "1"].
Proof. reflexivity. Qed.

Example Split_ex2 : Split "example_v3" "_v" = ["example"; "3"].
Proof. reflexivity. Qed.

Example ReplaceAll_ex : ReplaceAll "a<input>b<input>" "<input>" "{{.Input}}" = "a{{.Input}}b{{.Input}}".
Proof. reflexivity. Qed.

Example TrimSuffix_ex : TrimSuffix "example_v3.json" ".json" = "example_v3".
Proof. reflexivity. Qed.

Example Match_json : Pattern.Match "*.json" "sum_v1.json" = Some true.
Proof. reflexivity. Qed.

Example Match_class : Pattern.Match "[a-c]?\*.j*" "bx*.json" = Some true.
Proof. reflexivity. Qed.

Example Match_bad : Pattern.Match "a[*.json" "a.json" = None.
Proof. reflexivity. Qed.

Example Match_sep : Pattern.Match "a*.json" "a/b.json" = Some false.
Proof. reflexivity. Qed.

Example getTemplateVersionPath_ex : getTemplateVersionPath "example" 3 = "example_v3.json".
Proof. reflexivity. Qed.

Example Atoi_ex : strconv.Atoi "-042" = Ok (-42)%Z.
Proof. reflexivity. Qed.

Example Atoi_bad : strconv.Atoi "4x" = Err ErrSyntax.
Proof. reflexivity. Qed.

Example parse_ex :
  TextTemplate.parse "Q: {{.Input}}!" =
  TextTemplate.Tree [TextTemplate.TextNode "Q: "; TextTemplate.FieldNode "Input"; TextTemplate.TextNode "!"].
Proof. reflexivity. Qed.

Example parse_brace : TextTemplate.parse "{{{.Input}}" = TextTemplate.Rejected.
Proof. reflexivity. Qed.

Example parse_unclosed : TextTemplate.parse "a {{ b" = TextTemplate.Rejected.
Proof. reflexivity. Qed.

Example parse_pipeline : TextTemplate.parse "{{ .Input | len }}" = TextTemplate.Beyond.
Proof. reflexivity. Qed.

(** ** Running a computation *)

Lemma say_nil s : say s [] = s.
Proof. destruct s; unfold say; simpl. by rewrite app_nil_r. Qed.

Lemma say_say s evs evs' : say (say s evs) evs' = say s (evs ++ evs').
Proof. unfold say; simpl. by rewrite app_assoc. Qed.

Lemma bind_run {A B} (m : M A) (f : A -> M B) e s :
  (m ≫= f) e s = match m e s with
                 | (Some a, s') => f a e s'
                 | (None, s') => (None, s')
                 end.
Proof. reflexivity. Qed.

Lemma emit_run ev e s : emit ev e s = (Some tt, say s [ev]).
Proof. reflexivity. Qed.

Lemma print_run m e s : print m e s = (Some tt, say s [Print m]).
Proof. reflexivity. Qed.

Lemma ret_run {A} (a : A) e s : (mret a : M A) e s = (Some a, s).
Proof. reflexivity. Qed.

Lemma exit_run {A} e s : @exit A e s = (None, s).
Proof. reflexivity. Qed.

Lemma ask_run e s : ask e s = (Some e, s).
Proof. reflexivity. Qed.

Lemma query_run {A} (op : FileSystem -> A) e s : query op e s = (Some (op (fs s)), s).
Proof. reflexivity. Qed.

Lemma change_run op e s :
  change op e s = match op (fs s) with
                  | Ok f' => (Some None, {| fs := f'; input := input s; out := out s |})
                  | Err x => (Some (Some x), s)
                  end.
Proof. unfold change. rewrite bind_run. cbn. by destruct (op (fs s)). Qed.

Lemma ReadAll_run e s :
  ReadAll e s = (Some (match StdinErr e with
                       | Some err => Err err
                       | None => Ok (input s)
                       end),
                 {| fs := fs s; input := ""; out := out s |}).
Proof. unfold ReadAll. by destruct (StdinErr e). Qed.

Lemma run_of_state (cmd : M unit) e f r f' i o :
  cmd e (init e f) = (r, {| fs := f'; input := i; out := o |}) ->
  run cmd e f = (f', o).
Proof. intros H. unfold run. by rewrite H. Qed.

(** Runs the steps of a computation that do not depend on an unknown. *)
Ltac mrun :=
  cbv [mbind M_bind mret M_ret print emit exit ask query change getFS putFS
       or_return or_return_unit ensureTemplateDir say];
  cbn [fst snd fs input out].

(** Runs the next step of a computation. *)
Ltac mstep :=
  first
    [ progress cbn [or_return or_return_unit]
    | rewrite ?bind_run;
      first [ rewrite print_run | rewrite emit_run | rewrite ask_run
            | rewrite query_run | rewrite ret_run | rewrite exit_run
            | rewrite ReadAll_run ];
      unfold say; cbn [fs input out app] ].

(** ** What a computation adds to the trace *)

Section OnlySays.

Context (P : event -> Prop).

Lemma only_says_ret {A} (a : A) : only_says P (mret a).
Proof. intros e s. exists []. by rewrite say_nil. Qed.

Lemma only_says_exit {A} : only_says P (@exit A).
Proof. intros e s. exists []. by rewrite say_nil. Qed.

Lemma only_says_ask : only_says P ask.
Proof. intros e s. exists []. by rewrite say_nil. Qed.

Lemma only_says_query {A} (op : FileSystem -> A) : only_says P (query op).
Proof. intros e s. exists []. by rewrite say_nil. Qed.

Lemma only_says_emit ev : P ev -> only_says P (emit ev).
Proof. intros H e s. exists [ev]. split; [done | by constructor]. Qed.

Lemma only_says_print m : P (Print m) -> only_says P (print m).
Proof. apply only_says_emit. Qed.

Lemma only_says_bind {A B} (m : M A) (f : A -> M B) :
  only_says P m -> (forall a, only_says P (f a)) -> only_says P (m ≫= f).
Proof.
  intros Hm Hf e s. rewrite bind_run.
  destruct (Hm e s) as (evs & Hs & Hevs).
  destruct (m e s) as [[a|] s']; simpl in Hs; subst s'.
  - destruct (Hf a e (say s evs)) as (evs' & Hs' & Hevs').
    exists (evs ++ evs'). rewrite Hs', say_say. split; [done | by apply Forall_app].
  - by exists evs.
Qed.

Lemma only_says_or_return {A} (r : result A) msg :
  (forall e, P (Print (msg e))) -> only_says P (or_return r msg).
Proof.
  intros H. destruct r; simpl.
  - apply only_says_ret.
  - apply only_says_bind; [by apply only_says_print | intros; apply only_says_exit].
Qed.

Lemma only_says_weaken (Q : event -> Prop) {A} (m : M A) :
  (forall ev, Q ev -> P ev) -> only_says Q m -> only_says P m.
Proof.
  intros HQ Hm e s. destruct (Hm e s) as (evs & Hs & Hevs).
  exists evs. split; [done | by eapply Forall_impl].
Qed.

End OnlySays.

Ltac says :=
  repeat first
    [ apply only_says_ret | apply only_says_exit | apply only_says_ask
    | apply only_says_query
    | apply only_says_or_return; intros; simpl; tauto
    | apply only_says_print; simpl; tauto
    | apply only_says_emit; simpl; tauto
    | apply only_says_bind; [| intros ?]
    | match goal with
      | |- only_says _ (match ?x with _ => _ end) => destruct x
      | |- only_says _ (let '(_, _) := ?x in _) => destruct x
      end ].

Lemma only_says_fs (P : event -> Prop) {A} (m : M A) e s :
  only_says P m -> fs (m e s).2 = fs s.
Proof. intros Hm. destruct (Hm e s) as (evs & -> & _). done. Qed.

Lemma only_says_out (P : event -> Prop) {A} (m : M A) e f :
  only_says P m -> Forall P (out (m e (init e f)).2).
Proof. intros Hm. destruct (Hm e (init e f)) as (evs & -> & ?). done. Qed.

Lemma openEditorForInput_says : only_says input_event openEditorForInput.
Proof. unfold openEditorForInput. says. Qed.

Lemma resolveInput_says : only_says input_event resolveInput.
Proof.
  unfold resolveInput. says; try apply openEditorForInput_says.
Qed.

Lemma finishPrompt_says `{TemplateEngine} tpl text :
  only_says delivery_event (finishPrompt tpl text).
Proof. unfold finishPrompt. says. Qed.

Lemma generatePrompt_says `{TemplateEngine} : only_says (fun _ => True) generatePrompt.
Proof.
  unfold generatePrompt. says.
Qed.

(** ** The generation pipeline: where the input comes from, and parse errors *)

Lemma resolveInput_inline e s x :
  Args e !! 3%nat = Some x -> x <> "--clip" -> resolveInput e s = (Some x, s).
Proof.
  intros Hx Hne. unfold resolveInput. rewrite bind_run. cbn [ask].
  rewrite bool_decide_eq_false_2 by (rewrite Hx; congruence).
  rewrite Hx. reflexivity.
Qed.

Section Generation.

Context {E : TemplateEngine}.

Lemma generatePrompt_loaded e s name tpl :
  Args e !! 2%nat = Some name ->
  loadTemplate name (fs s) = Ok tpl ->
  generatePrompt e s = (resolveInput ≫= finishPrompt tpl) e s.
Proof.
  intros Hname Hload. unfold generatePrompt at 1.
  rewrite bind_run. cbn [ask]. rewrite Hname.
  rewrite bind_run. cbn [query]. rewrite Hload. reflexivity.
Qed.

Lemma finishPrompt_rejected tpl text e s x :
  Parse (Name tpl) (ReplaceAll (Template tpl) placeholder "{{.Input}}") = Err x ->
  finishPrompt tpl text e s = (None, say s [Print (TemplateParseError x)]).
Proof.
  intros Hparse. unfold finishPrompt. rewrite bind_run. cbn [ask].
  rewrite Hparse. reflexivity.
Qed.

Lemma finishPrompt_rendered tpl text e s t prompt :
  Parse (Name tpl) (ReplaceAll (Template tpl) placeholder "{{.Input}}") = Ok t ->
  Execute t {[ "Input" := text ]} = Ok prompt ->
  finishPrompt tpl text e s =
  (Some tt, say s [Print (GeneratedPrompt (Version tpl) prompt);
                   ClipboardWrite prompt;
                   Print (match ClipWrite e prompt with
                          | Some err => WarningClipboardWrite err
                          | None => CopiedToClipboard
                          end)]).
Proof.
  intros Hparse Hexec. unfold finishPrompt. rewrite bind_run. cbn [ask].
  rewrite Hparse. cbn [or_return]. rewrite bind_run. cbn [mret M_ret].
  rewrite Hexec. cbn [or_return]. rewrite bind_run. cbn [mret M_ret].
  rewrite bind_run, print_run, bind_run, emit_run, say_say.
  destruct (ClipWrite e prompt); rewrite print_run, say_say; reflexivity.
Qed.

(** Generation never touches the files. *)
Lemma generatePrompt_keeps_files e f : (run generatePrompt e f).1 = f.
Proof.
  unfold run. cbn [fst]. apply (only_says_fs (fun _ => True)), generatePrompt_says.
Qed.

(** When the template engine rejects the normalised template, the
    generation stops at the parse error: after the events of the input
    resolution the only thing printed is the parse error; no prompt is
    printed and nothing is written to the clipboard. *)
Theorem unparsable_template_fails e f name tpl text s1 x :
  Args e !! 2%nat = Some name ->
  loadTemplate name f = Ok tpl ->
  resolveInput e (init e f) = (Some text, s1) ->
  Parse (Name tpl) (ReplaceAll (Template tpl) placeholder "{{.Input}}") = Err x ->
  run generatePrompt e f = (f, out s1 ++ [Print (TemplateParseError x)])
  /\ Forall input_event (out s1).
Proof.
  intros Hname Hload Hin Hparse.
  pose proof (only_says_fs _ resolveInput e (init e f) resolveInput_says) as Hfs.
  pose proof (only_says_out _ resolveInput e f resolveInput_says) as Hout.
  rewrite Hin in Hfs, Hout. simpl in Hfs, Hout. split; [| done].
  unfold run. rewrite (generatePrompt_loaded _ _ name tpl) by done.
  rewrite bind_run, Hin, (finishPrompt_rejected _ _ _ _ x) by done.
  simpl. by rewrite Hfs.
Qed.

(** C5. An inline text (a fourth argument that is not the [--clip] flag) is
    the input as it stands: resolving it adds no event, the prompt is made
    from it, and the run neither reads the clipboard nor creates a scratch
    file nor starts the editor. *)
Theorem inline_text_used_verbatim e f x :
  Args e !! 3%nat = Some x ->
  x <> "--clip" ->
  (forall s, resolveInput e s = (Some x, s))
  /\ (forall name tpl,
        Args e !! 2%nat = Some name -> loadTemplate name f = Ok tpl ->
        generatePrompt e (init e f) = finishPrompt tpl x e (init e f))
  /\ (let trace := (run generatePrompt e f).2 in
      (ClipboardRead ∉ trace) /\ (TempCreate ∉ trace) /\
      forall program path, EditorRun program path ∉ trace).
Proof.
  intros Hx Hne.
  assert (Hres : forall s, resolveInput e s = (Some x, s))
    by (intros; by apply resolveInput_inline).
  assert (Hgen : forall name tpl,
             Args e !! 2%nat = Some name -> loadTemplate name f = Ok tpl ->
             generatePrompt e (init e f) = finishPrompt tpl x e (init e f)).
  { intros name tpl Hname Hload.
    rewrite (generatePrompt_loaded _ _ name tpl) by done.
    by rewrite bind_run, Hres. }
  split; [done | split; [done |]].
  assert (Hev : Forall (fun ev => delivery_event ev \/ ev = Print UsageGenerate
                                  \/ exists err, ev = Print (ErrorLoadingTemplate err))
                  (run generatePrompt e f).2).
  { unfold run. cbn [snd].
    destruct (Args e !! 2%nat) as [name|] eqn:Hname.
    - destruct (loadTemplate name f) as [tpl|err] eqn:Hload.
      + rewrite (Hgen name tpl) by done.
        eapply Forall_impl; [apply (only_says_out _ _ e f (finishPrompt_says tpl x)) |].
        tauto.
      + unfold generatePrompt. rewrite bind_run. cbn [ask]. rewrite Hname.
        rewrite bind_run. cbn [query init fs]. rewrite Hload.
        simpl. apply Forall_singleton. right; right; by exists err.
    - unfold generatePrompt. rewrite bind_run. cbn [ask]. rewrite Hname.
      simpl. apply Forall_singleton. tauto. }
  rewrite Forall_forall in Hev. cbn zeta.
  repeat split; [| | intros program path]; intros Hin;
    destruct (Hev _ Hin) as [H | [H | [err H]]]; try discriminate H;
    exact H.
Qed.

(** C8. Without a fourth argument the editor is asked first; when it fails
    or returns only white space the clipboard is read; when that fails too
    the generation ends with the clipboard error and nothing more. *)
Theorem editor_falls_back_to_clipboard e f name tpl text err :
  Args e !! 2%nat = Some name ->
  Args e !! 3%nat = None ->
  loadTemplate name f = Ok tpl ->
  (openEditorForInput e (init e f)).1 = Some (text, err) ->
  err <> None \/ TrimSpace text = "" ->
  let s1 := (openEditorForInput e (init e f)).2 in
  match ClipRead e with
  | Ok clip =>
      resolveInput e (init e f)
      = (Some clip, say s1 [ClipboardRead; Print UsingClipboardFallback])
  | Err x =>
      resolveInput e (init e f)
      = (None, say s1 [ClipboardRead; Print (FailedClipboardRead x)])
      /\ run generatePrompt e f
         = (f, out s1 ++ [ClipboardRead; Print (FailedClipboardRead x)])
  end.
Proof.
  intros Hname Hno Hload Hed Hbad s1.
  pose proof (only_says_fs _ openEditorForInput e (init e f) openEditorForInput_says) as Hfs.
  fold s1 in Hfs.
  assert (Hres : resolveInput e (init e f) =
                 match ClipRead e with
                 | Ok clip => (Some clip, say s1 [ClipboardRead; Print UsingClipboardFallback])
                 | Err x => (None, say s1 [ClipboardRead; Print (FailedClipboardRead x)])
                 end).
  { unfold resolveInput. rewrite bind_run. cbn [ask].
    rewrite bool_decide_eq_false_2 by (rewrite Hno; congruence).
    rewrite Hno, bind_run. subst s1.
    destruct (openEditorForInput e (init e f)) as [r s1]. simpl in Hed. subst r.
    cbn [snd].
    replace (bool_decide (err ≠ None) || String.eqb (TrimSpace text) "") with true.
    2:{ symmetry. destruct Hbad as [H | H].
        - by rewrite bool_decide_eq_true_2.
        - rewrite H. by rewrite orb_true_r. }
    rewrite bind_run, emit_run.
    destruct (ClipRead e) as [clip|x]; mrun; by rewrite <- ?app_assoc. }
  destruct (ClipRead e) as [clip|x]; [done | split; [done |]].
  unfold run. rewrite (generatePrompt_loaded _ _ name tpl) by done.
  rewrite bind_run, Hres. simpl. by rewrite Hfs.
Qed.

End Generation.

Lemma unparsable_template_fails_witness :
  run (generatePrompt (E := TextTemplate.fragment))
      (clip_env ["promptgen"; "generate"; "u"; "--clip"] "x") unclosed_store
  = (unclosed_store,
     [ClipboardRead; Print UsingClipboard; Print (TemplateParseError ErrSyntax)])
  /\ Forall input_event [ClipboardRead; Print UsingClipboard].
Proof.
  apply (unparsable_template_fails (E := TextTemplate.fragment)
           (clip_env ["promptgen"; "generate"; "u"; "--clip"] "x") unclosed_store "u"
           {| Name := "u"; Version := 1; Template := "Dear {{name" |} "x"
           {| fs := unclosed_store; input := ""; out := [ClipboardRead; Print UsingClipboard] |}
           ErrSyntax); reflexivity.
Defined.

Lemma inline_text_used_verbatim_witness :
  (forall s, resolveInput (quiet ["promptgen"; "generate"; "sum"; "x"] "") s = (Some "x", s))
  /\ (forall name tpl,
        Args (quiet ["promptgen"; "generate"; "sum"; "x"] "") !! 2%nat = Some name ->
        loadTemplate name sum_store = Ok tpl ->
        generatePrompt (E := TextTemplate.fragment)
          (quiet ["promptgen"; "generate"; "sum"; "x"] "")
          (init (quiet ["promptgen"; "generate"; "sum"; "x"] "") sum_store)
        = finishPrompt (E := TextTemplate.fragment) tpl "x"
            (quiet ["promptgen"; "generate"; "sum"; "x"] "")
            (init (quiet ["promptgen"; "generate"; "sum"; "x"] "") sum_store))
  /\ (let trace := (run (generatePrompt (E := TextTemplate.fragment))
                        (quiet ["promptgen"; "generate"; "sum"; "x"] "") sum_store).2 in
      (ClipboardRead ∉ trace) /\ (TempCreate ∉ trace) /\
      forall program path, EditorRun program path ∉ trace).
Proof.
  apply (inline_text_used_verbatim (E := TextTemplate.fragment)
           (quiet ["promptgen"; "generate"; "sum"; "x"] "") sum_store "x");
    [reflexivity | discriminate].
Defined.

Lemma editor_falls_back_to_clipboard_witness :
  resolveInput (editor_env ["promptgen"; "generate"; "sum"] ("  " +:+ nl))
    (init (editor_env ["promptgen"; "generate"; "sum"] ("  " +:+ nl)) sum_store)
  = (None,
     {| fs := sum_store; input := "";
        out := [TempCreate; EditorRun "vim" "/tmp/promptgen_input_1.txt";
                TempRemove "/tmp/promptgen_input_1.txt"; ClipboardRead;
                Print (FailedClipboardRead (ErrOther "no clipboard"))] |})
  /\ run (generatePrompt (E := TextTemplate.fragment))
         (editor_env ["promptgen"; "generate"; "sum"] ("  " +:+ nl)) sum_store
     = (sum_store,
        [TempCreate; EditorRun "vim" "/tmp/promptgen_input_1.txt";
         TempRemove "/tmp/promptgen_input_1.txt"; ClipboardRead;
         Print (FailedClipboardRead (ErrOther "no clipboard"))]).
Proof.
  exact (editor_falls_back_to_clipboard (E := TextTemplate.fragment)
           (editor_env ["promptgen"; "generate"; "sum"] ("  " +:+ nl)) sum_store "sum"
           {| Name := "sum"; Version := 1; Template := "Q: <input>" |}
           ("  " +:+ nl) None eq_refl eq_refl eq_refl eq_refl (or_intror eq_refl)).
Defined.

(** ** Substitution *)

Lemma plain_tail c r : plain (String c r) = true -> plain r = true.
Proof.
  unfold plain. rewrite !andb_true_iff, !negb_true_iff.
  cbn [Contains]. rewrite !orb_false_iff. tauto.
Qed.

Lemma HasPrefix_cons a p b s :
  HasPrefix (String b s) (String a p) = true <-> a = b /\ HasPrefix s p = true.
Proof.
  cbn [HasPrefix]. rewrite andb_true_iff.
  by destruct (Ascii.eqb_spec a b); intuition.
Qed.

Lemma HasPrefix_app p s : HasPrefix (p +:+ s) p = true.
Proof.
  induction p as [|a p IH]; [done |].
  change (String a p +:+ s) with (String a (p +:+ s)).
  apply HasPrefix_cons. by split.
Qed.

(** The normalised template starts with a brace only where the content
    starts with a brace or with a placeholder. *)
Lemma replace_from_head new r :
  HasPrefix (replace_from placeholder ("{" +:+ new) 0 r) "{" = true ->
  HasPrefix r "{" = true \/ HasPrefix r placeholder = true.
Proof.
  destruct r as [|a r]; [discriminate |].
  cbn [replace_from]. destruct (HasPrefix (String a r) placeholder); [tauto |].
  intros H. left. apply HasPrefix_cons in H as [<- _].
  by apply HasPrefix_cons.
Qed.

Lemma render_cons_char data c ns ns' :
  TextTemplate.cons_char c (TextTemplate.Tree ns) = TextTemplate.Tree ns' ->
  TextTemplate.render data ns' = String c (TextTemplate.render data ns).
Proof.
  destruct ns as [|[t|i] ns]; cbn; intros [= <-]; reflexivity.
Qed.

Lemma scan_placeholder rest :
  TextTemplate.scan 0 ("{{.Input}}" +:+ rest)
  = TextTemplate.cons_node (TextTemplate.FieldNode "Input") (TextTemplate.scan 0 rest).
Proof. reflexivity. Qed.

(** The engine's reading of a normalised plain template: the text between
    the placeholders, and a field for each placeholder. *)
Lemma scan_normalised data content skip text :
  plain content = true ->
  data !! "Input" = Some text ->
  exists ns,
    TextTemplate.scan 0 (replace_from placeholder "{{.Input}}" skip content)
    = TextTemplate.Tree ns
    /\ TextTemplate.render data ns = replace_from placeholder text skip content.
Proof.
  intros Hplain Hdata. revert skip.
  induction content as [|c r IH]; intros skip.
  - exists []. done.
  - specialize (IH (plain_tail _ _ Hplain)).
    destruct skip as [|k]; [| apply IH].
    cbn [replace_from].
    destruct (HasPrefix (String c r) placeholder) eqn:Hph.
    + destruct (IH (String.length placeholder - 1)) as (ns & Hscan & Hrender).
      exists (TextTemplate.FieldNode "Input" :: ns).
      rewrite scan_placeholder, Hscan. split; [done |].
      cbn [TextTemplate.render TextTemplate.eval]. by rewrite Hdata, Hrender.
    + destruct (IH 0) as (ns & Hscan & Hrender).
      assert (Hno : HasPrefix (String c (replace_from placeholder "{{.Input}}" 0 r)) "{{"
                    = false).
      { apply not_true_is_false. intros H.
        apply HasPrefix_cons in H as [<- H].
        apply (replace_from_head "{.Input}}") in H.
        unfold plain in Hplain. rewrite andb_true_iff, !negb_true_iff in Hplain.
        destruct Hplain as [H1 H2]. cbn [Contains] in H1, H2.
        apply orb_false_iff in H1 as [H1 _], H2 as [H2 _].
        destruct H as [H | H].
        - rewrite (proj2 (HasPrefix_cons _ _ _ _)) in H1; [done | by split].
        - change ("{" +:+ placeholder) with (String "{" placeholder) in H2.
          rewrite (proj2 (HasPrefix_cons _ _ _ _)) in H2; [done | by split]. }
      cbn [TextTemplate.scan]. rewrite Hno, Hscan.
      destruct (TextTemplate.cons_char c (TextTemplate.Tree ns)) as [ns'| |] eqn:Hc;
        try (by destruct ns as [|[?|?] ?]).
      exists ns'. split; [done |].
      by rewrite (render_cons_char _ _ _ _ Hc), Hrender.
Qed.

(** What [strings.ReplaceAll] does with the placeholder: content without
    it is left as it is; at a placeholder the replacement is put in as it
    stands, whatever it contains, and the scan goes on behind the
    placeholder. *)
Lemma ReplaceAll_without_placeholder content text :
  Contains content placeholder = false ->
  ReplaceAll content placeholder text = content.
Proof.
  unfold ReplaceAll. induction content as [|c r IH]; [done |].
  cbn [Contains]. intros [Hhere Hrest]%orb_false_iff.
  cbn [replace_from]. rewrite Hhere. by rewrite IH.
Qed.

Lemma ReplaceAll_at_placeholder before after text :
  Contains before "<" = false ->
  ReplaceAll (before +:+ placeholder +:+ after) placeholder text
  = before +:+ text +:+ ReplaceAll after placeholder text.
Proof.
  unfold ReplaceAll. induction before as [|c r IH].
  - intros _. change ("" +:+ placeholder +:+ after) with (placeholder +:+ after).
    change ("" +:+ text +:+ replace_from placeholder text 0 after)
      with (text +:+ replace_from placeholder text 0 after).
    change (placeholder +:+ after) with (String "<" ("input>" +:+ after)).
    cbn [replace_from]. rewrite (HasPrefix_app placeholder after : HasPrefix (String "<" ("input>" +:+ after)) placeholder = true).
    reflexivity.
  - cbn [Contains]. intros [Hhere Hrest]%orb_false_iff.
    change (String c r +:+ placeholder +:+ after)
      with (String c (r +:+ placeholder +:+ after)).
    cbn [replace_from].
    replace (HasPrefix (String c (r +:+ placeholder +:+ after)) placeholder) with false.
    + rewrite IH by done. reflexivity.
    + symmetry. apply not_true_is_false. intros H.
      apply HasPrefix_cons in H as [<- _]. by rewrite (proj2 (HasPrefix_cons _ _ _ _)) in Hhere.
Qed.

Lemma fragment_conforms : TextTemplate.conforms TextTemplate.fragment.
Proof.
  intros name text. cbn [Parse Execute TextTemplate.fragment].
  destruct (TextTemplate.parse text); eauto.
Qed.

(** C7, as stated, fails: a template with an action of its own is template
    text, and when the engine rejects it nothing is substituted; the claim
    has ["x, yours {{name"] for this one. *)
Lemma template_with_own_action_not_substituted :
  run (generatePrompt (E := TextTemplate.fragment))
      (quiet ["promptgen"; "generate"; "dear"; "x"] "") dear_store
  = (dear_store, [Print (TemplateParseError ErrSyntax)])
  /\ ReplaceAll "<input>, yours {{name" placeholder "x" = "x, yours {{name".
Proof. split; reflexivity. Qed.

Section Substitution.

Context {E : TemplateEngine}.

(** C7, amended.  For a template that has no opening delimiter of its own
    and no brace right before a placeholder, the prompt is the content with
    every placeholder replaced by the input, as [strings.ReplaceAll] does
    it: left to right, in one pass over the content, the input taken as it
    is. *)
Theorem plain_template_substitution e f name tpl text s1 :
  TextTemplate.conforms E ->
  Args e !! 2%nat = Some name ->
  loadTemplate name f = Ok tpl ->
  plain (Template tpl) = true ->
  resolveInput e (init e f) = (Some text, s1) ->
  let prompt := ReplaceAll (Template tpl) placeholder text in
  run generatePrompt e f =
  (f, out s1 ++ [Print (GeneratedPrompt (Version tpl) prompt);
                 ClipboardWrite prompt;
                 Print (match ClipWrite e prompt with
                        | Some err => WarningClipboardWrite err
                        | None => CopiedToClipboard
                        end)]).
Proof.
  intros HE Hname Hload Hplain Hin prompt.
  pose proof (only_says_fs _ resolveInput e (init e f) resolveInput_says) as Hfs.
  rewrite Hin in Hfs. cbn [snd init fs] in Hfs.
  destruct (scan_normalised {[ "Input" := text ]} (Template tpl) 0 text Hplain)
    as (ns & Hscan & Hrender); [apply lookup_singleton_eq |].
  specialize (HE (Name tpl) (ReplaceAll (Template tpl) placeholder "{{.Input}}")).
  unfold TextTemplate.parse, ReplaceAll in HE. rewrite Hscan in HE.
  destruct HE as (t & Hparse & Hexec).
  unfold run. rewrite (generatePrompt_loaded _ _ name tpl) by done.
  rewrite bind_run, Hin.
  rewrite (finishPrompt_rendered tpl text e s1 t prompt).
  - cbn [snd fst say fs out]. by rewrite Hfs.
  - exact Hparse.
  - rewrite Hexec, Hrender. reflexivity.
Qed.

End Substitution.

Lemma plain_template_substitution_witness :
  run (generatePrompt (E := TextTemplate.fragment))
      (quiet ["promptgen"; "generate"; "s"; "hello"] "") summarize_store
  = (summarize_store,
     [Print (GeneratedPrompt 1 ("Summarize:" +:+ nl +:+ "hello"));
      ClipboardWrite ("Summarize:" +:+ nl +:+ "hello");
      Print CopiedToClipboard]).
Proof.
  apply (plain_template_substitution (E := TextTemplate.fragment)
           (quiet ["promptgen"; "generate"; "s"; "hello"] "") summarize_store "s"
           {| Name := "s"; Version := 1; Template := "Summarize:" +:+ nl +:+ "<input>" |}
           "hello"
           (init (quiet ["promptgen"; "generate"; "s"; "hello"] "") summarize_store));
    first [apply fragment_conforms | reflexivity].
Defined.

(** The other cases that C7 names, run through the whole command. *)
Example input_with_placeholder_is_literal :
  (run (generatePrompt (E := TextTemplate.fragment))
       (quiet ["promptgen"; "generate"; "s"; "a <input> b"] "") summarize_store).2
  = [Print (GeneratedPrompt 1 ("Summarize:" +:+ nl +:+ "a <input> b"));
     ClipboardWrite ("Summarize:" +:+ nl +:+ "a <input> b");
     Print CopiedToClipboard].
Proof. reflexivity. Qed.

Example empty_template_renders_to_itself :
  (run (generatePrompt (E := TextTemplate.fragment))
       (quiet ["promptgen"; "generate"; "e"; "x"] "") (store [("e.json", record "e" 1 "")])).2
  = [Print (GeneratedPrompt 1 ""); ClipboardWrite ""; Print CopiedToClipboard].
Proof. reflexivity. Qed.

Example every_placeholder_is_replaced :
  (run (generatePrompt (E := TextTemplate.fragment))
       (quiet ["promptgen"; "generate"; "d"; "x"] "")
       (store [("d.json", record "d" 1 "<input> and <input>")])).2
  = [Print (GeneratedPrompt 1 "x and x"); ClipboardWrite "x and x";
     Print CopiedToClipboard].
Proof. reflexivity. Qed.

(** A brace right before the placeholder joins the delimiter that replaces
    the placeholder: ["{<input>"] becomes ["{{{.Input}}"], which the engine
    rejects. *)
Example brace_before_placeholder_is_rejected :
  run (generatePrompt (E := TextTemplate.fragment))
      (quiet ["promptgen"; "generate"; "t"; "x"] "") brace_store
  = (brace_store, [Print (TemplateParseError ErrSyntax)]).
Proof. reflexivity. Qed.

(** ** The version chain: [add] and [update] *)

Lemma os_WriteFile_ok path d f :
  path ∉ denied f ->
  os.WriteFile path d f = Ok (with_files f (<[path := d]> (files f))).
Proof. intros H. unfold os.WriteFile. by rewrite decide_False. Qed.

(** What [add] does for a name without latest record, on a healthy store. *)
Lemma addTemplate_fresh e f line content name :
  read_line (Stdin e) = (line, content) ->
  TrimSpace line = name ->
  name <> "" ->
  StdinErr e = None ->
  files f !! getTemplatePath name = None ->
  dir_blocked f = false ->
  getTemplateVersionPath name 1 ∉ denied f ->
  getTemplatePath name ∉ denied f ->
  let t := {| Name := name; Version := 1; Template := content |} in
  run addTemplate e f =
  (with_files f (<[getTemplatePath name := Json t]>
                   (<[getTemplateVersionPath name 1 := Json t]> (files f))),
   [Print PromptTemplateName; Print EnterContent; Print SavedVersion1]).
Proof.
  intros Hread Htrim Hname Herr Hfresh Hdir Hv Hl t.
  enough (Hrun : addTemplate e (init e f) =
                 (Some tt,
                  {| fs := with_files f (<[getTemplatePath name := Json t]>
                             (<[getTemplateVersionPath name 1 := Json t]> (files f)));
                     input := "";
                     out := [Print PromptTemplateName; Print EnterContent;
                             Print SavedVersion1] |}))
    by (unfold run; by rewrite Hrun).
  unfold addTemplate, ensureTemplateDir, init. repeat mstep.
  rewrite bind_run. unfold ReadString at 1. cbn [input]. rewrite Hread, Htrim.
  cbn [fs out].
  destruct (String.eqb_spec name "") as [|_]; [done |].
  repeat mstep. unfold os.Stat at 1. rewrite Hfresh.
  repeat mstep. rewrite Herr. repeat mstep.
  unfold os.MkdirAll at 1. rewrite Hdir.
  repeat mstep.
  rewrite bind_run, change_run. cbn [fs Version Marshal].
  rewrite os_WriteFile_ok by done. repeat mstep.
  rewrite bind_run, change_run. cbn [fs].
  rewrite os_WriteFile_ok by done. repeat mstep.
  reflexivity.
Qed.

(** What [update] does for a name with a latest record, on a healthy store. *)
Lemma updateTemplate_ok e f name tpl :
  Args e !! 2%nat = Some name ->
  loadTemplate name f = Ok tpl ->
  StdinErr e = None ->
  dir_blocked f = false ->
  let t := {| Name := Name tpl; Version := wrap64 (Version tpl + 1);
              Template := Stdin e |} in
  getTemplateVersionPath name (Version t) ∉ denied f ->
  getTemplatePath name ∉ denied f ->
  run updateTemplate e f =
  (with_files f (<[getTemplatePath name := Json t]>
                   (<[getTemplateVersionPath name (Version t) := Json t]> (files f))),
   [Print EnterNewContent; Print (UpdatedTo name (Version t))]).
Proof.
  intros Hname Hload Herr Hdir t Hv Hl.
  eapply run_of_state.
  unfold updateTemplate, ensureTemplateDir, init. repeat mstep.
  rewrite Hname. repeat mstep. rewrite Hload. repeat mstep.
  rewrite Herr. repeat mstep.
  unfold os.MkdirAll at 1. rewrite Hdir. repeat mstep.
  rewrite bind_run, change_run. cbn [fs Version Marshal].
  rewrite os_WriteFile_ok by done. repeat mstep.
  rewrite bind_run, change_run. cbn [fs].
  rewrite os_WriteFile_ok by done. repeat mstep.
  reflexivity.
Qed.

Lemma loadTemplate_absent name f :
  files f !! getTemplatePath name = None -> loadTemplate name f = Err ENOENT.
Proof. intros H. unfold loadTemplate, os.ReadFile. by rewrite H. Qed.

Lemma loadTemplate_written name t f m :
  denied f = ∅ ->
  loadTemplate name (with_files f (<[getTemplatePath name := Json t]> m)) = Ok t.
Proof.
  intros Hd. unfold loadTemplate, os.ReadFile. cbn [files with_files denied].
  rewrite lookup_insert_eq, Hd. by rewrite decide_False by apply not_elem_of_empty.
Qed.

(** C3, as stated, fails: [add] writes version 1 over the record that is
    there, and reports a plain success. *)
Lemma version_record_overwritten_silently :
  files orphan_store !! getTemplateVersionPath "sum" 1 = Some (record "sum" 1 "old")
  /\ files (run addTemplate (quiet ["promptgen"; "add"] ("sum" +:+ nl +:+ "new")) orphan_store).1
       !! getTemplateVersionPath "sum" 1 = Some (record "sum" 1 "new")
  /\ (run addTemplate (quiet ["promptgen"; "add"] ("sum" +:+ nl +:+ "new")) orphan_store).2
     = [Print PromptTemplateName; Print EnterContent; Print SavedVersion1].
Proof. vm_compute. done. Qed.

(** C3, amended.  The write of a version record is unconditional: when a
    record is already stored under (name, version) and the write succeeds,
    the new record takes its place and the command reports success as usual,
    in [add] (which gets that far when the latest record is absent) and in
    [update] (when the latest record is one version behind). *)
Theorem put_version_overwrites f name v old :
  files f !! getTemplateVersionPath name v = Some old ->
  dir_blocked f = false ->
  getTemplateVersionPath name v ∉ denied f ->
  getTemplatePath name ∉ denied f ->
  (forall e line content,
      v = 1%Z ->
      files f !! getTemplatePath name = None ->
      read_line (Stdin e) = (line, content) ->
      TrimSpace line = name ->
      name <> "" ->
      StdinErr e = None ->
      let t := {| Name := name; Version := 1; Template := content |} in
      let r := run addTemplate e f in
      files r.1 !! getTemplateVersionPath name v = Some (Json t)
      /\ r.2 = [Print PromptTemplateName; Print EnterContent; Print SavedVersion1])
  /\ (forall e tpl,
        Args e !! 2%nat = Some name ->
        loadTemplate name f = Ok tpl ->
        v = wrap64 (Version tpl + 1) ->
        StdinErr e = None ->
        let t := {| Name := Name tpl; Version := v; Template := Stdin e |} in
        let r := run updateTemplate e f in
        files r.1 !! getTemplateVersionPath name v = Some (Json t)
        /\ r.2 = [Print EnterNewContent; Print (UpdatedTo name v)]).
Proof.
  intros _ Hdir Hv Hl. split.
  - intros e line content -> Hfresh Hread Htrim Hname Herr t r.
    subst r. rewrite (addTemplate_fresh e f line content name) by done.
    split; [| done]. cbn [fst with_files files].
    rewrite lookup_insert. case_decide; [done |]. by rewrite lookup_insert_eq.
  - intros e tpl Hname Hload -> Herr t r.
    subst r. rewrite (updateTemplate_ok e f name tpl) by done.
    split; [| done]. cbn [fst with_files files Version].
    rewrite lookup_insert. case_decide; [done |]. by rewrite lookup_insert_eq.
Qed.

Lemma put_version_overwrites_witness :
  (files (run addTemplate (quiet ["promptgen"; "add"] ("sum" +:+ nl +:+ "new")) orphan_store).1
     !! getTemplateVersionPath "sum" 1 = Some (record "sum" 1 "new")
   /\ (run addTemplate (quiet ["promptgen"; "add"] ("sum" +:+ nl +:+ "new")) orphan_store).2
      = [Print PromptTemplateName; Print EnterContent; Print SavedVersion1])
  /\ (files (run updateTemplate (quiet ["promptgen"; "update"; "sum"] "two") stale_store).1
        !! getTemplateVersionPath "sum" 2 = Some (record "sum" 2 "two")
      /\ (run updateTemplate (quiet ["promptgen"; "update"; "sum"] "two") stale_store).2
         = [Print EnterNewContent; Print (UpdatedTo "sum" 2)]).
Proof.
  split.
  - assert (H1 : files orphan_store !! getTemplateVersionPath "sum" 1
                 = Some (record "sum" 1 "old")) by reflexivity.
    assert (H2 : dir_blocked orphan_store = false) by reflexivity.
    assert (H3 : getTemplateVersionPath "sum" 1 ∉ denied orphan_store)
      by (apply not_elem_of_empty).
    assert (H4 : getTemplatePath "sum" ∉ denied orphan_store)
      by (apply not_elem_of_empty).
    destruct (put_version_overwrites orphan_store "sum" 1 _ H1 H2 H3 H4) as [Hadd _].
    apply (Hadd (quiet ["promptgen"; "add"] ("sum" +:+ nl +:+ "new")) ("sum" +:+ nl) "new");
      first [reflexivity | discriminate].
  - assert (H1 : files stale_store !! getTemplateVersionPath "sum" 2
                 = Some (record "sum" 2 "lost")) by reflexivity.
    assert (H2 : dir_blocked stale_store = false) by reflexivity.
    assert (H3 : getTemplateVersionPath "sum" 2 ∉ denied stale_store)
      by (apply not_elem_of_empty).
    assert (H4 : getTemplatePath "sum" ∉ denied stale_store)
      by (apply not_elem_of_empty).
    destruct (put_version_overwrites stale_store "sum" 2 _ H1 H2 H3 H4) as [_ Hupd].
    apply (Hupd (quiet ["promptgen"; "update"; "sum"] "two")
                {| Name := "sum"; Version := 1; Template := "one" |});
      reflexivity.
Defined.

Section Existence.

Context {E : TemplateEngine}.

(** C10. A template exists when its latest record does.  With version
    records but no latest record, [generate], [update] and [review] report
    that the template is not there and change nothing, and [add] does not
    report that it already exists: it writes version 1. *)
Theorem existence_is_the_latest_record f name :
  files f !! getTemplatePath name = None ->
  (exists v d, files f !! getTemplateVersionPath name v = Some d) ->
  (forall e, Args e !! 2%nat = Some name ->
             run generatePrompt e f = (f, [Print (ErrorLoadingTemplate ENOENT)]))
  /\ (forall e, Args e !! 2%nat = Some name ->
                run updateTemplate e f = (f, [Print (TemplateNotFound name)]))
  /\ (forall e, Args e !! 2%nat = Some name ->
                run reviewTemplate e f = (f, [Print (ReviewNotFound name)]))
  /\ (forall e line content,
        read_line (Stdin e) = (line, content) ->
        TrimSpace line = name ->
        name <> "" ->
        StdinErr e = None ->
        dir_blocked f = false ->
        getTemplateVersionPath name 1 ∉ denied f ->
        getTemplatePath name ∉ denied f ->
        let t := {| Name := name; Version := 1; Template := content |} in
        run addTemplate e f =
        (with_files f (<[getTemplatePath name := Json t]>
                         (<[getTemplateVersionPath name 1 := Json t]> (files f))),
         [Print PromptTemplateName; Print EnterContent; Print SavedVersion1])).
Proof.
  intros Hlatest _.
  pose proof (loadTemplate_absent name f Hlatest) as Hload.
  repeat split.
  - intros e Hname. eapply run_of_state.
    unfold generatePrompt, init. repeat mstep. rewrite Hname. repeat mstep.
    rewrite Hload. repeat mstep. reflexivity.
  - intros e Hname. eapply run_of_state.
    unfold updateTemplate, init. repeat mstep. rewrite Hname. repeat mstep.
    rewrite Hload. repeat mstep. reflexivity.
  - intros e Hname. eapply run_of_state.
    unfold reviewTemplate, init. repeat mstep. rewrite Hname. repeat mstep.
    rewrite Hload. repeat mstep. reflexivity.
  - intros e line content Hread Htrim Hne Herr Hdir Hv Hl t.
    by apply (addTemplate_fresh e f line content name).
Qed.

End Existence.

Lemma existence_is_the_latest_record_witness :
  run (generatePrompt (E := TextTemplate.fragment))
      (quiet ["promptgen"; "generate"; "sum"; "x"] "") orphan_store
  = (orphan_store, [Print (ErrorLoadingTemplate ENOENT)])
  /\ run updateTemplate (quiet ["promptgen"; "update"; "sum"] "new") orphan_store
     = (orphan_store, [Print (TemplateNotFound "sum")])
  /\ run reviewTemplate (quiet ["promptgen"; "review"; "sum"] "") orphan_store
     = (orphan_store, [Print (ReviewNotFound "sum")])
  /\ run addTemplate (quiet ["promptgen"; "add"] ("sum" +:+ nl +:+ "new")) orphan_store
     = (with_files orphan_store
          (<["sum.json" := record "sum" 1 "new"]>
             (<["sum_v1.json" := record "sum" 1 "new"]> (files orphan_store))),
        [Print PromptTemplateName; Print EnterContent; Print SavedVersion1]).
Proof.
  assert (H1 : files orphan_store !! getTemplatePath "sum" = None) by reflexivity.
  assert (H2 : exists v d, files orphan_store !! getTemplateVersionPath "sum" v = Some d)
    by (exists 1%Z, (record "sum" 1 "old"); reflexivity).
  destruct (existence_is_the_latest_record (E := TextTemplate.fragment)
              orphan_store "sum" H1 H2) as (Hg & Hu & Hr & Ha).
  split; [by apply Hg |]. split; [by apply Hu |]. split; [by apply Hr |].
  apply (Ha (quiet ["promptgen"; "add"] ("sum" +:+ nl +:+ "new")) ("sum" +:+ nl) "new");
    first [reflexivity | discriminate | apply not_elem_of_empty].
Defined.

Lemma wrap64_small z : (- 2 ^ 63 <= z < 2 ^ 63)%Z -> wrap64 z = z.
Proof. intros H. unfold wrap64. rewrite Z.mod_small; lia. Qed.

Lemma last_cons {A} (x d : A) xs : List.last (x :: xs) d = List.last xs x.
Proof.
  revert x d. induction xs as [|y ys IH]; intros x d; [done |].
  change (List.last (x :: y :: ys) d) with (List.last (y :: ys) d).
  by rewrite (IH y d), (IH y x).
Qed.

(** The latest version grows by one with every [update]. *)
Lemma latest_after_updates name contents : forall f tpl,
  denied f = ∅ ->
  dir_blocked f = false ->
  loadTemplate name f = Ok tpl ->
  (- 2 ^ 63 <= Version tpl)%Z ->
  (Version tpl + Z.of_nat (length contents) < 2 ^ 63)%Z ->
  loadTemplate name (updates name contents f)
  = Ok {| Name := Name tpl;
          Version := Version tpl + Z.of_nat (length contents);
          Template := List.last contents (Template tpl) |}.
Proof.
  induction contents as [|c cs IH]; intros f tpl Hd Hdir Hload Hlo Hhi.
  - cbn [updates length List.last Z.of_nat]. rewrite Z.add_0_r, Hload. by destruct tpl.
  - cbn [updates].
    rewrite (updateTemplate_ok _ f name tpl)
      by first [done | rewrite Hd; apply not_elem_of_empty].
    cbn [fst Stdin quiet]. cbn [length] in Hhi.
    rewrite (IH _ {| Name := Name tpl; Version := wrap64 (Version tpl + 1); Template := c |});
      cbn [Name Version Template]; try done.
    + rewrite wrap64_small by lia.
      replace (Version tpl + 1 + Z.of_nat (length cs))%Z
        with (Version tpl + Z.of_nat (S (length cs)))%Z by lia.
      by rewrite last_cons.
    + by apply loadTemplate_written.
    + rewrite wrap64_small; lia.
    + rewrite wrap64_small; lia.
Qed.

(** After [add] of a fresh name the latest version is 1, and after [N]
    updates it is [1 + N]. *)
Lemma latest_after_add_and_updates e f line content name contents :
  read_line (Stdin e) = (line, content) ->
  TrimSpace line = name ->
  name <> "" ->
  StdinErr e = None ->
  files f !! getTemplatePath name = None ->
  denied f = ∅ ->
  dir_blocked f = false ->
  (Z.of_nat (length contents) < 2 ^ 63 - 1)%Z ->
  loadTemplate name (run addTemplate e f).1
  = Ok {| Name := name; Version := 1; Template := content |}
  /\ loadTemplate name (updates name contents (run addTemplate e f).1)
     = Ok {| Name := name;
             Version := 1 + Z.of_nat (length contents);
             Template := List.last contents content |}.
Proof.
  intros Hread Htrim Hne Herr Hfresh Hd Hdir Hlen.
  rewrite (addTemplate_fresh e f line content name)
    by first [done | rewrite Hd; apply not_elem_of_empty].
  cbn [fst].
  assert (Hload : loadTemplate name
            (with_files f
               (<[getTemplatePath name := Json {| Name := name; Version := 1; Template := content |}]>
                  (<[getTemplateVersionPath name 1 := Json {| Name := name; Version := 1; Template := content |}]>
                     (files f))))
          = Ok {| Name := name; Version := 1; Template := content |})
    by (by apply loadTemplate_written).
  split; [done |].
  rewrite (latest_after_updates name contents (with_files f _) _ Hd Hdir Hload);
    cbn [Name Version Template]; [done | lia | lia].
Qed.

(** ** The files that are not records *)

Section Keeps.

Context (path : string).

Lemma keeps_ret {A} (a : A) : keeps path (mret a).
Proof. by intros e s. Qed.

Lemma keeps_exit {A} : keeps path (@exit A).
Proof. by intros e s. Qed.

Lemma keeps_ask : keeps path ask.
Proof. by intros e s. Qed.

Lemma keeps_query {A} (op : FileSystem -> A) : keeps path (query op).
Proof. by intros e s. Qed.

Lemma keeps_emit ev : keeps path (emit ev).
Proof. by intros e s. Qed.

Lemma keeps_print m : keeps path (print m).
Proof. by intros e s. Qed.

Lemma keeps_ReadString : keeps path ReadString.
Proof. intros e s. unfold ReadString. by destruct (read_line (input s)). Qed.

Lemma keeps_ReadAll : keeps path ReadAll.
Proof. intros e s. by rewrite ReadAll_run. Qed.

Lemma keeps_bind {A B} (m : M A) (f : A -> M B) :
  keeps path m -> (forall a, keeps path (f a)) -> keeps path (m ≫= f).
Proof.
  intros Hm Hf e s. rewrite bind_run. specialize (Hm e s).
  destruct (m e s) as [[a|] s']; cbn [snd] in *; [| done].
  by rewrite Hf.
Qed.

Lemma keeps_or_return {A} (r : result A) msg : keeps path (or_return r msg).
Proof. by destruct r. Qed.

Lemma keeps_or_return_unit r msg : keeps path (or_return_unit r msg).
Proof. by destruct r. Qed.

Lemma keeps_change op :
  (forall f f', op f = Ok f' -> files f' !! path = files f !! path) ->
  keeps path (change op).
Proof.
  intros Hop e s. rewrite change_run.
  destruct (op (fs s)) as [f'|x] eqn:H; [| done]. by apply Hop.
Qed.

Lemma keeps_WriteFile p d : p <> path -> keeps path (change (os.WriteFile p d)).
Proof.
  intros Hne. apply keeps_change. intros f f'. unfold os.WriteFile.
  case_decide; [done |]. intros [= <-]. by apply lookup_insert_ne.
Qed.

Lemma keeps_Remove p : p <> path -> keeps path (change (os.Remove p)).
Proof.
  intros Hne. apply keeps_change. intros f f'. unfold os.Remove.
  destruct (files f !! p); [| done]. case_decide; [done |].
  intros [= <-]. by apply lookup_delete_ne.
Qed.

Lemma keeps_for_each {A} (xs : list A) (body : A -> M unit) :
  (forall x, x ∈ xs -> keeps path (body x)) -> keeps path (for_each xs body).
Proof.
  induction xs as [|x xs IH]; intros H; [apply keeps_ret |].
  cbn [for_each]. apply keeps_bind.
  - apply H. by left.
  - intros _. apply IH. intros y Hy. apply H. by right.
Qed.

Lemma only_says_keeps (P : event -> Prop) {A} (m : M A) :
  only_says P m -> keeps path m.
Proof. intros Hm e s. by rewrite (only_says_fs P m e s Hm). Qed.

End Keeps.

Ltac keeps_step :=
  first
    [ apply keeps_ret | apply keeps_exit | apply keeps_ask | apply keeps_query
    | apply keeps_print | apply keeps_emit | apply keeps_ReadString
    | apply keeps_ReadAll | apply keeps_or_return | apply keeps_or_return_unit
    | apply keeps_bind; [| intros ?]
    | match goal with
      | |- keeps _ (match ?x with _ => _ end) => destruct x
      end ].

Lemma append_nil_l (s : string) : "" +:+ s = s.
Proof. reflexivity. Qed.

Lemma append_cons x (a b : string) : String x a +:+ b = String x (a +:+ b).
Proof. reflexivity. Qed.

Lemma append_assoc (a b c : string) : (a +:+ b) +:+ c = a +:+ (b +:+ c).
Proof. induction a as [|x a IH]; [done |]. by rewrite !append_cons, IH. Qed.

Lemma getEsc_split chunk c r :
  Pattern.getEsc chunk = Some (c, r) -> exists pre, chunk = pre +:+ r.
Proof.
  unfold Pattern.getEsc. destruct chunk as [|a chunk]; [done |].
  destruct (Pattern.is_byte a "-" || Pattern.is_byte a "]"); [done |].
  destruct (Pattern.is_byte a "\").
  - destruct chunk as [|c2 [|d r2]]; [done | done |]. intros [= <- <-].
    by exists (String a (String c2 "")).
  - destruct chunk as [|d r2]; [done |]. intros [= <- <-].
    by exists (String a "").
Qed.

Lemma HasPrefix_1 s c : HasPrefix s (String c "") = true -> s = String c (tail s).
Proof.
  destruct s as [|a s]; [done |]. cbn. rewrite andb_true_r.
  by intros ->%Ascii.eqb_eq.
Qed.

Lemma ranges_of_split fuel : forall chunk acc rs rest,
  Pattern.ranges_of fuel chunk acc = Some (rs, rest) ->
  exists pre, chunk = pre +:+ String "]" rest.
Proof.
  induction fuel as [|f IH]; intros chunk acc rs rest; [done |].
  cbn [Pattern.ranges_of].
  destruct (HasPrefix chunk "]" && negb (Nat.eqb (length acc) 0)) eqn:Hclose.
  - intros [= <- <-]. apply andb_true_iff in Hclose as [Hc _].
    exists "". rewrite append_nil_l. by apply HasPrefix_1.
  - destruct (Pattern.getEsc chunk) as [[lo r]|] eqn:Hesc; [| done].
    apply getEsc_split in Hesc as [pre ->].
    destruct (HasPrefix r "-") eqn:Hdash.
    + destruct (Pattern.getEsc (tail r)) as [[hi r']|] eqn:Hesc2; [| done].
      apply getEsc_split in Hesc2 as [pre2 Hr]. apply HasPrefix_1 in Hdash.
      intros H. apply IH in H as [pre3 ->].
      exists (pre +:+ String "-" pre2 +:+ pre3).
      rewrite Hdash, Hr. by rewrite !append_assoc, append_cons.
    + intros H. apply IH in H as [pre3 ->].
      exists (pre +:+ pre3). by rewrite append_assoc.
Qed.

Lemma all_plain_cons c s : all_plain (String c s) = true -> special c = false /\ all_plain s = true.
Proof. cbn. rewrite andb_true_iff, negb_true_iff. tauto. Qed.

Lemma special_bracket c : special c = false -> c <> "]"%char.
Proof. intros H ->. done. Qed.

Lemma plain_has_no_bracket pre rest : all_plain (pre +:+ String "]" rest) = false.
Proof.
  induction pre as [|c pre IH]; [done |].
  rewrite append_cons. cbn [all_plain]. by rewrite IH, andb_false_r.
Qed.

(** A closing bracket in front of [rest] lies before a plain suffix. *)
Lemma align_suffix suf : forall X pre rest,
  all_plain suf = true ->
  pre +:+ String "]" rest = X +:+ suf ->
  exists Y, rest = Y +:+ suf.
Proof.
  intros X. induction X as [|x X IH]; intros pre rest Hsuf Heq.
  - rewrite append_nil_l in Heq. subst suf.
    by rewrite plain_has_no_bracket in Hsuf.
  - destruct pre as [|p pre].
    + rewrite append_nil_l, append_cons in Heq. injection Heq as _ ->. by exists X.
    + rewrite !append_cons in Heq. injection Heq as _ Heq. by eapply IH.
Qed.

Lemma items_of_plain suf : forall fuel p,
  all_plain suf = true ->
  Pattern.items_of fuel suf = Some p -> p = lits suf.
Proof.
  induction suf as [|c suf IH]; intros fuel p Hsuf.
  - destruct fuel; by intros [= <-].
  - apply all_plain_cons in Hsuf as [Hc Hsuf].
    destruct fuel as [|f]; [done |]. cbn [Pattern.items_of].
    unfold special in Hc. rewrite !orb_false_iff in Hc.
    destruct Hc as ((((-> & ->) & ->) & ->) & _).
    destruct (Pattern.items_of f suf) as [q|] eqn:Hq; [| done].
    intros [= <-]. by rewrite (IH f q).
Qed.

Lemma fmap_cons_Some {A} (x : A) (o : option (list A)) p :
  cons x <$> o = Some p -> exists q, o = Some q /\ p = x :: q.
Proof. destruct o as [q|]; [| done]. intros [= <-]. by exists q. Qed.

(** The items of a pattern that ends in plain text end in that text. *)
Lemma items_of_suffix suf fuel : forall pat p,
  all_plain suf = true ->
  Pattern.items_of fuel (pat +:+ suf) = Some p ->
  exists p', p = p' ++ lits suf.
Proof.
  induction fuel as [|f IH]; intros pat p Hsuf Hp.
  { destruct pat as [|a pat]; [| done]. rewrite append_nil_l in Hp.
    exists []. by apply (items_of_plain suf 0). }
  destruct pat as [|a pat].
  { rewrite append_nil_l in Hp. exists []. by apply (items_of_plain suf (S f)). }
  rewrite append_cons in Hp. cbn [Pattern.items_of] in Hp.
  destruct (Pattern.is_byte a "*").
  { apply fmap_cons_Some in Hp as (q & Hq & ->).
    destruct (IH _ _ Hsuf Hq) as [q' ->]. by exists (Pattern.Star :: q'). }
  destruct (Pattern.is_byte a "?").
  { apply fmap_cons_Some in Hp as (q & Hq & ->).
    destruct (IH _ _ Hsuf Hq) as [q' ->]. by exists (Pattern.AnyChar :: q'). }
  destruct (Pattern.is_byte a "\").
  { destruct pat as [|b pat].
    - rewrite append_nil_l in Hp. destruct suf as [|c suf]; [done |].
      apply fmap_cons_Some in Hp as (q & Hq & ->).
      apply all_plain_cons in Hsuf as [_ Hsuf].
      exists []. cbn. f_equal. by apply (items_of_plain suf f).
    - rewrite append_cons in Hp.
      apply fmap_cons_Some in Hp as (q & Hq & ->).
      destruct (IH _ _ Hsuf Hq) as [q' ->]. by exists (Pattern.Lit b :: q'). }
  destruct (Pattern.is_byte a "[").
  { assert (Hbody : exists X,
               (if HasPrefix (pat +:+ suf) "^" then tail (pat +:+ suf)
                else pat +:+ suf) = X +:+ suf
               \/ (if HasPrefix (pat +:+ suf) "^" then tail (pat +:+ suf)
                   else pat +:+ suf) = tail suf /\ pat = "").
    { destruct pat as [|b pat].
      - rewrite append_nil_l. destruct (HasPrefix suf "^").
        + exists "". by right.
        + exists "". by left.
      - rewrite append_cons. destruct (HasPrefix (String b (pat +:+ suf)) "^").
        + exists pat. by left.
        + exists (String b pat). by left. }
    destruct Hbody as (X & Hbody).
    destruct (Pattern.ranges_of _ _ []) as [[rs rest]|] eqn:Hr; [| done].
    apply fmap_cons_Some in Hp as (q & Hq & ->).
    apply ranges_of_split in Hr as [pre Hpre].
    destruct Hbody as [Hbody | [Hbody ->]]; rewrite Hbody in Hpre.
    - symmetry in Hpre. apply align_suffix in Hpre as [Y ->]; [| done].
      destruct (IH _ _ Hsuf Hq) as [q' ->]. by eexists (_ :: q').
    - assert (Htail : all_plain (tail suf) = true).
      { destruct suf as [|c suf]; [done |]. by apply all_plain_cons in Hsuf as [_ ?]. }
      by rewrite Hpre, plain_has_no_bracket in Htail. }
  apply fmap_cons_Some in Hp as (q & Hq & ->).
  destruct (IH _ _ Hsuf Hq) as [q' ->]. by exists (Pattern.Lit a :: q').
Qed.

Lemma matches_lits suf : forall s, Pattern.matches (lits suf) s = true -> s = suf.
Proof.
  induction suf as [|c suf IH]; intros s.
  - by destruct s.
  - destruct s as [|d s]; [done |]. cbn. rewrite andb_true_iff.
    unfold Pattern.is_byte. intros [->%Ascii.eqb_eq H]. f_equal. by apply IH.
Qed.

Lemma matches_star q s :
  Pattern.matches (Pattern.Star :: q) s
  = Pattern.matches q s
    || match s with
       | EmptyString => false
       | String c s' => negb (Pattern.is_byte c Pattern.Separator)
                        && Pattern.matches (Pattern.Star :: q) s'
       end.
Proof. by destruct s. Qed.

(** A name that matches a pattern ending in plain text ends in that text. *)
Lemma matches_suffix suf p' : forall s,
  Pattern.matches (p' ++ lits suf) s = true -> exists s', s = s' +:+ suf.
Proof.
  induction p' as [|i p' IH]; intros s.
  - intros ->%matches_lits. by exists "".
  - change ((i :: p') ++ lits suf) with (i :: (p' ++ lits suf)).
    destruct i as [| |a|neg rs].
    + induction s as [|c s IHs]; rewrite matches_star.
      * rewrite orb_false_r. apply IH.
      * intros [H | [_ H]%andb_true_iff]%orb_true_iff; [by apply IH |].
        destruct (IHs H) as [s' ->]. by exists (String c s').
    + destruct s as [|c s]; [done |]. cbn. intros [_ H]%andb_true_iff.
      destruct (IH _ H) as [s' ->]. by exists (String c s').
    + destruct s as [|c s]; [done |]. cbn. intros [_ H]%andb_true_iff.
      destruct (IH _ H) as [s' ->]. by exists (String c s').
    + destruct s as [|c s]; [done |]. cbn. intros [_ H]%andb_true_iff.
      destruct (IH _ H) as [s' ->]. by exists (String c s').
Qed.

(** What a pattern [NAME*.json] finds is a record. *)
Lemma Glob_finds_records stem f found x :
  filepath.Glob (stem +:+ "*.json") f = Ok found ->
  x ∈ found ->
  exists s, x = s +:+ ".json".
Proof.
  unfold filepath.Glob.
  destruct (Pattern.items_of _ _) as [p|] eqn:Hp; [| done].
  intros [= <-] Hx. apply list_elem_of_In, filter_In in Hx as [_ Hx].
  replace (stem +:+ "*.json") with ((stem +:+ "*") +:+ ".json") in Hp
    by (by rewrite append_assoc).
  apply items_of_suffix in Hp as [p' ->]; [| done].
  by apply matches_suffix in Hx.
Qed.

Lemma keeps_bind_query path {A B} (op : FileSystem -> A) (k : A -> M B) :
  (forall f, keeps path (k (op f))) -> keeps path (query op ≫= k).
Proof. intros Hk e s. rewrite bind_run, query_run. apply Hk. Qed.

Lemma keeps_bind_ret path {A B} (a : A) (k : A -> M B) :
  keeps path (k a) -> keeps path (mret a ≫= k).
Proof. intros Hk e s. apply Hk. Qed.

Lemma getTemplatePath_record path name : not_a_record path -> getTemplatePath name <> path.
Proof. intros H Heq. by apply (H name). Qed.

Lemma getTemplateVersionPath_record path name v :
  not_a_record path -> getTemplateVersionPath name v <> path.
Proof.
  intros H Heq. apply (H (name +:+ "_v" +:+ Itoa v)).
  rewrite <- Heq. unfold getTemplateVersionPath. by rewrite !append_assoc.
Qed.

Ltac keeps_all :=
  repeat first
    [ apply keeps_WriteFile; first [ by apply getTemplatePath_record
                                   | by apply getTemplateVersionPath_record ]
    | apply keeps_for_each; intros ? ?
    | keeps_step ].

Section Frame.

Context {E : TemplateEngine} (path : string) (Hpath : not_a_record path).

Lemma keeps_addTemplate : keeps path addTemplate.
Proof using Hpath. unfold addTemplate, ensureTemplateDir. keeps_all. Qed.

Lemma keeps_updateTemplate : keeps path updateTemplate.
Proof using Hpath. unfold updateTemplate, ensureTemplateDir. keeps_all. Qed.

Lemma keeps_deleteTemplate : keeps path deleteTemplate.
Proof using Hpath.
  unfold deleteTemplate, ensureTemplateDir.
  apply keeps_bind; [apply keeps_ask | intros e].
  destruct (Args e !! 2%nat) as [name|]; [| apply keeps_print].
  apply keeps_bind; [apply keeps_query | intros d].
  apply keeps_bind; [apply keeps_or_return | intros _].
  apply keeps_bind_query. intros f.
  destruct (filepath.Glob (name +:+ "*.json") f) as [found|x] eqn:Hglob;
    [| keeps_all].
  cbn [or_return]. apply keeps_bind_ret.
  apply keeps_bind; [destruct found; keeps_all |]. intros _.
  apply keeps_bind; [| intros _; apply keeps_print].
  apply keeps_for_each. intros x Hx.
  apply keeps_bind; [| intros r; destruct r; keeps_all].
  apply keeps_Remove. intros ->.
  destruct (Glob_finds_records _ _ _ _ Hglob Hx) as [s Hs]. by apply (Hpath s).
Qed.

Lemma keeps_listTemplates : keeps path listTemplates.
Proof. unfold listTemplates, ensureTemplateDir. keeps_all. Qed.

Lemma keeps_listVersions : keeps path listVersions.
Proof. unfold listVersions. keeps_all. Qed.

Lemma keeps_main : keeps path main.
Proof using Hpath.
  unfold main. apply keeps_bind; [apply keeps_ask | intros e].
  destruct (Args e !! 1%nat) as [cmd|]; [| apply keeps_print].
  repeat match goal with
         | |- keeps _ (if ?b then _ else _) => destruct b
         end;
    first [ apply keeps_addTemplate | apply keeps_updateTemplate
          | apply keeps_deleteTemplate | apply keeps_listTemplates
          | apply keeps_listVersions
          | apply (only_says_keeps path (fun _ => True)), generatePrompt_says
          | unfold reviewTemplate, completion, showHistory, viewVersion; keeps_all ].
Qed.

(** No command changes a file that is not a record ([NAME.json] or
    [NAME_v<k>.json]). *)
Lemma only_records_are_touched e f :
  files (run main e f).1 !! path = files f !! path.
Proof using Hpath. unfold run. cbn [fst]. apply keeps_main. Qed.

End Frame.

Lemma last_byte_record stem : last_byte (stem +:+ ".json") = Some "n"%char.
Proof.
  induction stem as [|c stem IH]; [done |].
  rewrite append_cons. cbn [last_byte]. rewrite IH.
  destruct stem; done.
Qed.

(** The history log is left as it is by every command: nothing removes an
    entry from it, and nothing adds one. *)
Lemma history_log_is_never_touched `{TemplateEngine} e f :
  files (run main e f).1 !! getHistoryPath = files f !! getHistoryPath.
Proof.
  apply only_records_are_touched. intros stem Heq.
  pose proof (last_byte_record stem) as Hlast. by rewrite <- Heq in Hlast.
Qed.

(** ** What [delete] removes *)

Lemma for_each_Remove e l : forall s,
  denied (fs s) = ∅ ->
  forall path,
    files (fs (for_each l remove_and_report e s).2) !! path
    = if decide (path ∈ l) then None else files (fs s) !! path.
Proof.
  induction l as [|x l IH]; intros s Hd path.
  - cbn. by rewrite decide_False by apply not_elem_of_nil.
  - cbn [for_each]. rewrite bind_run. unfold remove_and_report at 1.
    rewrite bind_run, change_run. unfold os.Remove at 1.
    destruct (files (fs s) !! x) as [d|] eqn:Hx.
    + rewrite decide_False by (rewrite Hd; apply not_elem_of_empty).
      rewrite ret_run, IH by done.
      cbn [fs with_files files].
      destruct (decide (path ∈ l)) as [Hin|Hin].
      * rewrite decide_True; [done | by right].
      * destruct (decide (path = x)) as [->|Hne].
        -- rewrite decide_True by (by left). apply lookup_delete_eq.
        -- rewrite decide_False by (rewrite elem_of_cons; tauto).
           by apply lookup_delete_ne.
    + rewrite print_run. unfold say. rewrite IH by done. cbn [fs].
      destruct (decide (path ∈ l)) as [Hin|Hin].
      * rewrite decide_True; [done | by right].
      * destruct (decide (path = x)) as [->|Hne].
        -- by rewrite decide_True by (by left).
        -- by rewrite decide_False by (rewrite elem_of_cons; tauto).
Qed.

Lemma elem_of_Readdirnames f x : x ∈ os.Readdirnames f <-> is_Some (files f !! x).
Proof.
  unfold os.Readdirnames. rewrite merge_sort_Permutation, elem_of_elements.
  apply elem_of_dom.
Qed.

(** On a healthy store [delete NAME] removes the files whose names match
    [NAME*.json], and no other file. *)
Lemma deleteTemplate_effect e f name p :
  Args e !! 2%nat = Some name ->
  denied f = ∅ ->
  dir_blocked f = false ->
  Pattern.items_of (String.length (name +:+ "*.json")) (name +:+ "*.json") = Some p ->
  forall path,
    files (run deleteTemplate e f).1 !! path
    = if Pattern.matches p path then None else files f !! path.
Proof.
  intros Hname Hd Hdir Hp path.
  assert (Hglob : filepath.Glob (name +:+ "*.json") f
                  = Ok (List.filter (Pattern.matches p) (os.Readdirnames f)))
    by (unfold filepath.Glob; by rewrite Hp).
  assert (Hfound : forall x, x ∈ List.filter (Pattern.matches p) (os.Readdirnames f)
                             <-> Pattern.matches p x = true /\ is_Some (files f !! x)).
  { intros x. rewrite list_elem_of_In, filter_In, <- list_elem_of_In, elem_of_Readdirnames.
    tauto. }
  unfold run. cbn [fst]. unfold deleteTemplate, ensureTemplateDir, init.
  repeat mstep. rewrite Hname. repeat mstep.
  unfold os.MkdirAll at 1. rewrite Hdir. repeat mstep. rewrite Hglob. repeat mstep.
  destruct (List.filter (Pattern.matches p) (os.Readdirnames f)) as [|x l] eqn:Hl.
  - repeat mstep. cbn [snd fs].
    destruct (Pattern.matches p path) eqn:Hm; [| done].
    destruct (files f !! path) eqn:Hpath; [| done].
    exfalso. eapply not_elem_of_nil. apply Hfound. eauto.
  - repeat mstep. rewrite bind_run.
    change (for_each (x :: l) _) with (for_each (x :: l) remove_and_report).
    pose proof (for_each_Remove e (x :: l)
                  {| fs := f; input := Stdin e; out := [] |} Hd path) as Hrm.
    destruct (for_each (x :: l) remove_and_report e _) as [[[]|] s'];
      cbn [snd] in Hrm; [rewrite print_run |]; cbn [snd fs say]; rewrite Hrm; cbn [fs].
    all: destruct (decide (path ∈ x :: l)) as [Hin|Hin].
    all: try (apply Hfound in Hin as [-> _]; done).
    all: destruct (Pattern.matches p path) eqn:Hm; [| done].
    all: destruct (files f !! path) eqn:Hpath; [| done].
    all: exfalso; apply Hin, Hfound; eauto.
Qed.

Lemma items_of_name name :
  all_plain name = true ->
  Pattern.items_of (String.length (name +:+ "*.json")) (name +:+ "*.json")
  = Some (lits name ++ Pattern.Star :: lits ".json").
Proof.
  induction name as [|c name IH]; intros Hplain; [done |].
  apply all_plain_cons in Hplain as [Hc Hplain].
  rewrite append_cons. cbn [String.length Pattern.items_of].
  unfold special in Hc. rewrite !orb_false_iff in Hc.
  destruct Hc as ((((-> & ->) & ->) & ->) & _).
  by rewrite IH.
Qed.

Lemma matches_name name q s :
  Pattern.matches (lits name ++ q) (name +:+ s) = Pattern.matches q s.
Proof.
  induction name as [|c name IH]; [done |].
  rewrite append_cons. change (lits (String c name)) with (Pattern.Lit c :: lits name).
  cbn [app Pattern.matches]. unfold Pattern.is_byte. by rewrite Ascii.eqb_refl, IH.
Qed.

Lemma matches_lits_refl suf : Pattern.matches (lits suf) suf = true.
Proof.
  induction suf as [|c suf IH]; [done |].
  change (lits (String c suf)) with (Pattern.Lit c :: lits suf).
  cbn [Pattern.matches]. unfold Pattern.is_byte. by rewrite Ascii.eqb_refl, IH.
Qed.

Lemma matches_star_rest rest suf :
  no_separator rest = true ->
  Pattern.matches (Pattern.Star :: lits suf) (rest +:+ suf) = true.
Proof.
  induction rest as [|c rest IH]; intros Hsep; rewrite matches_star.
  - by rewrite append_nil_l, matches_lits_refl.
  - cbn [no_separator] in Hsep. apply andb_true_iff in Hsep as [Hc Hsep].
    rewrite append_cons, Hc, IH by done. apply orb_true_r.
Qed.

(** X13.  [delete NAME] leaves no file [NAME<rest>.json], whatever [rest] is: the
    records of NAME, and the records of every template whose name starts
    with NAME. *)
Lemma delete_removes_every_record_with_the_prefix e f name rest :
  Args e !! 2%nat = Some name ->
  denied f = ∅ ->
  dir_blocked f = false ->
  all_plain name = true ->
  no_separator rest = true ->
  files (run deleteTemplate e f).1 !! (name +:+ rest +:+ ".json") = None.
Proof.
  intros Hname Hd Hdir Hplain Hsep.
  rewrite (deleteTemplate_effect e f name _ Hname Hd Hdir (items_of_name name Hplain)).
  by rewrite matches_name, matches_star_rest.
Qed.

Lemma delete_removes_every_record_with_the_prefix_witness :
  files (run deleteTemplate (quiet ["promptgen"; "delete"; "sum"] "") two_templates).1
    !! ("sum" +:+ "mary_v1" +:+ ".json") = None.
Proof.
  apply (delete_removes_every_record_with_the_prefix
           (quiet ["promptgen"; "delete"; "sum"] "") two_templates "sum" "mary_v1");
    reflexivity.
Defined.

(** ** Template syntax of the template's own *)

Example ValidString_ex :
  utf8.ValidString ("Q: " +:+ String "195" (String "169" "")) = true
  /\ utf8.ValidString (String "255" "") = false
  /\ utf8.ValidString (String "237" (String "160" (String "128" ""))) = false
  /\ utf8.ValidString (String "192" (String "128" "")) = false.
Proof. repeat split; reflexivity. Qed.

Lemma HasPrefix_through p : forall b x a,
  Contains p (String x "") = false ->
  HasPrefix (b +:+ String x a) p = true ->
  HasPrefix b p = true.
Proof.
  induction p as [|y p IH]; intros b x a Hno H; [done |].
  cbn [Contains HasPrefix] in Hno. apply orb_false_iff in Hno as [Hy Hp].
  rewrite andb_true_r in Hy.
  destruct b as [|z b].
  - rewrite append_nil_l in H. apply HasPrefix_cons in H as [-> _].
    by rewrite Ascii.eqb_refl in Hy.
  - rewrite append_cons in H. apply HasPrefix_cons in H as [-> H].
    apply HasPrefix_cons. split; [done |]. by apply (IH b x a).
Qed.

Lemma HasPrefix_length p : forall s,
  HasPrefix s p = true -> (String.length p <= String.length s)%nat.
Proof.
  induction p as [|y p IH]; intros s H; [cbn; lia |].
  destruct s as [|z s]; [done |]. apply HasPrefix_cons in H as [_ H].
  apply IH in H. cbn. lia.
Qed.

(** An opening delimiter that is never closed (no closing delimiter and no
    placeholder comes after it): the engine's reading of the normalised
    template ends in an error. *)
Lemma scan_unclosed after :
  Contains after "}}" = false ->
  Contains after placeholder = false ->
  forall before skip,
    plain before = true ->
    (skip <= String.length before)%nat ->
    TextTemplate.scan 0
      (replace_from placeholder "{{.Input}}" skip (before +:+ "{{" +:+ after))
    = TextTemplate.Rejected.
Proof.
  intros Hclose Hph.
  assert (Hafter : replace_from placeholder "{{.Input}}" 0 after = after)
    by (by apply ReplaceAll_without_placeholder).
  assert (Hopen : TextTemplate.scan 0
                    (replace_from placeholder "{{.Input}}" 0 ("{{" +:+ after))
                  = TextTemplate.Rejected).
  { change ("{{" +:+ after) with (String "{" (String "{" after)).
    cbn [replace_from HasPrefix Ascii.eqb Bool.eqb andb placeholder]. rewrite Hafter.
    cbn [TextTemplate.scan HasPrefix Ascii.eqb Bool.eqb andb tail].
    unfold TextTemplate.action_at. by rewrite Hclose. }
  induction before as [|c b IH]; intros skip Hplain Hskip.
  - cbn [String.length] in Hskip. replace skip with 0%nat by lia.
    by rewrite append_nil_l.
  - specialize (IH) . pose proof (plain_tail _ _ Hplain) as Hb.
    rewrite append_cons. destruct skip as [|k].
    2:{ cbn [replace_from]. apply IH; [done |]. cbn [String.length] in Hskip. lia. }
    cbn [replace_from].
    destruct (HasPrefix (String c (b +:+ "{{" +:+ after)) placeholder) eqn:Hhere.
    + rewrite scan_placeholder, IH; [done | done |].
      rewrite <- append_cons in Hhere.
      change ("{{" +:+ after) with (String "{" (String "{" after)) in Hhere.
      apply HasPrefix_through in Hhere; [| done].
      apply HasPrefix_length in Hhere. cbn [String.length placeholder] in *. lia.
    + cbn [TextTemplate.scan].
      destruct (HasPrefix (String c (replace_from placeholder "{{.Input}}" 0
                                       (b +:+ "{{" +:+ after))) "{{") eqn:Hbrace.
      2:{ by rewrite IH by (first [done | lia]). }
      apply HasPrefix_cons in Hbrace as [<- Hbrace].
      apply (replace_from_head "{.Input}}") in Hbrace.
      unfold plain in Hplain. rewrite andb_true_iff, !negb_true_iff in Hplain.
      destruct Hplain as [H1 H2]. cbn [Contains] in H1, H2.
      apply orb_false_iff in H1 as [H1 _], H2 as [H2 _].
      destruct b as [|d b].
      * rewrite append_nil_l.
        change ("{{" +:+ after) with (String "{" (String "{" after)).
        cbn [replace_from HasPrefix Ascii.eqb Bool.eqb andb placeholder]. rewrite Hafter.
        cbn [tail]. unfold TextTemplate.action_at.
        cbn [Contains HasPrefix Ascii.eqb Bool.eqb andb orb]. by rewrite Hclose.
      * exfalso. destruct Hbrace as [H | H].
        -- rewrite append_cons in H. apply HasPrefix_cons in H as [<- _].
           by rewrite (proj2 (HasPrefix_cons _ _ _ _)) in H1.
        -- change ("{{" +:+ after) with (String "{" (String "{" after)) in H.
           apply HasPrefix_through in H; [| done].
           change ("{" +:+ placeholder) with (String "{" placeholder) in H2.
           by rewrite (proj2 (HasPrefix_cons _ _ _ _)) in H2.
Qed.

Section Unclosed.

Context {E : TemplateEngine}.

(** C4, amended.  The content of a template is template text.  Where it
    opens an action that is never closed (after the first [{{] there is no
    [}}] and no placeholder), the engine rejects the normalised template,
    and the generation stops at the parse error: after the events of the
    input resolution nothing else is printed, no prompt is made and nothing
    is written to the clipboard. *)
Theorem unclosed_action_fails e f name tpl before after text s1 :
  TextTemplate.conforms E ->
  Args e !! 2%nat = Some name ->
  loadTemplate name f = Ok tpl ->
  Template tpl = before +:+ "{{" +:+ after ->
  plain before = true ->
  Contains after "}}" = false ->
  Contains after placeholder = false ->
  resolveInput e (init e f) = (Some text, s1) ->
  exists x,
    Parse (Name tpl) (ReplaceAll (Template tpl) placeholder "{{.Input}}") = Err x
    /\ run generatePrompt e f = (f, out s1 ++ [Print (TemplateParseError x)])
    /\ Forall input_event (out s1).
Proof.
  intros HE Hname Hload Hcontent Hplain Hclose Hph Hin.
  specialize (HE (Name tpl) (ReplaceAll (Template tpl) placeholder "{{.Input}}")).
  unfold TextTemplate.parse, ReplaceAll in HE.
  rewrite Hcontent, (scan_unclosed after Hclose Hph before 0 Hplain) in HE by lia.
  destruct HE as (x & Hparse). exists x.
  unfold ReplaceAll. rewrite Hcontent. split; [done |].
  apply (unparsable_template_fails e f name tpl text s1 x); try done.
  unfold ReplaceAll. by rewrite Hcontent.
Qed.

End Unclosed.

Lemma unclosed_action_fails_witness :
  exists x,
    Parse (TemplateEngine := TextTemplate.fragment) "dear"
      (ReplaceAll "<input>, yours {{name" placeholder "{{.Input}}") = Err x
    /\ run (generatePrompt (E := TextTemplate.fragment))
         (quiet ["promptgen"; "generate"; "dear"; "x"] "") dear_store
       = (dear_store, [] ++ [Print (TemplateParseError x)])
    /\ Forall input_event [].
Proof.
  apply (unclosed_action_fails (E := TextTemplate.fragment)
           (quiet ["promptgen"; "generate"; "dear"; "x"] "") dear_store "dear"
           {| Name := "dear"; Version := 1; Template := "<input>, yours {{name" |}
           "<input>, yours " "name" "x"
           (init (quiet ["promptgen"; "generate"; "dear"; "x"] "") dear_store));
    first [apply fragment_conforms | reflexivity].
Defined.

(** C4, as stated, fails: an action that the engine accepts is run, not
    refused.  The field [{{.Name}}] of a template is looked up in the data,
    which has no such key, and the prompt has ["<no value>"] in its place;
    the run reports a plain success. *)
Lemma own_field_rendered_silently :
  run (generatePrompt (E := TextTemplate.fragment))
      (quiet ["promptgen"; "generate"; "hi"; "x"] "") field_store
  = (field_store,
     [Print (GeneratedPrompt 1 "Hi <no value> x"); ClipboardWrite "Hi <no value> x";
      Print CopiedToClipboard]).
Proof. reflexivity. Qed.

(** ** Version numbers in file names *)

Lemma Itoa_inj v w : Itoa v = Itoa w -> v = w.
Proof.
  unfold Itoa. intros H. apply DecimalZ.to_int_inj.
  assert (Hn : forall z, Z.to_int z <> Decimal.Pos Decimal.Nil
                         /\ Z.to_int z <> Decimal.Neg Decimal.Nil).
  { intros [|p|p]; cbn; split; try discriminate;
      intros [= Hp]; by apply (DecimalPos.Unsigned.to_uint_nonnil p). }
  pose proof (NilZero.isi (Z.to_int v) (proj1 (Hn v)) (proj2 (Hn v))) as Hv.
  pose proof (NilZero.isi (Z.to_int w) (proj1 (Hn w)) (proj2 (Hn w))) as Hw.
  rewrite H in Hv. rewrite Hv in Hw. by injection Hw.
Qed.

Lemma append_inv_head (p a b : string) : p +:+ a = p +:+ b -> a = b.
Proof.
  induction p as [|c p IH]; [done |]. rewrite !append_cons. intros [= H]. by apply IH.
Qed.

Lemma length_append (a b : string) :
  String.length (a +:+ b) = (String.length a + String.length b)%nat.
Proof. induction a as [|c a IH]; [done |]. rewrite append_cons. cbn. by rewrite IH. Qed.

Lemma append_inv_tail (s a b : string) : a +:+ s = b +:+ s -> a = b.
Proof.
  revert b. induction a as [|c a IH]; intros [|d b] H.
  - done.
  - apply (f_equal String.length) in H. rewrite !length_append in H. cbn in H. lia.
  - apply (f_equal String.length) in H. rewrite !length_append in H. cbn in H. lia.
  - rewrite !append_cons in H. injection H as -> H. f_equal. by apply IH.
Qed.

(** Two versions of a template are kept in two files, and neither is the
    file of the latest record. *)
Lemma getTemplateVersionPath_inj name v w :
  getTemplateVersionPath name v = getTemplateVersionPath name w -> v = w.
Proof.
  unfold getTemplateVersionPath. intros H.
  apply append_inv_head in H. apply (append_inv_head "_v") in H.
  apply append_inv_tail in H. by apply Itoa_inj.
Qed.

Lemma latest_is_no_version name v : getTemplatePath name <> getTemplateVersionPath name v.
Proof.
  unfold getTemplatePath, getTemplateVersionPath. intros H.
  apply append_inv_head in H. discriminate H.
Qed.

(** ** [strconv.Atoi] reads what [%d] prints *)

Lemma digits_string_of_uint d : forall acc,
  strconv.digits acc (NilEmpty.string_of_uint d) = Some (horner acc d).
Proof. induction d; intros acc; cbn; [done | apply IHd ..]. Qed.

Lemma horner_acc d : forall acc : positive,
  horner (Z.pos acc) d = Z.pos (Pos.of_uint_acc d acc).
Proof.
  induction d; intros acc; cbn [horner Pos.of_uint_acc]; [done | ..];
    match goal with
    | |- horner ?z _ = _ =>
        match goal with
        | |- _ = Z.pos (Pos.of_uint_acc _ ?p) =>
            replace z with (Z.pos p) by lia; apply IHd
        end
    end.
Qed.

Lemma horner_0 d : horner 0 d = Z.of_N (Pos.of_uint d).
Proof.
  induction d; cbn [horner Pos.of_uint]; [done | apply IHd | ..];
    match goal with
    | |- horner ?z _ = _ => let z' := eval compute in z in change z with z'
    end;
    by rewrite horner_acc.
Qed.

Lemma magnitude_to_uint p :
  strconv.magnitude (NilZero.string_of_uint (Pos.to_uint p)) = Some (Z.pos p).
Proof.
  pose proof (DecimalPos.Unsigned.to_uint_nonnil p) as Hnil.
  pose proof (DecimalPos.Unsigned.of_to p) as Hp.
  assert (Hd : strconv.digits 0 (NilEmpty.string_of_uint (Pos.to_uint p)) = Some (Z.pos p)).
  { rewrite digits_string_of_uint, horner_0, Hp. done. }
  destruct (Pos.to_uint p); try done; exact Hd.
Qed.

Lemma Atoi_Itoa z : (- 2 ^ 63 <= z < 2 ^ 63)%Z -> strconv.Atoi (Itoa z) = Ok z.
Proof.
  intros Hz. unfold Itoa.
  assert (Hrange : ((- 2 ^ 63 <=? z)%Z && (z <? 2 ^ 63)%Z) = true).
  { apply andb_true_iff. split; [apply Z.leb_le | apply Z.ltb_lt]; lia. }
  destruct z as [|p|p].
  - reflexivity.
  - cbn [Z.to_int NilZero.string_of_int].
    pose proof (magnitude_to_uint p) as Hm.
    pose proof (DecimalPos.Unsigned.to_uint_nonnil p) as Hnil.
    unfold strconv.Atoi.
    destruct (Pos.to_uint p) eqn:Hu; try done;
      cbn [NilZero.string_of_uint NilEmpty.string_of_uint] in *;
      rewrite Hm; by rewrite Hrange.
  - cbn [Z.to_int NilZero.string_of_int]. unfold strconv.Atoi.
    rewrite magnitude_to_uint. cbn [fmap option_fmap option_map Z.opp].
    change (- Z.pos p)%Z with (Z.neg p). by rewrite Hrange.
Qed.

(** ** What [add] and [update] do when something is in the way *)

Lemma trim_with_blank s : forall fuel,
  (String.length s <= fuel)%nat -> blank s = true -> trim_with strip_space fuel s = "".
Proof.
  induction s as [|c s IH]; intros fuel Hlen Hb.
  - by destruct fuel.
  - cbn [blank] in Hb. apply andb_true_iff in Hb as [Hc Hb].
    destruct fuel as [|fuel]; [cbn in Hlen; lia |].
    cbn [trim_with strip_space]. rewrite Hc. apply IH; [cbn in Hlen; lia | done].
Qed.

Lemma TrimSpace_blank s : blank s = true -> TrimSpace s = "".
Proof.
  intros Hb. unfold TrimSpace, TrimLeft. by rewrite trim_with_blank.
Qed.

(** X1.  [add] with a name line of white space only (or with no input at all)
    stops at the name: nothing is read after it and nothing is written. *)
Theorem add_rejects_a_blank_name e f line rest :
  read_line (Stdin e) = (line, rest) ->
  blank line = true ->
  run addTemplate e f = (f, [Print PromptTemplateName; Print NameCannotBeEmpty]).
Proof.
  intros Hread Hb. eapply run_of_state.
  unfold addTemplate, init. repeat mstep.
  rewrite bind_run. unfold ReadString at 1. cbn [input]. rewrite Hread.
  rewrite (TrimSpace_blank line Hb). cbn [fs out String.eqb].
  repeat mstep. reflexivity.
Qed.

Lemma add_rejects_a_blank_name_witness :
  run addTemplate (quiet ["promptgen"; "add"] ("  " +:+ nl +:+ "Q: <input>")) sum_store
  = (sum_store, [Print PromptTemplateName; Print NameCannotBeEmpty]).
Proof.
  apply (add_rejects_a_blank_name _ sum_store ("  " +:+ nl) "Q: <input>"); reflexivity.
Defined.

(** X2.  [add] of a name whose latest record is there (whatever the file holds)
    reports that the template exists; the content is not read and nothing is
    written. *)
Theorem add_rejects_an_existing_name e f line rest name d :
  read_line (Stdin e) = (line, rest) ->
  TrimSpace line = name ->
  name <> "" ->
  files f !! getTemplatePath name = Some d ->
  run addTemplate e f = (f, [Print PromptTemplateName; Print AlreadyExists]).
Proof.
  intros Hread Htrim Hname Hthere. eapply run_of_state.
  unfold addTemplate, init. repeat mstep.
  rewrite bind_run. unfold ReadString at 1. cbn [input]. rewrite Hread, Htrim.
  cbn [fs out].
  destruct (String.eqb_spec name "") as [|_]; [done |].
  repeat mstep. unfold os.Stat at 1. rewrite Hthere.
  repeat mstep. reflexivity.
Qed.

Lemma add_rejects_an_existing_name_witness :
  run addTemplate (quiet ["promptgen"; "add"] ("sum" +:+ nl +:+ "new")) sum_store
  = (sum_store, [Print PromptTemplateName; Print AlreadyExists]).
Proof.
  apply (add_rejects_an_existing_name _ sum_store ("sum" +:+ nl) "new" "sum"
           (record "sum" 1 "Q: <input>"));
    first [reflexivity | discriminate].
Defined.

Lemma run_elim (P : FileSystem * list event -> Prop) (cmd : M unit) e f :
  (forall r s, cmd e (init e f) = (r, s) -> P (fs s, out s)) -> P (run cmd e f).
Proof.
  intros H. unfold run. destruct (cmd e (init e f)) as [r s] eqn:Hs. by apply (H r).
Qed.

(** Whether an event is in a trace that is written out. *)
Ltac absent :=
  let H := fresh in
  intros H; repeat (apply elem_of_cons in H as [H | H]; [discriminate H |]);
  by apply elem_of_nil in H.

Ltac present := repeat first [by left | right].

(** Ends a branch of a case analysis of a run. *)
Ltac ends := repeat mstep; intros ? ? [= <- <-]; cbn [fst snd fs out files with_files].

(** X3.  A run of [add] that reports that it saved version 1 has stored a
    record of version 1 under the name on the first line (a file name
    without separator, valid UTF-8), in the file of that version.  A run
    that reports neither this nor a failed write of the version record has
    stopped before it wrote anything: the files are as they were. *)
Theorem add_saves_or_changes_nothing e f :
  let r := run addTemplate e f in
  let name := TrimSpace (read_line (Stdin e)).1 in
  no_separator name = true ->
  utf8.ValidString name = true ->
  (Print SavedVersion1 ∈ r.2 ->
   exists content,
     files r.1 !! getTemplateVersionPath name 1
     = Some (Json {| Name := name; Version := 1; Template := content |}))
  /\ ((Print SavedVersion1 ∉ r.2) ->
      (forall x, Print (ErrorSavingVersioned x) ∉ r.2) ->
      r.1 = f).
Proof.
  cbv zeta. intros _ _. pattern (run addTemplate e f). apply run_elim.
  unfold addTemplate, ensureTemplateDir, init. repeat mstep.
  rewrite bind_run. unfold ReadString at 1. cbn [input].
  destruct (read_line (Stdin e)) as [line rest]. cbn [fs out fst snd].
  set (name := TrimSpace line).
  destruct (String.eqb name "").
  { ends. split; [intros Hin; exfalso; revert Hin; absent | done]. }
  repeat mstep. unfold os.Stat at 1.
  destruct (files f !! getTemplatePath name).
  { ends. split; [intros Hin; exfalso; revert Hin; absent | done]. }
  repeat mstep. destruct (StdinErr e).
  { ends. split; [intros Hin; exfalso; revert Hin; absent | done]. }
  repeat mstep. unfold os.MkdirAll at 1. destruct (dir_blocked f).
  { ends. split; [intros Hin; exfalso; revert Hin; absent | done]. }
  repeat mstep. rewrite bind_run, change_run. cbn [fs Version Marshal].
  unfold os.WriteFile at 1. case_decide.
  { ends. split; [intros Hin; exfalso; revert Hin; absent |].
    intros _ Hno. exfalso. apply (Hno EACCES). present. }
  repeat mstep. rewrite bind_run, change_run. cbn [fs].
  unfold os.WriteFile at 1. cbn [denied with_files].
  case_decide; ends; (split; [intros _; exists rest | intros Hno; exfalso; apply Hno; present]).
  - apply lookup_insert_eq.
  - rewrite lookup_insert_ne by apply latest_is_no_version. apply lookup_insert_eq.
Qed.

Lemma add_saves_or_changes_nothing_witness :
  let r := run addTemplate (quiet ["promptgen"; "add"] ("sum" +:+ nl +:+ "Q: <input>"))
             (store []) in
  (Print SavedVersion1 ∈ r.2 ->
   exists content,
     files r.1 !! getTemplateVersionPath "sum" 1
     = Some (Json {| Name := "sum"; Version := 1; Template := content |}))
  /\ ((Print SavedVersion1 ∉ r.2) ->
      (forall x, Print (ErrorSavingVersioned x) ∉ r.2) ->
      r.1 = store []).
Proof.
  apply (add_saves_or_changes_nothing
           (quiet ["promptgen"; "add"] ("sum" +:+ nl +:+ "Q: <input>")) (store []));
    reflexivity.
Defined.

Lemma wrap64_range z : (- 2 ^ 63 <= wrap64 z < 2 ^ 63)%Z.
Proof.
  unfold wrap64. pose proof (Z.mod_pos_bound (z + 2 ^ 63) (2 ^ 64)) as H. lia.
Qed.

Lemma loadTemplateVersion_written name v t f m :
  denied f = ∅ ->
  loadTemplateVersion name v
    (with_files f (<[getTemplatePath name := Json t]>
                     (<[getTemplateVersionPath name v := Json t]> m))) = Ok t.
Proof.
  intros Hd. unfold loadTemplateVersion, os.ReadFile. cbn [files with_files denied].
  rewrite lookup_insert_ne by apply latest_is_no_version.
  rewrite lookup_insert_eq, Hd. by rewrite decide_False by apply not_elem_of_empty.
Qed.

(** X4.  When the version record can be written and the latest record cannot,
    [add] warns and still reports that the template was saved; the store
    holds version 1 and no latest record, so that the template is not there
    for [generate], [update] and [review]. *)
Theorem add_without_latest_record e f line content name :
  read_line (Stdin e) = (line, content) ->
  TrimSpace line = name ->
  name <> "" ->
  StdinErr e = None ->
  files f !! getTemplatePath name = None ->
  dir_blocked f = false ->
  getTemplateVersionPath name 1 ∉ denied f ->
  getTemplatePath name ∈ denied f ->
  let t := {| Name := name; Version := 1; Template := content |} in
  let f' := with_files f (<[getTemplateVersionPath name 1 := Json t]> (files f)) in
  run addTemplate e f =
  (f', [Print PromptTemplateName; Print EnterContent;
        Print (WarningLatestPointer EACCES); Print SavedVersion1])
  /\ loadTemplateVersion name 1 f' = Ok t
  /\ loadTemplate name f' = Err ENOENT.
Proof.
  intros Hread Htrim Hname Herr Hfresh Hdir Hv Hl t f'. split; [| split].
  - eapply run_of_state.
    unfold addTemplate, ensureTemplateDir, init. repeat mstep.
    rewrite bind_run. unfold ReadString at 1. cbn [input]. rewrite Hread, Htrim.
    cbn [fs out].
    destruct (String.eqb_spec name "") as [|_]; [done |].
    repeat mstep. unfold os.Stat at 1. rewrite Hfresh.
    repeat mstep. rewrite Herr. repeat mstep.
    unfold os.MkdirAll at 1. rewrite Hdir.
    repeat mstep.
    rewrite bind_run, change_run. cbn [fs Version Marshal].
    rewrite os_WriteFile_ok by done. repeat mstep.
    rewrite bind_run, change_run. cbn [fs].
    unfold os.WriteFile at 1. cbn [denied with_files].
    rewrite decide_True by done. repeat mstep.
    reflexivity.
  - unfold loadTemplateVersion, os.ReadFile, f'. cbn [files with_files denied].
    rewrite lookup_insert_eq. by rewrite decide_False.
  - apply loadTemplate_absent. unfold f'. cbn [files with_files].
    by rewrite lookup_insert_ne by (apply not_eq_sym, latest_is_no_version).
Qed.

Lemma add_without_latest_record_witness :
  let f := {| files := ∅; denied := {[ "sum.json" ]}; dir_blocked := false |} in
  let f' := with_files f (<["sum_v1.json" := record "sum" 1 "Q: <input>"]> ∅) in
  run addTemplate (quiet ["promptgen"; "add"] ("sum" +:+ nl +:+ "Q: <input>")) f =
  (f', [Print PromptTemplateName; Print EnterContent;
        Print (WarningLatestPointer EACCES); Print SavedVersion1])
  /\ loadTemplateVersion "sum" 1 f'
     = Ok {| Name := "sum"; Version := 1; Template := "Q: <input>" |}
  /\ loadTemplate "sum" f' = Err ENOENT.
Proof.
  apply (add_without_latest_record
           (quiet ["promptgen"; "add"] ("sum" +:+ nl +:+ "Q: <input>"))
           {| files := ∅; denied := {[ "sum.json" ]}; dir_blocked := false |}
           ("sum" +:+ nl) "Q: <input>" "sum");
    first [reflexivity | discriminate | by vm_compute].
Defined.

(** X6.  A run of [update] that reports the new version has stored the
    record of that version, with the name of the latest record and the
    content read (valid UTF-8, which [encoding/json] writes as it is).  A
    run that reports neither a new version nor a failed write of the
    version record has stopped before it wrote anything: the files are as
    they were. *)
Theorem update_saves_or_changes_nothing e f :
  let r := run updateTemplate e f in
  (forall name tpl,
      Args e !! 2%nat = Some name ->
      loadTemplate name f = Ok tpl ->
      no_separator name = true ->
      utf8.ValidString (Name tpl) = true ->
      utf8.ValidString (Stdin e) = true ->
      let t := {| Name := Name tpl; Version := wrap64 (Version tpl + 1);
                  Template := Stdin e |} in
      Print (UpdatedTo name (Version t)) ∈ r.2 ->
      files r.1 !! getTemplateVersionPath name (Version t) = Some (Json t))
  /\ ((forall name v, Print (UpdatedTo name v) ∉ r.2) ->
      (forall x, Print (ErrorSavingVersioned x) ∉ r.2) ->
      r.1 = f).
Proof.
  cbv zeta. pattern (run updateTemplate e f). apply run_elim.
  unfold updateTemplate, ensureTemplateDir, init. repeat mstep.
  destruct (Args e !! 2%nat) as [name|] eqn:Hname.
  2:{ ends. split; [by intros ? ? [=] | done]. }
  repeat mstep. destruct (loadTemplate name f) as [tpl|x] eqn:Hload.
  2:{ ends. split; [| done]. intros ? ? [= <-]. by rewrite Hload. }
  repeat mstep. destruct (StdinErr e).
  { ends. split; [| done]. intros ? ? _ _ _ _ _ Hin. exfalso. revert Hin. absent. }
  repeat mstep. unfold os.MkdirAll at 1. destruct (dir_blocked f).
  { ends. split; [| done]. intros ? ? _ _ _ _ _ Hin. exfalso. revert Hin. absent. }
  repeat mstep. rewrite bind_run, change_run. cbn [fs Version Marshal].
  unfold os.WriteFile at 1. case_decide.
  { ends. split; [intros ? ? _ _ _ _ _ Hin; exfalso; revert Hin; absent |].
    intros _ Hno. exfalso. apply (Hno EACCES). present. }
  repeat mstep. rewrite bind_run, change_run. cbn [fs].
  unfold os.WriteFile at 1. cbn [denied with_files].
  case_decide; ends;
    (split; [intros name' tpl' [= <-] Hload' _ _ _ _;
             rewrite Hload in Hload'; injection Hload' as <-
            | intros Hno; exfalso; apply (Hno name (wrap64 (Version tpl + 1))); present]).
  - apply lookup_insert_eq.
  - rewrite lookup_insert_ne by apply latest_is_no_version. apply lookup_insert_eq.
Qed.

Lemma update_saves_or_changes_nothing_witness :
  let r := run updateTemplate (quiet ["promptgen"; "update"; "sum"] "two") sum_store in
  files r.1 !! getTemplateVersionPath "sum" 2
  = Some (Json {| Name := "sum"; Version := 2; Template := "two" |}).
Proof.
  destruct (update_saves_or_changes_nothing
              (quiet ["promptgen"; "update"; "sum"] "two") sum_store) as [H _].
  apply (H "sum" {| Name := "sum"; Version := 1; Template := "Q: <input>" |});
    first [reflexivity | by vm_compute; right; left].
Defined.

(** What [update NAME] can change: the latest record of NAME and the
    record of the new version. *)
Lemma updateTemplate_frame e f name tpl :
  Args e !! 2%nat = Some name ->
  loadTemplate name f = Ok tpl ->
  denied (run updateTemplate e f).1 = denied f
  /\ forall path,
       path <> getTemplatePath name ->
       path <> getTemplateVersionPath name (wrap64 (Version tpl + 1)) ->
       files (run updateTemplate e f).1 !! path = files f !! path.
Proof.
  intros Hname Hload.
  pattern (run updateTemplate e f). apply run_elim.
  unfold updateTemplate, ensureTemplateDir, init. repeat mstep.
  rewrite Hname. repeat mstep. rewrite Hload. repeat mstep.
  destruct (StdinErr e); [by ends |].
  repeat mstep. unfold os.MkdirAll at 1. destruct (dir_blocked f); [by ends |].
  repeat mstep. rewrite bind_run, change_run. cbn [fs Version Marshal].
  unfold os.WriteFile at 1. case_decide; [by ends |].
  repeat mstep. rewrite bind_run, change_run. cbn [fs].
  unfold os.WriteFile at 1. cbn [denied with_files].
  case_decide; ends; (split; [done |]); intros path Hl Hv.
  - by rewrite lookup_insert_ne by done.
  - by rewrite !lookup_insert_ne by done.
Qed.

Lemma loadTemplateVersion_frame name k f f' :
  denied f' = denied f ->
  files f' !! getTemplateVersionPath name k = files f !! getTemplateVersionPath name k ->
  loadTemplateVersion name k f' = loadTemplateVersion name k f.
Proof. intros Hd Hf. unfold loadTemplateVersion, os.ReadFile. by rewrite Hd, Hf. Qed.

(** X7.  [update NAME] leaves every version record of NAME as it is, except the
    one of the new version: in every run, whatever fails. *)
Theorem update_keeps_the_other_versions e f name tpl k :
  Args e !! 2%nat = Some name ->
  loadTemplate name f = Ok tpl ->
  k <> wrap64 (Version tpl + 1) ->
  loadTemplateVersion name k (run updateTemplate e f).1 = loadTemplateVersion name k f.
Proof.
  intros Hname Hload Hk.
  destruct (updateTemplate_frame e f name tpl Hname Hload) as [Hd Hf].
  apply loadTemplateVersion_frame; [done |]. apply Hf.
  - apply not_eq_sym, latest_is_no_version.
  - intros Heq. by apply getTemplateVersionPath_inj in Heq.
Qed.

Lemma update_keeps_the_other_versions_witness :
  loadTemplateVersion "sum" 1
    (run updateTemplate (quiet ["promptgen"; "update"; "sum"] "two") sum_store).1
  = loadTemplateVersion "sum" 1 sum_store.
Proof.
  apply (update_keeps_the_other_versions
           (quiet ["promptgen"; "update"; "sum"] "two") sum_store "sum"
           {| Name := "sum"; Version := 1; Template := "Q: <input>" |} 1);
    first [reflexivity | discriminate].
Defined.

(** ** Reading back what was stored *)

Lemma reviewTemplate_loaded e f name tpl :
  Args e !! 2%nat = Some name ->
  loadTemplate name f = Ok tpl ->
  run reviewTemplate e f = (f, [Print (ReviewContent name (Version tpl) (Template tpl))]).
Proof.
  intros Hname Hload. eapply run_of_state.
  unfold reviewTemplate, init. repeat mstep. rewrite Hname. repeat mstep.
  rewrite Hload. repeat mstep. reflexivity.
Qed.

Lemma viewVersion_loaded e f name v tpl :
  Args e !! 2%nat = Some name ->
  Args e !! 3%nat = Some (Itoa v) ->
  (- 2 ^ 63 <= v < 2 ^ 63)%Z ->
  loadTemplateVersion name v f = Ok tpl ->
  run viewVersion e f = (f, [Print (VersionContent name v (Template tpl))]).
Proof.
  intros Hname Hv Hrange Hload. eapply run_of_state.
  unfold viewVersion, init. repeat mstep. rewrite Hname, Hv.
  rewrite Atoi_Itoa by done. repeat mstep.
  rewrite Hload. repeat mstep. reflexivity.
Qed.

(** X5.  What [add] has stored is what [review] and [view NAME 1] show, for
    a name that is a file name (no separator) and content that is valid
    UTF-8. *)
Theorem add_is_read_back e f line content name :
  read_line (Stdin e) = (line, content) ->
  TrimSpace line = name ->
  name <> "" ->
  no_separator name = true ->
  utf8.ValidString content = true ->
  StdinErr e = None ->
  files f !! getTemplatePath name = None ->
  denied f = ∅ ->
  dir_blocked f = false ->
  let f' := (run addTemplate e f).1 in
  (forall e', Args e' !! 2%nat = Some name ->
              run reviewTemplate e' f' = (f', [Print (ReviewContent name 1 content)]))
  /\ (forall e', Args e' !! 2%nat = Some name -> Args e' !! 3%nat = Some "1"%string ->
                 run viewVersion e' f' = (f', [Print (VersionContent name 1 content)])).
Proof.
  intros Hread Htrim Hne _ _ Herr Hfresh Hd Hdir f'. subst f'.
  rewrite (addTemplate_fresh e f line content name)
    by first [done | rewrite Hd; apply not_elem_of_empty].
  cbn [fst]. split.
  - intros e' Hname.
    by rewrite (reviewTemplate_loaded e' _ name
                  {| Name := name; Version := 1; Template := content |})
      by first [done | by apply loadTemplate_written].
  - intros e' Hname Hv.
    by rewrite (viewVersion_loaded e' _ name 1
                  {| Name := name; Version := 1; Template := content |})
      by first [done | by apply loadTemplateVersion_written].
Qed.

Lemma add_is_read_back_witness :
  let f' := (run addTemplate (quiet ["promptgen"; "add"] ("sum" +:+ nl +:+ "Q: <input>"))
               (store [])).1 in
  (forall e', Args e' !! 2%nat = Some "sum"%string ->
              run reviewTemplate e' f' = (f', [Print (ReviewContent "sum" 1 "Q: <input>")]))
  /\ (forall e', Args e' !! 2%nat = Some "sum"%string ->
                 Args e' !! 3%nat = Some "1"%string ->
                 run viewVersion e' f' = (f', [Print (VersionContent "sum" 1 "Q: <input>")])).
Proof.
  apply (add_is_read_back (quiet ["promptgen"; "add"] ("sum" +:+ nl +:+ "Q: <input>"))
           (store []) ("sum" +:+ nl) "Q: <input>" "sum");
    first [reflexivity | discriminate].
Defined.

(** X8.  What [update] has stored is what [review] and [view] of the new
    version show, and the version that [update] reports is the one under
    which [view] finds the content: for a name that is a file name (no
    separator) and content that is valid UTF-8. *)
Theorem update_is_read_back e f name tpl :
  Args e !! 2%nat = Some name ->
  loadTemplate name f = Ok tpl ->
  no_separator name = true ->
  utf8.ValidString (Stdin e) = true ->
  StdinErr e = None ->
  denied f = ∅ ->
  dir_blocked f = false ->
  let v := wrap64 (Version tpl + 1) in
  let f' := (run updateTemplate e f).1 in
  (run updateTemplate e f).2 = [Print EnterNewContent; Print (UpdatedTo name v)]
  /\ (forall e', Args e' !! 2%nat = Some name ->
                 run reviewTemplate e' f' = (f', [Print (ReviewContent name v (Stdin e))]))
  /\ (forall e', Args e' !! 2%nat = Some name -> Args e' !! 3%nat = Some (Itoa v) ->
                 run viewVersion e' f' = (f', [Print (VersionContent name v (Stdin e))])).
Proof.
  intros Hname Hload _ _ Herr Hd Hdir v f'. subst f'.
  rewrite (updateTemplate_ok e f name tpl)
    by first [done | rewrite Hd; apply not_elem_of_empty].
  cbn [fst snd Version]. fold v. split; [done | split].
  - intros e' Hname'.
    by rewrite (reviewTemplate_loaded e' _ name
                  {| Name := Name tpl; Version := v; Template := Stdin e |})
      by first [done | by apply loadTemplate_written].
  - intros e' Hname' Hv.
    by rewrite (viewVersion_loaded e' _ name v
                  {| Name := Name tpl; Version := v; Template := Stdin e |})
      by first [done | apply wrap64_range | by apply loadTemplateVersion_written].
Qed.

Lemma update_is_read_back_witness :
  let f' := (run updateTemplate (quiet ["promptgen"; "update"; "sum"] "two") sum_store).1 in
  (run updateTemplate (quiet ["promptgen"; "update"; "sum"] "two") sum_store).2
  = [Print EnterNewContent; Print (UpdatedTo "sum" 2)]
  /\ (forall e', Args e' !! 2%nat = Some "sum"%string ->
                 run reviewTemplate e' f' = (f', [Print (ReviewContent "sum" 2 "two")]))
  /\ (forall e', Args e' !! 2%nat = Some "sum"%string ->
                 Args e' !! 3%nat = Some "2"%string ->
                 run viewVersion e' f' = (f', [Print (VersionContent "sum" 2 "two")])).
Proof.
  apply (update_is_read_back (quiet ["promptgen"; "update"; "sum"] "two") sum_store "sum"
           {| Name := "sum"; Version := 1; Template := "Q: <input>" |});
    reflexivity.
Defined.

(** The file of version [k] of NAME is the file of the latest record of the
    name NAME_v<k>. *)
Lemma version_path_is_a_latest_path name k :
  getTemplatePath (name +:+ "_v" +:+ Itoa k) = getTemplateVersionPath name k.
Proof. unfold getTemplatePath, getTemplateVersionPath. by rewrite !append_assoc. Qed.

(** X9.  [update] of the name NAME_v<k> takes version [k] of NAME for the
    latest record of that name, and writes the next version over it:
    afterwards version [k] of NAME holds the new content (valid UTF-8) under
    a version number that is not [k]'s. *)
Theorem update_of_a_version_file_name e f name k tpl :
  Args e !! 2%nat = Some (name +:+ "_v" +:+ Itoa k) ->
  loadTemplateVersion name k f = Ok tpl ->
  no_separator name = true ->
  utf8.ValidString (Name tpl) = true ->
  utf8.ValidString (Stdin e) = true ->
  StdinErr e = None ->
  denied f = ∅ ->
  dir_blocked f = false ->
  loadTemplateVersion name k (run updateTemplate e f).1
  = Ok {| Name := Name tpl; Version := wrap64 (Version tpl + 1); Template := Stdin e |}.
Proof.
  intros Hname Hload _ _ _ Herr Hd Hdir.
  assert (Hsame : forall g, loadTemplate (name +:+ "_v" +:+ Itoa k) g
                            = loadTemplateVersion name k g).
  { intros g. unfold loadTemplate, loadTemplateVersion.
    by rewrite version_path_is_a_latest_path. }
  rewrite (updateTemplate_ok e f _ tpl)
    by first [done | by rewrite Hsame | rewrite Hd; apply not_elem_of_empty].
  cbn [fst]. rewrite <- Hsame. by apply loadTemplate_written.
Qed.

Lemma update_of_a_version_file_name_witness :
  loadTemplateVersion "sum" 1
    (run updateTemplate (quiet ["promptgen"; "update"; "sum_v1"] "other") sum_store).1
  = Ok {| Name := "sum"; Version := 2; Template := "other" |}.
Proof.
  apply (update_of_a_version_file_name
           (quiet ["promptgen"; "update"; "sum_v1"] "other") sum_store "sum" 1
           {| Name := "sum"; Version := 1; Template := "Q: <input>" |});
    reflexivity.
Defined.

(** The version records under a chain of updates: the versions outside the
    chain are left as they are, and the [i]-th update has stored its content
    under the [i]-th new version. *)
Lemma versions_after_updates name cs : forall f tpl,
  denied f = ∅ ->
  dir_blocked f = false ->
  loadTemplate name f = Ok tpl ->
  (- 2 ^ 63 <= Version tpl)%Z ->
  (Version tpl + Z.of_nat (length cs) < 2 ^ 63)%Z ->
  (forall k, (k <= Version tpl)%Z ->
             loadTemplateVersion name k (updates name cs f) = loadTemplateVersion name k f)
  /\ (forall i c, cs !! i = Some c ->
        loadTemplateVersion name (Version tpl + 1 + Z.of_nat i) (updates name cs f)
        = Ok {| Name := Name tpl; Version := Version tpl + 1 + Z.of_nat i; Template := c |}).
Proof.
  induction cs as [|c cs IH]; intros f tpl Hd Hdir Hload Hlo Hhi; [by split |].
  cbn [length] in Hhi. cbn [updates].
  set (e := quiet ["promptgen"; "update"; name] c).
  set (t := {| Name := Name tpl; Version := wrap64 (Version tpl + 1); Template := c |}).
  assert (Hv : wrap64 (Version tpl + 1) = (Version tpl + 1)%Z) by (apply wrap64_small; lia).
  assert (Hrun : run updateTemplate e f
                 = (with_files f (<[getTemplatePath name := Json t]>
                                    (<[getTemplateVersionPath name (Version t) := Json t]> (files f))),
                    [Print EnterNewContent; Print (UpdatedTo name (Version t))])).
  { apply updateTemplate_ok; first [done | rewrite Hd; apply not_elem_of_empty]. }
  destruct (IH (run updateTemplate e f).1 t) as [IHa IHb].
  { by rewrite Hrun. }
  { by rewrite Hrun. }
  { rewrite Hrun. by apply loadTemplate_written. }
  { cbn [Version t]. lia. }
  { cbn [Version t]. lia. }
  split.
  - intros k Hk. rewrite IHa by (cbn [Version t]; lia).
    destruct (updateTemplate_frame e f name tpl) as [Hden Hframe]; [done | done |].
    apply loadTemplateVersion_frame; [done |]. apply Hframe.
    + apply not_eq_sym, latest_is_no_version.
    + intros Heq. apply getTemplateVersionPath_inj in Heq. lia.
  - intros [|i] c' Hc.
    + injection Hc as <-. rewrite Z.add_0_r, <- Hv.
      rewrite IHa by (cbn [Version t]; lia).
      rewrite Hrun. by apply loadTemplateVersion_written.
    + specialize (IHb i c' Hc). cbn [Version Name t] in IHb. rewrite Hv in IHb.
      by replace (Version tpl + 1 + Z.of_nat (S i))%Z
        with (Version tpl + 1 + 1 + Z.of_nat i)%Z by lia.
Qed.

Lemma last_default {A} (l : list A) x d : last l = Some x -> List.last l d = x.
Proof.
  revert d. induction l as [|y l IH]; intros d; [done |].
  destruct l as [|z l]; [by intros [= ->] |].
  intros H. rewrite last_cons. by apply IH.
Qed.

(** X10.  After [add] of a fresh name (a file name, valid UTF-8) the latest
    record has version 1, and after [N] updates it has version [1 + N] and
    the content of the last update. *)
Theorem latest_version_after_add_and_updates e f line content name contents :
  read_line (Stdin e) = (line, content) ->
  TrimSpace line = name ->
  name <> "" ->
  no_separator name = true ->
  utf8.ValidString name = true ->
  Forall (fun c => utf8.ValidString c = true) contents ->
  StdinErr e = None ->
  files f !! getTemplatePath name = None ->
  denied f = ∅ ->
  dir_blocked f = false ->
  (Z.of_nat (length contents) < 2 ^ 63 - 1)%Z ->
  (exists c, loadTemplate name (run addTemplate e f).1
             = Ok {| Name := name; Version := 1; Template := c |})
  /\ (exists c, loadTemplate name (updates name contents (run addTemplate e f).1)
                = Ok {| Name := name; Version := 1 + Z.of_nat (length contents);
                        Template := c |}
                /\ forall c', last contents = Some c' -> c = c').
Proof.
  intros Hread Htrim Hne _ _ _ Herr Hfresh Hd Hdir Hlen.
  destruct (latest_after_add_and_updates e f line content name contents)
    as [Hadd Hupd]; try done.
  split; [by exists content |].
  exists (List.last contents content). split; [done |].
  intros c' Hc'. by apply last_default.
Qed.

Lemma latest_version_after_add_and_updates_witness :
  (exists c, loadTemplate "sum"
               (run addTemplate (quiet ["promptgen"; "add"] ("sum" +:+ nl +:+ "one"))
                  (store [])).1
             = Ok {| Name := "sum"; Version := 1; Template := c |})
  /\ (exists c, loadTemplate "sum"
                  (updates "sum" ["two"; "three"]
                     (run addTemplate (quiet ["promptgen"; "add"] ("sum" +:+ nl +:+ "one"))
                        (store [])).1)
                = Ok {| Name := "sum"; Version := 3; Template := c |}
                /\ forall c', last ["two"; "three"] = Some c' -> c = c').
Proof.
  apply (latest_version_after_add_and_updates
           (quiet ["promptgen"; "add"] ("sum" +:+ nl +:+ "one")) (store [])
           ("sum" +:+ nl) "one" "sum" ["two"; "three"]);
    first [reflexivity | discriminate | by repeat constructor].
Defined.

(** X11.  Every update of a chain of updates is kept: afterwards [view]
    shows the content of the [i]-th update (valid UTF-8) as the [i]-th
    version after the one that the chain started from. *)
Theorem every_update_is_kept e' f name tpl cs i c :
  denied f = ∅ ->
  dir_blocked f = false ->
  loadTemplate name f = Ok tpl ->
  no_separator name = true ->
  (- 2 ^ 63 <= Version tpl)%Z ->
  (Version tpl + Z.of_nat (length cs) < 2 ^ 63)%Z ->
  cs !! i = Some c ->
  utf8.ValidString c = true ->
  Args e' !! 2%nat = Some name ->
  Args e' !! 3%nat = Some (Itoa (Version tpl + 1 + Z.of_nat i)) ->
  let f' := updates name cs f in
  run viewVersion e' f'
  = (f', [Print (VersionContent name (Version tpl + 1 + Z.of_nat i) c)]).
Proof.
  intros Hd Hdir Hload _ Hlo Hhi Hi _ Hname Hv f'.
  destruct (versions_after_updates name cs f tpl Hd Hdir Hload Hlo Hhi) as [_ Hb].
  assert (Hi' : (i < length cs)%nat) by (by apply lookup_lt_Some in Hi).
  apply (viewVersion_loaded e' f' name _
           {| Name := Name tpl; Version := Version tpl + 1 + Z.of_nat i; Template := c |});
    [done | done | lia |].
  by apply Hb.
Qed.

Lemma every_update_is_kept_witness :
  let f' := updates "sum" ["two"; "three"] sum_store in
  run viewVersion (quiet ["promptgen"; "view"; "sum"; "3"] "") f'
  = (f', [Print (VersionContent "sum" 3 "three")]).
Proof.
  apply (every_update_is_kept
           (quiet ["promptgen"; "view"; "sum"; "3"] "") sum_store "sum"
           {| Name := "sum"; Version := 1; Template := "Q: <input>" |}
           ["two"; "three"] 1 "three");
    first [reflexivity | discriminate].
Defined.

(** ** What [delete] leaves, and what it reports *)

Lemma matches_name_inv name q : forall s,
  Pattern.matches (lits name ++ q) s = true ->
  exists s', s = name +:+ s' /\ Pattern.matches q s' = true.
Proof.
  induction name as [|c name IH]; intros s.
  - intros H. by exists s.
  - change (lits (String c name)) with (Pattern.Lit c :: lits name).
    destruct s as [|d s]; [done |]. cbn [app Pattern.matches].
    unfold Pattern.is_byte. intros [->%Ascii.eqb_eq H]%andb_true_iff.
    destruct (IH _ H) as (s' & -> & Hq). by exists s'.
Qed.

Lemma matches_star_lits_inv suf : forall s,
  Pattern.matches (Pattern.Star :: lits suf) s = true ->
  exists rest, s = rest +:+ suf /\ no_separator rest = true.
Proof.
  induction s as [|c s IH]; rewrite matches_star.
  - rewrite orb_false_r. intros ->%matches_lits. by exists "".
  - intros [->%matches_lits | [Hc H]%andb_true_iff]%orb_true_iff; [by exists "" |].
    destruct (IH H) as (rest & -> & Hsep). exists (String c rest).
    split; [done |]. cbn [no_separator]. by rewrite Hc.
Qed.

(** For a name without pattern characters, what [NAME*.json] matches. *)
Lemma matches_name_star_json name path :
  Pattern.matches (lits name ++ Pattern.Star :: lits ".json") path = true <->
  exists rest, path = name +:+ rest +:+ ".json" /\ no_separator rest = true.
Proof.
  split.
  - intros (s' & -> & H)%matches_name_inv.
    apply matches_star_lits_inv in H as (rest & -> & Hsep). by exists rest.
  - intros (rest & -> & Hsep). by rewrite matches_name, matches_star_rest.
Qed.

Lemma Glob_name_star_json name f :
  all_plain name = true ->
  filepath.Glob (name +:+ "*.json") f
  = Ok (List.filter (Pattern.matches (lits name ++ Pattern.Star :: lits ".json"))
          (os.Readdirnames f)).
Proof. intros Hplain. unfold filepath.Glob. by rewrite items_of_name. Qed.

Lemma keeps_run path (cmd : M unit) e f :
  keeps path cmd -> files (run cmd e f).1 !! path = files f !! path.
Proof. intros H. unfold run. cbn [fst]. apply H. Qed.

(** X12.  [delete NAME], for a name without pattern characters and
    separators, leaves every file whose name is not NAME, some text and
    [.json]: in every run, whatever fails. *)
Theorem delete_spares_other_names e f name path :
  Args e !! 2%nat = Some name ->
  all_plain name = true ->
  no_separator name = true ->
  no_separator path = true ->
  (forall rest, path <> name +:+ rest +:+ ".json") ->
  files (run deleteTemplate e f).1 !! path = files f !! path.
Proof.
  intros Hname Hplain _ _ Hpath.
  pattern (run deleteTemplate e f). apply run_elim.
  unfold deleteTemplate, ensureTemplateDir, init. repeat mstep.
  rewrite Hname. repeat mstep.
  unfold os.MkdirAll at 1. destruct (dir_blocked f); [by ends |].
  repeat mstep. rewrite Glob_name_star_json by done. repeat mstep.
  set (found := List.filter _ _).
  assert (Hfound : forall x, x ∈ found -> x <> path).
  { intros x Hx ->. apply list_elem_of_In, filter_In in Hx as [_ Hx].
    apply matches_name_star_json in Hx as (rest & Hx & _). by apply (Hpath rest). }
  assert (Hk : keeps path
            ((match found with
              | [] => print (NoSuchTemplate name) ≫= (fun _ => exit)
              | _ => mret tt
              end : M unit) ≫= fun _ =>
               for_each found remove_and_report ≫= fun _ => print (DeletedAll name))).
  { apply keeps_bind; [destruct found; keeps_all | intros _].
    apply keeps_bind; [| intros _; apply keeps_print].
    apply keeps_for_each. intros x Hx.
    apply keeps_bind; [| intros r; destruct r; keeps_all].
    apply keeps_Remove. by apply Hfound. }
  intros r s Hs. specialize (Hk e {| fs := f; input := Stdin e; out := [] |}).
  unfold remove_and_report in Hk. rewrite Hs in Hk. exact Hk.
Qed.

Lemma delete_spares_other_names_witness :
  files (run deleteTemplate (quiet ["promptgen"; "delete"; "summary"] "") two_templates).1
    !! "sum.json"
  = files two_templates !! "sum.json".
Proof.
  apply (delete_spares_other_names
           (quiet ["promptgen"; "delete"; "summary"] "") two_templates "summary" "sum.json");
    [reflexivity | reflexivity | reflexivity | reflexivity |].
  intros rest H. discriminate H.
Defined.

(** X14.  [delete NAME] where no file is named NAME, some text and [.json]
    (NAME without pattern characters and separators): nothing is removed,
    and the answer is that there is no such template. *)
Theorem delete_of_an_unknown_name e f name :
  Args e !! 2%nat = Some name ->
  all_plain name = true ->
  no_separator name = true ->
  dir_blocked f = false ->
  (forall rest, no_separator rest = true -> files f !! (name +:+ rest +:+ ".json") = None) ->
  run deleteTemplate e f = (f, [Print (NoSuchTemplate name)]).
Proof.
  intros Hname Hplain _ Hdir Hnone. eapply run_of_state.
  unfold deleteTemplate, ensureTemplateDir, init. repeat mstep.
  rewrite Hname. repeat mstep.
  unfold os.MkdirAll at 1. rewrite Hdir.
  repeat mstep. rewrite Glob_name_star_json by done. repeat mstep.
  destruct (List.filter _ _) as [|x l] eqn:Hl.
  - repeat mstep. reflexivity.
  - exfalso. assert (Hx : x ∈ x :: l) by (by left).
    rewrite <- Hl in Hx. apply list_elem_of_In, filter_In in Hx as [Hin Hx].
    apply list_elem_of_In, elem_of_Readdirnames in Hin as [d Hd].
    apply matches_name_star_json in Hx as (rest & -> & Hsep).
    by rewrite Hnone in Hd.
Qed.

Lemma delete_of_an_unknown_name_witness :
  run deleteTemplate (quiet ["promptgen"; "delete"; "other"] "") sum_store
  = (sum_store, [Print (NoSuchTemplate "other")]).
Proof.
  apply (delete_of_an_unknown_name
           (quiet ["promptgen"; "delete"; "other"] "") sum_store "other");
    [reflexivity | reflexivity | reflexivity | reflexivity |].
  intros rest _. unfold sum_store, store. cbn [files list_to_map foldr].
  rewrite !lookup_insert_ne, lookup_empty; [done | discriminate | discriminate].
Defined.

Lemma remove_and_report_run x e s :
  remove_and_report x e s
  = (Some tt,
     match files (fs s) !! x with
     | None => say s [Print (ErrorDeletingFile x ENOENT)]
     | Some _ =>
         if decide (x ∈ denied (fs s)) then say s [Print (ErrorDeletingFile x EACCES)]
         else {| fs := with_files (fs s) (delete x (files (fs s)));
                 input := input s; out := out s |}
     end).
Proof.
  unfold remove_and_report. rewrite bind_run, change_run. unfold os.Remove.
  destruct (files (fs s) !! x); [case_decide |]; reflexivity.
Qed.

(** The loop of [delete]: a file is removed unless removing it is denied;
    the loop goes on after a failure, and says which file it could not
    remove. *)
Lemma for_each_remove e l : forall s,
  (for_each l remove_and_report e s).1 = Some tt
  /\ denied (fs (for_each l remove_and_report e s).2) = denied (fs s)
  /\ (exists evs, out (for_each l remove_and_report e s).2 = out s ++ evs)
  /\ (forall path,
        files (fs (for_each l remove_and_report e s).2) !! path
        = if decide (path ∈ l /\ path ∉ denied (fs s)) then None
          else files (fs s) !! path)
  /\ (forall path,
        path ∈ l -> is_Some (files (fs s) !! path) -> path ∈ denied (fs s) ->
        Print (ErrorDeletingFile path EACCES) ∈ out (for_each l remove_and_report e s).2).
Proof.
  induction l as [|x l IH]; intros s.
  - cbn. split; [done | split; [done | split; [by exists [] ; rewrite app_nil_r |]]].
    split.
    + intros path. rewrite decide_False; [done |]. intros [H _]. by apply not_elem_of_nil in H.
    + intros path H. by apply not_elem_of_nil in H.
  - cbn [for_each]. rewrite bind_run, remove_and_report_run.
    destruct (files (fs s) !! x) as [d|] eqn:Hx; [destruct (decide (x ∈ denied (fs s))) as [Hden|Hden] |].
    + (* the file is there and cannot be removed *)
      destruct (IH (say s [Print (ErrorDeletingFile x EACCES)])) as (H1 & H2 & [evs H3] & H4 & H5).
      cbn [fs say] in *.
      split; [done | split; [done | split; [| split]]].
      * exists (Print (ErrorDeletingFile x EACCES) :: evs). rewrite H3. unfold say. cbn [out].
        by rewrite <- app_assoc.
      * intros path. rewrite H4.
        destruct (decide (path ∈ l /\ path ∉ denied (fs s))) as [[Hin Hn]|Hn].
        -- rewrite decide_True; [done |]. split; [by right | done].
        -- rewrite decide_False; [done |]. intros [[->|Hin]%elem_of_cons Hnd]; tauto.
      * intros path [->|Hin]%elem_of_cons Hsome Hd.
        -- rewrite H3. unfold say. cbn [out]. apply elem_of_app. left. apply elem_of_app. right. by left.
        -- by apply H5.
    + (* the file is removed *)
      destruct (IH {| fs := with_files (fs s) (delete x (files (fs s)));
                      input := input s; out := out s |})
        as (H1 & H2 & [evs H3] & H4 & H5).
      cbn [fs with_files denied files out] in *.
      split; [done | split; [done | split; [by exists evs | split]]].
      * intros path. rewrite H4.
        destruct (decide (path ∈ l /\ path ∉ denied (fs s))) as [[Hin Hn]|Hn].
        -- rewrite decide_True; [done |]. split; [by right | done].
        -- destruct (decide (path = x)) as [->|Hne].
           ++ rewrite decide_True by (split; [by left | done]). apply lookup_delete_eq.
           ++ rewrite decide_False by (intros [[->|Hin]%elem_of_cons Hnd]; tauto).
              by apply lookup_delete_ne.
      * intros path [->|Hin]%elem_of_cons Hsome Hd; [done |].
        apply H5; [done | | done].
        rewrite lookup_delete_ne; [done |]. by intros ->.
    + (* the file is not there *)
      destruct (IH (say s [Print (ErrorDeletingFile x ENOENT)])) as (H1 & H2 & [evs H3] & H4 & H5).
      cbn [fs say] in *.
      split; [done | split; [done | split; [| split]]].
      * exists (Print (ErrorDeletingFile x ENOENT) :: evs). rewrite H3. unfold say. cbn [out].
        by rewrite <- app_assoc.
      * intros path. rewrite H4.
        destruct (decide (path ∈ l /\ path ∉ denied (fs s))) as [[Hin Hn]|Hn].
        -- rewrite decide_True; [done |]. split; [by right | done].
        -- destruct (decide (path = x)) as [->|Hne].
           ++ by destruct (decide _).
           ++ rewrite decide_False; [done |]. intros [[->|Hin]%elem_of_cons Hnd]; tauto.
      * intros path [->|Hin]%elem_of_cons Hsome Hd.
        -- rewrite Hx in Hsome. by destruct Hsome.
        -- by apply H5.
Qed.

(** X15.  [delete NAME], for a name without pattern characters and
    separators: a file NAME<text>.json is removed unless removing it is
    denied; a denied file and every file of another name is left as it is;
    and where a file NAME<text>.json is there, the run reports that the
    template and all its versions were deleted, after an error line for each
    file that it could not remove. *)
Theorem delete_removes_what_it_can e f name :
  Args e !! 2%nat = Some name ->
  all_plain name = true ->
  no_separator name = true ->
  dir_blocked f = false ->
  let r := run deleteTemplate e f in
  (forall rest,
      no_separator rest = true ->
      name +:+ rest +:+ ".json" ∉ denied f ->
      files r.1 !! (name +:+ rest +:+ ".json") = None)
  /\ (forall path,
        no_separator path = true ->
        path ∈ denied f
        \/ (forall rest, no_separator rest = true -> path <> name +:+ rest +:+ ".json") ->
        files r.1 !! path = files f !! path)
  /\ (forall rest,
        no_separator rest = true ->
        is_Some (files f !! (name +:+ rest +:+ ".json")) ->
        Print (DeletedAll name) ∈ r.2
        /\ (name +:+ rest +:+ ".json" ∈ denied f ->
            exists err, Print (ErrorDeletingFile (name +:+ rest +:+ ".json") err) ∈ r.2)).
Proof.
  intros Hname Hplain _ Hdir.
  set (p := lits name ++ Pattern.Star :: lits ".json").
  assert (Hglob : filepath.Glob (name +:+ "*.json") f
                  = Ok (List.filter (Pattern.matches p) (os.Readdirnames f)))
    by (by apply Glob_name_star_json).
  assert (Hfound : forall x, x ∈ List.filter (Pattern.matches p) (os.Readdirnames f)
                             <-> Pattern.matches p x = true /\ is_Some (files f !! x)).
  { intros x. rewrite list_elem_of_In, filter_In, <- list_elem_of_In, elem_of_Readdirnames.
    tauto. }
  assert (Hp : forall rest, no_separator rest = true ->
                            Pattern.matches p (name +:+ rest +:+ ".json") = true).
  { intros rest Hsep. apply matches_name_star_json. by exists rest. }
  cbv zeta. pattern (run deleteTemplate e f). apply run_elim.
  unfold deleteTemplate, ensureTemplateDir, init.
  repeat mstep. rewrite Hname. repeat mstep.
  unfold os.MkdirAll at 1. rewrite Hdir. repeat mstep. rewrite Hglob. repeat mstep.
  destruct (List.filter (Pattern.matches p) (os.Readdirnames f)) as [|x l] eqn:Hl.
  - ends. split; [| split].
    + intros rest Hsep _. destruct (files f !! _) eqn:Hpath; [| done].
      exfalso. eapply not_elem_of_nil. apply Hfound. eauto.
    + done.
    + intros rest Hsep Hsome. exfalso. eapply not_elem_of_nil. apply Hfound. eauto.
  - repeat mstep. rewrite bind_run.
    change (for_each (x :: l) _) with (for_each (x :: l) remove_and_report).
    destruct (for_each_remove e (x :: l) {| fs := f; input := Stdin e; out := [] |})
      as (H1 & H2 & [evs H3] & H4 & H5).
    destruct (for_each (x :: l) remove_and_report e _) as [[[]|] s']; [| done].
    cbn [fst snd fs out] in *. rewrite print_run. intros ? ? [= <- <-].
    cbn [fst snd fs out say]. split; [| split].
    + intros rest Hsep Hnd. rewrite H4.
      destruct (decide (_ ∈ x :: l /\ _ ∉ denied f)) as [_|Hn]; [done |].
      destruct (files f !! _) eqn:Hpath; [| done].
      exfalso. apply Hn. split; [| done]. apply Hfound. eauto.
    + intros path _ Hpath. rewrite H4.
      destruct (decide (path ∈ x :: l /\ path ∉ denied f)) as [[Hin Hnd]|Hn]; [| done].
      exfalso. destruct Hpath as [Hd | Hother]; [done |].
      apply Hfound in Hin as [Hm _].
      apply matches_name_star_json in Hm as (rest & -> & Hsep). by apply (Hother rest).
    + intros rest Hsep Hsome. split.
      * apply elem_of_app. right. by left.
      * intros Hd. exists EACCES. apply elem_of_app. left. apply H5; [| done | done].
        apply Hfound. eauto.
Qed.

Lemma delete_removes_what_it_can_witness :
  let f := {| files := files sum_store; denied := {[ "sum_v1.json" ]}; dir_blocked := false |} in
  let r := run deleteTemplate (quiet ["promptgen"; "delete"; "sum"] "") f in
  (forall rest,
      no_separator rest = true ->
      "sum" +:+ rest +:+ ".json" ∉ denied f ->
      files r.1 !! ("sum" +:+ rest +:+ ".json") = None)
  /\ (forall path,
        no_separator path = true ->
        path ∈ denied f
        \/ (forall rest, no_separator rest = true -> path <> "sum" +:+ rest +:+ ".json") ->
        files r.1 !! path = files f !! path)
  /\ (forall rest,
        no_separator rest = true ->
        is_Some (files f !! ("sum" +:+ rest +:+ ".json")) ->
        Print (DeletedAll "sum") ∈ r.2
        /\ ("sum" +:+ rest +:+ ".json" ∈ denied f ->
            exists err, Print (ErrorDeletingFile ("sum" +:+ rest +:+ ".json") err) ∈ r.2)).
Proof.
  apply (delete_removes_what_it_can
           (quiet ["promptgen"; "delete"; "sum"] "")
           {| files := files sum_store; denied := {[ "sum_v1.json" ]}; dir_blocked := false |}
           "sum");
    reflexivity.
Defined.

(** ** What [list] and [versions] show *)

Lemma split_from_absent sep s :
  Contains s sep = false -> split_from sep 0 s = (s, []).
Proof.
  induction s as [|c s IH]; [done |].
  cbn [Contains split_from]. intros [Hhere Hrest]%orb_false_iff.
  by rewrite Hhere, IH.
Qed.

Lemma no_separator_Contains s : no_separator s = true -> Contains s "/" = false.
Proof.
  induction s as [|c s IH]; [done |].
  cbn [no_separator Contains HasPrefix]. intros [Hc Hs]%andb_true_iff.
  rewrite IH by done. rewrite andb_true_r, orb_false_r.
  apply negb_true_iff in Hc. unfold Pattern.is_byte, Pattern.Separator in Hc.
  by rewrite Ascii.eqb_sym.
Qed.

Lemma no_separator_app a b :
  no_separator a = true -> no_separator b = true -> no_separator (a +:+ b) = true.
Proof.
  intros Ha Hb. induction a as [|c a IH]; [done |].
  rewrite append_cons. cbn [no_separator] in *.
  apply andb_true_iff in Ha as [Hc Ha]. by rewrite Hc, IH.
Qed.

Lemma Base_plain path : no_separator path = true -> filepath.Base path = path.
Proof.
  intros H. unfold filepath.Base, Split.
  by rewrite split_from_absent by (by apply no_separator_Contains).
Qed.

(** A loop whose body only prints: it runs to the end, and what the body
    prints for an element of the list is in the trace. *)
Lemma for_each_says {A} (body : A -> M unit) e (l : list A) :
  (forall y s, exists evs, body y e s = (Some tt, say s evs)) ->
  forall s, exists evs, for_each l body e s = (Some tt, say s evs).
Proof.
  intros Hbody. induction l as [|y l IH]; intros s.
  - exists []. by rewrite say_nil.
  - cbn [for_each]. rewrite bind_run.
    destruct (Hbody y s) as [evs1 ->]. destruct (IH (say s evs1)) as [evs2 ->].
    exists (evs1 ++ evs2). by rewrite say_say.
Qed.

Lemma for_each_prints {A} (body : A -> M unit) e (l : list A) x ev f0 :
  (forall y s, exists evs, body y e s = (Some tt, say s evs)) ->
  (forall s, fs s = f0 -> exists evs, body x e s = (Some tt, say s evs) /\ ev ∈ evs) ->
  x ∈ l ->
  forall s, fs s = f0 -> exists evs, for_each l body e s = (Some tt, say s evs) /\ ev ∈ evs.
Proof.
  intros Hbody Hx. induction l as [|y l IH]; intros Hin s Hs.
  - by apply not_elem_of_nil in Hin.
  - cbn [for_each]. rewrite bind_run.
    apply elem_of_cons in Hin as [<-|Hin].
    + destruct (Hx s Hs) as (evs1 & -> & Hev).
      destruct (for_each_says body e l Hbody (say s evs1)) as [evs2 ->].
      exists (evs1 ++ evs2). rewrite say_say. split; [done |].
      apply elem_of_app. by left.
    + destruct (Hbody y s) as [evs1 ->].
      destruct (IH Hin (say s evs1) Hs) as (evs2 & -> & Hev).
      exists (evs1 ++ evs2). rewrite say_say. split; [done |].
      apply elem_of_app. by right.
Qed.

Lemma Contains_before_json name :
  Contains name "_v" = false -> Contains (name +:+ ".json") "_v" = false.
Proof.
  induction name as [|c name IH]; [done |].
  rewrite append_cons. cbn [Contains]. intros [Hhere Hrest]%orb_false_iff.
  rewrite IH by done. rewrite orb_false_r.
  destruct name as [|d name]; [| exact Hhere].
  cbn. by rewrite andb_false_r.
Qed.

Lemma Glob_star_json f :
  filepath.Glob "*.json" f
  = Ok (List.filter (Pattern.matches (Pattern.Star :: lits ".json")) (os.Readdirnames f)).
Proof. reflexivity. Qed.

(** X16.  [list] shows every template whose latest record can be read and whose
    name has no [_v] in it: the name and the version that the record holds.
    Damaged or unreadable records of other templates do not stand in the
    way. *)
Theorem list_shows_the_template e f name t :
  dir_blocked f = false ->
  no_separator name = true ->
  Contains name "_v" = false ->
  files f !! getTemplatePath name = Some (Json t) ->
  getTemplatePath name ∉ denied f ->
  Print (TemplateEntry (Name t) (Version t)) ∈ (run listTemplates e f).2.
Proof.
  intros Hdir Hsep Hv Hfile Hden.
  pattern (run listTemplates e f). apply run_elim.
  unfold listTemplates, ensureTemplateDir, init. repeat mstep.
  unfold os.MkdirAll at 1. rewrite Hdir. repeat mstep.
  rewrite Glob_star_json. repeat mstep.
  assert (Hin : getTemplatePath name
                ∈ List.filter (Pattern.matches (Pattern.Star :: lits ".json"))
                    (os.Readdirnames f)).
  { apply list_elem_of_In, filter_In. split.
    - apply list_elem_of_In, elem_of_Readdirnames. by rewrite Hfile.
    - by apply matches_star_rest. }
  destruct (List.filter _ _) as [|x l]; [by apply not_elem_of_nil in Hin |].
  intros r s. repeat mstep.
  match goal with
  | |- context [for_each (x :: l) ?b] => set (body := b)
  end.
  assert (Hbody : forall y s0, exists evs, body y e s0 = (Some tt, say s0 evs)).
  { intros y s0. unfold body. destruct (Contains (filepath.Base y) "_v").
    { exists []. by rewrite say_nil. }
    rewrite bind_run, query_run.
    destruct (os.ReadFile y (fs s0)) as [[t'|raw]|err]; cbn [Unmarshal].
    - by exists [Print (TemplateEntry (Name t') (Version t'))].
    - exists []. by rewrite say_nil.
    - exists []. by rewrite say_nil. }
  assert (Hhere : forall s0, fs s0 = f ->
            exists evs, body (getTemplatePath name) e s0 = (Some tt, say s0 evs)
                        /\ Print (TemplateEntry (Name t) (Version t)) ∈ evs).
  { intros s0 Hs. unfold body.
    rewrite Base_plain by (by apply no_separator_app).
    unfold getTemplatePath at 1. rewrite Contains_before_json by done.
    rewrite bind_run, query_run, Hs. unfold os.ReadFile. rewrite Hfile.
    rewrite decide_False by done. cbn [Unmarshal].
    exists [Print (TemplateEntry (Name t) (Version t))]. split; [done | by left]. }
  destruct (for_each_prints body e (x :: l) _ _ f Hbody Hhere Hin
              {| fs := f; input := Stdin e; out := [Print TemplatesHeader] |} eq_refl)
    as (evs & -> & Hev).
  intros [= <- <-]. cbn [out say snd]. apply elem_of_app. by right.
Qed.

Lemma list_shows_the_template_witness :
  Print (TemplateEntry "summary" 1)
  ∈ (run listTemplates (quiet ["promptgen"; "list"] "") two_templates).2.
Proof.
  apply (list_shows_the_template (quiet ["promptgen"; "list"] "") two_templates "summary"
           {| Name := "summary"; Version := 1; Template := "S: <input>" |});
    first [reflexivity | apply not_elem_of_empty].
Defined.

(** X17.  [list] where no file of the directory ends in [.json]. *)
Theorem list_of_a_store_without_records e f :
  dir_blocked f = false ->
  (forall stem, files f !! (stem +:+ ".json") = None) ->
  run listTemplates e f = (f, [Print NoTemplatesFound]).
Proof.
  intros Hdir Hnone. eapply run_of_state.
  unfold listTemplates, ensureTemplateDir, init. repeat mstep.
  unfold os.MkdirAll at 1. rewrite Hdir. repeat mstep.
  rewrite Glob_star_json. repeat mstep.
  destruct (List.filter _ _) as [|x l] eqn:Hl.
  - repeat mstep. reflexivity.
  - exfalso. assert (Hx : x ∈ x :: l) by (by left).
    rewrite <- Hl in Hx. apply list_elem_of_In, filter_In in Hx as [Hin Hx].
    apply list_elem_of_In, elem_of_Readdirnames in Hin as [d Hd].
    apply matches_star_lits_inv in Hx as (rest & -> & _).
    by rewrite Hnone in Hd.
Qed.

Lemma list_of_a_store_without_records_witness :
  run listTemplates (quiet ["promptgen"; "list"] "")
    (store [("history.log", Undecodable "sum 1")])
  = (store [("history.log", Undecodable "sum 1")], [Print NoTemplatesFound]).
Proof.
  apply (list_of_a_store_without_records (quiet ["promptgen"; "list"] "")
           (store [("history.log", Undecodable "sum 1")])); [reflexivity |].
  intros stem. unfold store. cbn [files list_to_map foldr].
  destruct (decide ("history.log" = stem +:+ ".json")) as [Heq|Hne].
  - exfalso. pose proof (last_byte_record stem) as Hlast. by rewrite <- Heq in Hlast.
  - by rewrite lookup_insert_ne, lookup_empty by done.
Defined.

Lemma rev_app_acc a : forall c, String.rev_app a c = String.rev_app a "" +:+ c.
Proof.
  induction a as [|x a IH]; intros c; [done |].
  cbn [String.rev_app]. rewrite (IH (String x c)), (IH (String x "")).
  by rewrite append_assoc.
Qed.

Lemma rev_append a b : String.rev (a +:+ b) = String.rev b +:+ String.rev a.
Proof.
  unfold String.rev. generalize "" at 1 3. induction a as [|x a IH]; intros c.
  - rewrite append_nil_l. cbn [String.rev_app]. apply rev_app_acc.
  - rewrite append_cons. cbn [String.rev_app]. apply IH.
Qed.

Lemma substring_app x suf : substring 0 (String.length x) (x +:+ suf) = x.
Proof.
  induction x as [|c x IH].
  - by destruct suf.
  - rewrite append_cons. cbn [String.length substring]. by rewrite IH.
Qed.

Lemma TrimSuffix_app x suf : TrimSuffix (x +:+ suf) suf = x.
Proof.
  unfold TrimSuffix, HasSuffix. rewrite rev_append, HasPrefix_app.
  rewrite length_append, Nat.add_sub. apply substring_app.
Qed.

Lemma items_of_plain_prefix name rest :
  all_plain name = true ->
  Pattern.items_of (String.length (name +:+ rest)) (name +:+ rest)
  = app (lits name) <$> Pattern.items_of (String.length rest) rest.
Proof.
  induction name as [|c name IH]; intros Hplain.
  - rewrite append_nil_l. by destruct (Pattern.items_of _ _).
  - apply all_plain_cons in Hplain as [Hc Hplain].
    rewrite append_cons. cbn [String.length Pattern.items_of].
    unfold special in Hc. rewrite !orb_false_iff in Hc.
    destruct Hc as ((((-> & ->) & ->) & ->) & _).
    rewrite IH by done. destruct (Pattern.items_of (String.length rest) rest); reflexivity.
Qed.

Lemma Glob_name_versions name f :
  all_plain name = true ->
  filepath.Glob (name +:+ "_v*.json") f
  = Ok (List.filter
          (Pattern.matches (lits name ++ Pattern.Lit "_" :: Pattern.Lit "v"
                              :: Pattern.Star :: lits ".json"))
          (os.Readdirnames f)).
Proof. intros Hplain. unfold filepath.Glob. by rewrite items_of_plain_prefix. Qed.

Lemma Split_version name mid :
  Contains name "_v" = false ->
  Contains mid "_v" = false ->
  Split (name +:+ "_v" +:+ mid) "_v" = [name; mid].
Proof.
  intros Hname Hmid. unfold Split.
  enough (H : split_from "_v" 0 (name +:+ "_v" +:+ mid) = (name, [mid])) by (by rewrite H).
  induction name as [|c name IH].
  - rewrite append_nil_l. change ("_v" +:+ mid) with (String "_" (String "v" mid)).
    cbn [split_from HasPrefix Ascii.eqb Bool.eqb andb String.length Nat.sub].
    by rewrite split_from_absent.
  - cbn [Contains] in Hname. apply orb_false_iff in Hname as [Hhere Hrest].
    rewrite append_cons. cbn [split_from].
    replace (HasPrefix (String c (name +:+ "_v" +:+ mid)) "_v") with false.
    + by rewrite IH.
    + symmetry. destruct name as [|d name]; [| exact Hhere].
      rewrite append_nil_l. cbn. by rewrite andb_false_r.
Qed.

Lemma numeral_uint d : numeral (NilEmpty.string_of_uint d) = true.
Proof. induction d; cbn; done. Qed.

Lemma numeral_Itoa k : numeral (Itoa k) = true.
Proof.
  unfold Itoa.
  assert (H : forall d, numeral (NilZero.string_of_uint d) = true).
  { intros d. destruct d; try done; apply (numeral_uint (_ _)). }
  destruct (Z.to_int k) as [d|d]; cbn [NilZero.string_of_int]; [apply H |].
  cbn [numeral]. by rewrite H.
Qed.

Lemma numeral_no_separator s : numeral s = true -> no_separator s = true.
Proof.
  induction s as [|c s IH]; [done |]. cbn [numeral no_separator].
  intros [Hc Hs]%andb_true_iff. rewrite IH by done. rewrite andb_true_r.
  unfold Pattern.is_byte, Pattern.Separator in *.
  destruct (Ascii.eqb_spec c "/") as [->|]; [discriminate Hc | done].
Qed.

Lemma numeral_no_version_mark s : numeral s = true -> Contains s "_v" = false.
Proof.
  induction s as [|c s IH]; [done |]. cbn [numeral Contains HasPrefix].
  intros [Hc Hs]%andb_true_iff. rewrite IH by done. rewrite orb_false_r.
  destruct (Ascii.eqb_spec "_" c) as [<-|]; [discriminate Hc | done].
Qed.

(** [versions NAME] shows the text between [_v] and [.json] of a file
    [NAME_v<text>.json], for a name and a text without pattern characters,
    separators and [_v]. *)
Lemma versions_shows_a_version_file e f name mid :
  Args e !! 2%nat = Some name ->
  all_plain name = true ->
  no_separator name = true ->
  Contains name "_v" = false ->
  no_separator mid = true ->
  Contains mid "_v" = false ->
  is_Some (files f !! (name +:+ "_v" +:+ mid +:+ ".json")) ->
  Print (VersionLine mid) ∈ (run listVersions e f).2.
Proof.
  intros Hname Hplain Hsep Hv Hsepm Hvm Hfile.
  pattern (run listVersions e f). apply run_elim.
  unfold listVersions, init. repeat mstep. rewrite Hname. repeat mstep.
  rewrite Glob_name_versions by done. repeat mstep.
  assert (Hin : name +:+ "_v" +:+ mid +:+ ".json"
                ∈ List.filter
                    (Pattern.matches (lits name ++ Pattern.Lit "_" :: Pattern.Lit "v"
                                        :: Pattern.Star :: lits ".json"))
                    (os.Readdirnames f)).
  { apply list_elem_of_In, filter_In. split.
    - by apply list_elem_of_In, elem_of_Readdirnames.
    - rewrite matches_name.
      change ("_v" +:+ mid +:+ ".json") with (String "_" (String "v" (mid +:+ ".json"))).
      cbn [Pattern.matches]. unfold Pattern.is_byte. rewrite !Ascii.eqb_refl.
      cbn [andb]. by apply matches_star_rest. }
  destruct (List.filter _ _) as [|x l]; [by apply not_elem_of_nil in Hin |].
  intros r s. repeat mstep.
  match goal with
  | |- context [for_each (x :: l) ?b] => set (body := b)
  end.
  assert (Hbody : forall y s0, exists evs, body y e s0 = (Some tt, say s0 evs)).
  { intros y s0. unfold body.
    destruct (Split _ _) as [|a [|b [|c parts]]];
      first [ by eexists [_] | exists []; by rewrite say_nil ]. }
  assert (Hhere : forall s0, fs s0 = f ->
            exists evs, body (name +:+ "_v" +:+ mid +:+ ".json") e s0 = (Some tt, say s0 evs)
                        /\ Print (VersionLine mid) ∈ evs).
  { intros s0 _. unfold body.
    rewrite Base_plain
      by (apply no_separator_app; [done |];
          apply (no_separator_app "_v"); [done |]; by apply no_separator_app).
    replace (name +:+ "_v" +:+ mid +:+ ".json") with ((name +:+ "_v" +:+ mid) +:+ ".json")
      by (by rewrite !append_assoc).
    rewrite TrimSuffix_app, Split_version by done.
    exists [Print (VersionLine mid)]. split; [done | by left]. }
  destruct (for_each_prints body e (x :: l) _ _ f Hbody Hhere Hin
              {| fs := f; input := Stdin e; out := [Print (VersionsHeader name)] |} eq_refl)
    as (evs & -> & Hev).
  intros [= <- <-]. cbn [out say snd]. apply elem_of_app. by right.
Qed.

(** X18.  [versions NAME] shows every version of NAME that has a version record,
    for a name without pattern characters, separators and [_v]. *)
Theorem versions_shows_the_version e f name k :
  Args e !! 2%nat = Some name ->
  all_plain name = true ->
  no_separator name = true ->
  Contains name "_v" = false ->
  is_Some (files f !! getTemplateVersionPath name k) ->
  Print (VersionLine (Itoa k)) ∈ (run listVersions e f).2.
Proof.
  intros Hname Hplain Hsep Hv Hfile.
  apply (versions_shows_a_version_file e f name (Itoa k)); try done.
  - apply numeral_no_separator, numeral_Itoa.
  - apply numeral_no_version_mark, numeral_Itoa.
Qed.

Lemma versions_shows_the_version_witness :
  Print (VersionLine "2")
  ∈ (run listVersions (quiet ["promptgen"; "versions"; "sum"] "") stale_store).2.
Proof.
  apply (versions_shows_the_version (quiet ["promptgen"; "versions"; "sum"] "")
           stale_store "sum" 2); try reflexivity.
  by exists (record "sum" 2 "lost").
Defined.

(** ** The other sources of the input *)

Lemma openEditorForInput_editor : only_says editor_event openEditorForInput.
Proof. unfold openEditorForInput. says. Qed.

Lemma resolveInput_clip e s :
  Args e !! 3%nat = Some "--clip"%string ->
  resolveInput e s
  = match ClipRead e with
    | Ok clip => (Some clip, say s [ClipboardRead; Print UsingClipboard])
    | Err x => (None, say s [ClipboardRead; Print (FailedClipboardRead x)])
    end.
Proof.
  intros Hclip. unfold resolveInput. rewrite bind_run, ask_run.
  rewrite bool_decide_eq_true_2 by done.
  rewrite bind_run, emit_run.
  destruct (ClipRead e) as [clip|x]; cbn [or_return].
  - rewrite bind_run, ret_run, bind_run, print_run, ret_run. by rewrite say_say.
  - rewrite bind_run, bind_run, print_run, exit_run. by rewrite say_say.
Qed.

Section Sources.

Context {E : TemplateEngine}.

(** X19.  With [--clip] the input is what the clipboard holds, as it is (an empty
    clipboard is an empty input); when the clipboard cannot be read the
    generation ends there.  The editor is not started in either case. *)
Theorem clip_flag_reads_the_clipboard e f name tpl :
  Args e !! 2%nat = Some name ->
  Args e !! 3%nat = Some "--clip"%string ->
  loadTemplate name f = Ok tpl ->
  match ClipRead e with
  | Ok clip =>
      generatePrompt e (init e f)
      = finishPrompt tpl clip e (say (init e f) [ClipboardRead; Print UsingClipboard])
  | Err x =>
      run generatePrompt e f = (f, [ClipboardRead; Print (FailedClipboardRead x)])
  end
  /\ (TempCreate ∉ (run generatePrompt e f).2)
  /\ (forall program path, EditorRun program path ∉ (run generatePrompt e f).2).
Proof.
  intros Hname Hclip Hload.
  assert (Hgen : generatePrompt e (init e f)
                 = match ClipRead e with
                   | Ok clip => finishPrompt tpl clip e
                                  (say (init e f) [ClipboardRead; Print UsingClipboard])
                   | Err x => (None, say (init e f) [ClipboardRead; Print (FailedClipboardRead x)])
                   end).
  { rewrite (generatePrompt_loaded _ _ name tpl) by done.
    rewrite bind_run, resolveInput_clip by done. by destruct (ClipRead e). }
  assert (Hev : Forall (fun ev => clipboard_event ev \/ delivery_event ev)
                  (run generatePrompt e f).2).
  { unfold run. cbn [snd]. rewrite Hgen. destruct (ClipRead e) as [clip|x].
    - destruct (finishPrompt_says tpl clip e
                  (say (init e f) [ClipboardRead; Print UsingClipboard]))
        as (evs & -> & Hevs).
      cbn [out say init app]. repeat (constructor; [cbn; tauto |]).
      eapply Forall_impl; [exact Hevs | tauto].
    - cbn [snd out say init app]. repeat (constructor; [cbn; tauto |]). constructor. }
  split; [| split].
  - destruct (ClipRead e) as [clip|x]; [done |].
    unfold run. by rewrite Hgen.
  - intros Hin. rewrite Forall_forall in Hev. by destruct (Hev _ Hin).
  - intros program path Hin. rewrite Forall_forall in Hev. by destruct (Hev _ Hin).
Qed.

(** X20.  Without a fourth argument, text from the editor that is not white space
    only is the input, as the editor left it; the clipboard is not read. *)
Theorem editor_text_is_the_input e f name tpl text :
  Args e !! 2%nat = Some name ->
  Args e !! 3%nat = None ->
  loadTemplate name f = Ok tpl ->
  (openEditorForInput e (init e f)).1 = Some (text, None) ->
  TrimSpace text <> "" ->
  let s1 := (openEditorForInput e (init e f)).2 in
  resolveInput e (init e f) = (Some text, say s1 [Print UsingEditor])
  /\ generatePrompt e (init e f) = finishPrompt tpl text e (say s1 [Print UsingEditor])
  /\ (ClipboardRead ∉ (run generatePrompt e f).2).
Proof.
  intros Hname Hno Hload Hed Htext s1.
  assert (Hres : resolveInput e (init e f) = (Some text, say s1 [Print UsingEditor])).
  { unfold resolveInput. rewrite bind_run, ask_run.
    rewrite bool_decide_eq_false_2 by (rewrite Hno; congruence).
    rewrite Hno, bind_run. subst s1.
    destruct (openEditorForInput e (init e f)) as [r s1]. cbn [fst] in Hed. subst r.
    cbn [snd].
    rewrite bool_decide_eq_false_2 by (intros H; by apply H).
    destruct (String.eqb_spec (TrimSpace text) "") as [|_]; [done |].
    cbn [orb]. by rewrite bind_run, print_run, ret_run. }
  assert (Hgen : generatePrompt e (init e f)
                 = finishPrompt tpl text e (say s1 [Print UsingEditor])).
  { rewrite (generatePrompt_loaded _ _ name tpl) by done. by rewrite bind_run, Hres. }
  split; [done | split; [done |]].
  unfold run. cbn [snd]. rewrite Hgen.
  destruct (openEditorForInput_editor e (init e f)) as (evs1 & Hs1 & Hevs1).
  fold s1 in Hs1.
  destruct (finishPrompt_says tpl text e (say s1 [Print UsingEditor])) as (evs2 & -> & Hevs2).
  rewrite Hs1. cbn [out say init app].
  rewrite !elem_of_app, list_elem_of_singleton.
  rewrite Forall_forall in Hevs1, Hevs2.
  intros [[Hin | Hin] | Hin]; [by apply Hevs1 in Hin | done | by apply Hevs2 in Hin].
Qed.

(** The known events at the front of a trace start no editor; neither do
    the events of the delivery. *)
Ltac peel :=
  repeat (constructor; [by intros (? & ? & ?) |]);
  first [ constructor
        | eapply Forall_impl; [eassumption |]; by intros ? ? (? & ? & ->) ].

Lemma finishPrompt_adds tpl text e s0 r s :
  finishPrompt tpl text e s0 = (r, s) ->
  exists evs, out s = out s0 ++ evs /\ Forall delivery_event evs.
Proof.
  intros Heq. destruct (finishPrompt_says tpl text e s0) as (evs & Hs & Hevs).
  rewrite Heq in Hs. cbn [snd] in Hs. subst s. by exists evs.
Qed.

(** The trace of [generate]: when the scratch file could be created it
    starts with the three events of the editor, and no editor is started
    after them; otherwise no editor is started at all. *)
Lemma generatePrompt_editor_once e f :
  let started ev := exists program path, ev = EditorRun program path in
  (exists program path rest,
      (run generatePrompt e f).2
      = [TempCreate; EditorRun program path; TempRemove path] ++ rest
      /\ Forall (fun ev => ~ started ev) rest)
  \/ Forall (fun ev => ~ started ev) (run generatePrompt e f).2.
Proof.
  intros started.
  pattern (run generatePrompt e f). apply run_elim. intros r s. cbn [snd].
  unfold generatePrompt, init. repeat mstep.
  destruct (Args e !! 2%nat) as [name|].
  2:{ repeat mstep. intros [= <- <-]. right. cbn [out]. peel. }
  repeat mstep. destruct (loadTemplate name f) as [tpl|x].
  2:{ repeat mstep. intros [= <- <-]. right. cbn [out]. peel. }
  repeat mstep. rewrite bind_run. unfold resolveInput. repeat mstep.
  destruct (bool_decide (Args e !! 3%nat = Some "--clip"%string)).
  { repeat mstep. destruct (ClipRead e) as [clip|x]; repeat mstep.
    - intros (evs & -> & Hevs)%finishPrompt_adds. right. cbn [out app]. peel.
    - intros [= <- <-]. right. cbn [out]. peel. }
  destruct (Args e !! 3%nat) as [text|].
  { repeat mstep. intros (evs & -> & Hevs)%finishPrompt_adds. right. cbn [out app]. peel. }
  rewrite bind_run. unfold openEditorForInput. repeat mstep.
  destruct (TempFile e) as [tmp|x].
  - repeat mstep.
    destruct (match RunEditor e _ with
              | Ok (Ok content) => (content, None)
              | Ok (Err err) => ("", Some err)
              | Err err => ("", Some err)
              end) as [text err].
    destruct (bool_decide (err ≠ None) || String.eqb (TrimSpace text) "").
    + repeat mstep. destruct (ClipRead e) as [clip|x]; repeat mstep.
      * intros (evs & -> & Hevs)%finishPrompt_adds. left. cbn [out app].
        eexists _, tmp, _. split; [reflexivity | peel].
      * intros [= <- <-]. left. cbn [out].
        eexists _, tmp, _. split; [reflexivity | peel].
    + repeat mstep. intros (evs & -> & Hevs)%finishPrompt_adds. left. cbn [out app].
      eexists _, tmp, _. split; [reflexivity | peel].
  - repeat mstep. cbn [bool_decide orb].
    rewrite bool_decide_eq_true_2 by done. cbn [orb].
    repeat mstep. destruct (ClipRead e) as [clip|y]; repeat mstep.
    + intros (evs & -> & Hevs)%finishPrompt_adds. right. cbn [out app]. peel.
    + intros [= <- <-]. right. cbn [out]. peel.
Qed.

(** X21.  In every run of [generate], an editor that was started on a scratch
    file is followed at once by the removal of that file: before the
    clipboard is read, and before anything is printed.  No second editor is
    started. *)
Theorem scratch_file_is_removed e f program path :
  EditorRun program path ∈ (run generatePrompt e f).2 ->
  exists after,
    (run generatePrompt e f).2
    = [TempCreate; EditorRun program path; TempRemove path] ++ after
    /\ forall program' path', EditorRun program' path' ∉ after.
Proof.
  intros Hin.
  destruct (generatePrompt_editor_once e f) as [(ed & tmp & rest & Heq & Hrest) | Hnone].
  - rewrite Forall_forall in Hrest.
    assert (Hafter : forall program' path', EditorRun program' path' ∉ rest).
    { intros program' path' H. apply (Hrest _ H). eauto. }
    rewrite Heq in Hin |- *.
    apply elem_of_app in Hin as [Hin | Hin]; [| by apply Hafter in Hin].
    apply elem_of_cons in Hin as [Hin | Hin]; [discriminate Hin |].
    apply elem_of_cons in Hin as [Hin | Hin]; [injection Hin as -> ->; by exists rest |].
    apply elem_of_cons in Hin as [Hin | Hin]; [discriminate Hin |].
    by apply elem_of_nil in Hin.
  - rewrite Forall_forall in Hnone. exfalso. apply (Hnone _ Hin). eauto.
Qed.

End Sources.

Lemma clip_flag_reads_the_clipboard_witness :
  generatePrompt (E := TextTemplate.fragment)
    (clip_env ["promptgen"; "generate"; "sum"; "--clip"] "")
    (init (clip_env ["promptgen"; "generate"; "sum"; "--clip"] "") sum_store)
  = finishPrompt (E := TextTemplate.fragment)
      {| Name := "sum"; Version := 1; Template := "Q: <input>" |} ""
      (clip_env ["promptgen"; "generate"; "sum"; "--clip"] "")
      (say (init (clip_env ["promptgen"; "generate"; "sum"; "--clip"] "") sum_store)
         [ClipboardRead; Print UsingClipboard])
  /\ (TempCreate ∉ (run (generatePrompt (E := TextTemplate.fragment))
                      (clip_env ["promptgen"; "generate"; "sum"; "--clip"] "") sum_store).2)
  /\ (forall program path,
        EditorRun program path
        ∉ (run (generatePrompt (E := TextTemplate.fragment))
             (clip_env ["promptgen"; "generate"; "sum"; "--clip"] "") sum_store).2).
Proof.
  apply (clip_flag_reads_the_clipboard (E := TextTemplate.fragment)
           (clip_env ["promptgen"; "generate"; "sum"; "--clip"] "") sum_store "sum"
           {| Name := "sum"; Version := 1; Template := "Q: <input>" |});
    reflexivity.
Defined.

Lemma editor_text_is_the_input_witness :
  let e := editor_env ["promptgen"; "generate"; "sum"] (" hello" +:+ nl) in
  let s1 := (openEditorForInput e (init e sum_store)).2 in
  resolveInput e (init e sum_store) = (Some (" hello" +:+ nl), say s1 [Print UsingEditor])
  /\ generatePrompt (E := TextTemplate.fragment) e (init e sum_store)
     = finishPrompt (E := TextTemplate.fragment)
         {| Name := "sum"; Version := 1; Template := "Q: <input>" |} (" hello" +:+ nl) e
         (say s1 [Print UsingEditor])
  /\ (ClipboardRead ∉ (run (generatePrompt (E := TextTemplate.fragment)) e sum_store).2).
Proof.
  apply (editor_text_is_the_input (E := TextTemplate.fragment)
           (editor_env ["promptgen"; "generate"; "sum"] (" hello" +:+ nl)) sum_store "sum"
           {| Name := "sum"; Version := 1; Template := "Q: <input>" |} (" hello" +:+ nl));
    first [reflexivity | by vm_compute].
Defined.

Lemma scratch_file_is_removed_witness :
  exists after,
    (run (generatePrompt (E := TextTemplate.fragment))
       (editor_env ["promptgen"; "generate"; "sum"] "hello") sum_store).2
    = [TempCreate; EditorRun "vim" "/tmp/promptgen_input_1.txt";
       TempRemove "/tmp/promptgen_input_1.txt"] ++ after
    /\ forall program' path', EditorRun program' path' ∉ after.
Proof.
  apply (scratch_file_is_removed (E := TextTemplate.fragment)
           (editor_env ["promptgen"; "generate"; "sum"] "hello") sum_store).
  vm_compute. right. left.
Defined.

(** ** The program as a whole *)

Section Whole.

Context {E : TemplateEngine}.

(** X22.  A template without a placeholder (and without an opening delimiter of
    its own) is the prompt, whatever the input is: the input is dropped
    without a word. *)
Theorem template_without_placeholder e f name tpl text s1 :
  TextTemplate.conforms E ->
  Args e !! 2%nat = Some name ->
  loadTemplate name f = Ok tpl ->
  Contains (Template tpl) "{{" = false ->
  Contains (Template tpl) placeholder = false ->
  resolveInput e (init e f) = (Some text, s1) ->
  run generatePrompt e f =
  (f, out s1 ++ [Print (GeneratedPrompt (Version tpl) (Template tpl));
                 ClipboardWrite (Template tpl);
                 Print (match ClipWrite e (Template tpl) with
                        | Some err => WarningClipboardWrite err
                        | None => CopiedToClipboard
                        end)]).
Proof.
  intros HE Hname Hload Hopen Hph Hin.
  assert (Hplain : plain (Template tpl) = true).
  { unfold plain. rewrite Hopen. cbn [negb andb]. apply negb_true_iff.
    revert Hph. generalize (Template tpl). intros c.
    induction c as [|a c IH]; [done |].
    cbn [Contains]. intros [Hhere Hrest]%orb_false_iff.
    rewrite IH by done. rewrite orb_false_r.
    apply not_true_is_false. intros H.
    change ("{" +:+ placeholder) with (String "{" placeholder) in H.
    apply HasPrefix_cons in H as [_ H].
    destruct c as [|b c]; [done |]. cbn [Contains] in Hrest.
    apply orb_false_iff in Hrest as [Hb _]. by rewrite H in Hb. }
  pose proof (only_says_fs _ resolveInput e (init e f) resolveInput_says) as Hfs.
  rewrite Hin in Hfs. cbn [snd init fs] in Hfs.
  destruct (scan_normalised {[ "Input" := text ]} (Template tpl) 0 text Hplain)
    as (ns & Hscan & Hrender); [apply lookup_singleton_eq |].
  specialize (HE (Name tpl) (ReplaceAll (Template tpl) placeholder "{{.Input}}")).
  unfold TextTemplate.parse, ReplaceAll in HE. rewrite Hscan in HE.
  destruct HE as (t & Hparse & Hexec).
  fold (ReplaceAll (Template tpl) placeholder text) in Hrender.
  rewrite ReplaceAll_without_placeholder in Hrender by done.
  unfold run. rewrite (generatePrompt_loaded _ _ name tpl) by done.
  rewrite bind_run, Hin.
  rewrite (finishPrompt_rendered tpl text e s1 t (Template tpl)).
  - cbn [snd fst say fs out]. by rewrite Hfs.
  - exact Hparse.
  - by rewrite Hexec, Hrender.
Qed.

Lemma only_says_for_each (P : event -> Prop) {A} (l : list A) (body : A -> M unit) :
  (forall x, only_says P (body x)) -> only_says P (for_each l body).
Proof.
  intros H. induction l as [|x l IH]; [apply only_says_ret |].
  cbn [for_each]. apply only_says_bind; [apply H | by intros _].
Qed.

Lemma listTemplates_says : only_says (fun _ => True) listTemplates.
Proof.
  unfold listTemplates, ensureTemplateDir. says.
  apply only_says_for_each. intros x. says.
Qed.

Lemma listVersions_says : only_says (fun _ => True) listVersions.
Proof.
  unfold listVersions. says.
  apply only_says_for_each. intros x. says.
Qed.

(** X23.  The commands other than [add], [update] and [delete] leave the
    files of the template directory as they are, whatever they are given
    and whatever fails.  ([list] may create the directory itself, which
    holds no file then.) *)
Theorem only_add_update_and_delete_write e f :
  Args e !! 1%nat <> Some "add"%string ->
  Args e !! 1%nat <> Some "update"%string ->
  Args e !! 1%nat <> Some "delete"%string ->
  (run main e f).1 = f.
Proof.
  intros Hadd Hupd Hdel. unfold run. cbn [fst].
  unfold main. rewrite bind_run, ask_run.
  destruct (Args e !! 1%nat) as [cmd|]; [| done].
  destruct (String.eqb_spec cmd "add") as [->|_]; [done |].
  destruct (String.eqb_spec cmd "list") as [_|_].
  { apply (only_says_fs (fun _ => True)), listTemplates_says. }
  destruct (String.eqb_spec cmd "delete") as [->|_]; [done |].
  destruct (String.eqb_spec cmd "update") as [->|_]; [done |].
  destruct (String.eqb_spec cmd "generate") as [_|_].
  { apply (only_says_fs (fun _ => True)), generatePrompt_says. }
  destruct (String.eqb_spec cmd "review") as [_|_].
  { apply (only_says_fs (fun _ => True)). unfold reviewTemplate. says. }
  destruct (String.eqb_spec cmd "completion") as [_|_].
  { apply (only_says_fs (fun _ => True)). unfold completion. says. }
  destruct (String.eqb_spec cmd "history") as [_|_].
  { apply (only_says_fs (fun _ => True)). unfold showHistory. says. }
  destruct (String.eqb_spec cmd "versions") as [_|_].
  { apply (only_says_fs (fun _ => True)), listVersions_says. }
  destruct (String.eqb_spec cmd "view") as [_|_]; [| done].
  apply (only_says_fs (fun _ => True)). unfold viewVersion. says.
Qed.

(** X24.  No command changes a file whose name does not end in [.json]: the
    commands write and remove records, and nothing else. *)
Theorem commands_touch_only_records e f path :
  not_a_record path -> files (run main e f).1 !! path = files f !! path.
Proof. intros Hpath. unfold run. cbn [fst]. by apply keeps_main. Qed.

(** X25.  Whatever commands are run, one after the other, the history log stays
    as it was; where there was none, [history] has nothing to show. *)
Theorem history_is_never_written es e f :
  files (session es f) !! getHistoryPath = files f !! getHistoryPath
  /\ (files f !! getHistoryPath = None ->
      run showHistory e (session es f) = (session es f, [Print NoHistoryFound])).
Proof.
  assert (Hkeep : files (session es f) !! getHistoryPath = files f !! getHistoryPath).
  { revert f. induction es as [|e1 es IH]; intros f; [done |].
    cbn [session]. rewrite IH. apply history_log_is_never_touched. }
  split; [done |]. intros Hnone. eapply run_of_state.
  unfold showHistory, init. repeat mstep. unfold os.ReadFile.
  rewrite Hkeep, Hnone. cbn [os.IsNotExist]. repeat mstep. reflexivity.
Qed.

End Whole.

Lemma template_without_placeholder_witness :
  run (generatePrompt (E := TextTemplate.fragment))
      (quiet ["promptgen"; "generate"; "fixed"; "hello"] "")
      (store [("fixed.json", record "fixed" 1 "Say hi.")])
  = (store [("fixed.json", record "fixed" 1 "Say hi.")],
     [Print (GeneratedPrompt 1 "Say hi."); ClipboardWrite "Say hi.";
      Print CopiedToClipboard]).
Proof.
  apply (template_without_placeholder (E := TextTemplate.fragment)
           (quiet ["promptgen"; "generate"; "fixed"; "hello"] "")
           (store [("fixed.json", record "fixed" 1 "Say hi.")]) "fixed"
           {| Name := "fixed"; Version := 1; Template := "Say hi." |} "hello"
           (init (quiet ["promptgen"; "generate"; "fixed"; "hello"] "")
              (store [("fixed.json", record "fixed" 1 "Say hi.")])));
    first [apply fragment_conforms | reflexivity].
Defined.

Lemma only_add_update_and_delete_write_witness :
  (run (main (E := TextTemplate.fragment))
     (quiet ["promptgen"; "generate"; "sum"; "x"] "") sum_store).1 = sum_store.
Proof.
  apply (only_add_update_and_delete_write (E := TextTemplate.fragment)
           (quiet ["promptgen"; "generate"; "sum"; "x"] "") sum_store);
    discriminate.
Defined.

Lemma commands_touch_only_records_witness :
  files (run (main (E := TextTemplate.fragment))
           (quiet ["promptgen"; "delete"; "*"] "")
           (store [("notes.txt", Undecodable "keep"); ("sum.json", record "sum" 1 "Q")])).1
    !! "notes.txt"
  = files (store [("notes.txt", Undecodable "keep"); ("sum.json", record "sum" 1 "Q")])
      !! "notes.txt".
Proof.
  apply (commands_touch_only_records (E := TextTemplate.fragment)
           (quiet ["promptgen"; "delete"; "*"] "")
           (store [("notes.txt", Undecodable "keep"); ("sum.json", record "sum" 1 "Q")])
           "notes.txt").
  intros stem Heq. pose proof (last_byte_record stem) as Hlast.
  rewrite <- Heq in Hlast. discriminate Hlast.
Defined.

Lemma history_is_never_written_witness :
  files (session (E := TextTemplate.fragment)
           [quiet ["promptgen"; "generate"; "sum"; "x"] "";
            quiet ["promptgen"; "update"; "sum"] "two"] sum_store) !! getHistoryPath
  = files sum_store !! getHistoryPath
  /\ run showHistory (quiet ["promptgen"; "history"] "")
       (session (E := TextTemplate.fragment)
          [quiet ["promptgen"; "generate"; "sum"; "x"] "";
           quiet ["promptgen"; "update"; "sum"] "two"] sum_store)
     = (session (E := TextTemplate.fragment)
          [quiet ["promptgen"; "generate"; "sum"; "x"] "";
           quiet ["promptgen"; "update"; "sum"] "two"] sum_store,
        [Print NoHistoryFound]).
Proof.
  destruct (history_is_never_written (E := TextTemplate.fragment)
              [quiet ["promptgen"; "generate"; "sum"; "x"] "";
               quiet ["promptgen"; "update"; "sum"] "two"]
              (quiet ["promptgen"; "history"] "") sum_store) as [H1 H2].
  split; [exact H1 | apply H2; reflexivity].
Defined.

Section Arguments.

Context {E : TemplateEngine}.

(** X26.  A command that is not given the arguments it needs prints its usage
    line and does nothing else; so does the program for a command that it
    does not know, and for none. *)
Theorem missing_argument_prints_usage e f :
  (Args e !! 2%nat = None ->
   run deleteTemplate e f = (f, [Print UsageDelete])
   /\ run updateTemplate e f = (f, [Print UsageUpdate])
   /\ run generatePrompt e f = (f, [Print UsageGenerate])
   /\ run reviewTemplate e f = (f, [Print UsageReview])
   /\ run completion e f = (f, [Print UsageCompletion])
   /\ run listVersions e f = (f, [Print UsageVersions]))
  /\ (Args e !! 3%nat = None -> run viewVersion e f = (f, [Print UsageView]))
  /\ (Args e !! 1%nat = None -> run main e f = (f, [Print Usage]))
  /\ (forall cmd,
        Args e !! 1%nat = Some cmd ->
        cmd ∉ ["add"; "list"; "delete"; "update"; "generate"; "review";
               "completion"; "history"; "versions"; "view"]%string ->
        run main e f = (f, [Print Usage])).
Proof.
  split; [| split; [| split]].
  - intros Hnone.
    repeat split; eapply run_of_state;
      unfold deleteTemplate, updateTemplate, generatePrompt, reviewTemplate,
             completion, listVersions, init;
      repeat mstep; rewrite Hnone; repeat mstep; reflexivity.
  - intros Hnone. eapply run_of_state. unfold viewVersion, init. repeat mstep.
    rewrite Hnone. destruct (Args e !! 2%nat); repeat mstep; reflexivity.
  - intros Hnone. eapply run_of_state. unfold main, init. repeat mstep.
    rewrite Hnone. repeat mstep. reflexivity.
  - intros cmd Hcmd Hnot. eapply run_of_state. unfold main, init. repeat mstep.
    rewrite Hcmd.
    repeat match goal with
           | |- context [String.eqb cmd ?c] =>
               destruct (String.eqb_spec cmd c) as [->|_];
               [exfalso; apply Hnot; present |]
           end.
    repeat mstep. reflexivity.
Qed.

End Arguments.

Lemma missing_argument_prints_usage_witness :
  run deleteTemplate (quiet ["promptgen"; "delete"] "") sum_store
  = (sum_store, [Print UsageDelete])
  /\ run viewVersion (quiet ["promptgen"; "view"; "sum"] "") sum_store
     = (sum_store, [Print UsageView])
  /\ run (main (E := TextTemplate.fragment)) (quiet ["promptgen"; "remove"; "sum"] "") sum_store
     = (sum_store, [Print Usage]).
Proof.
  destruct (missing_argument_prints_usage (E := TextTemplate.fragment)
              (quiet ["promptgen"; "delete"] "") sum_store) as (H2 & _).
  destruct (missing_argument_prints_usage (E := TextTemplate.fragment)
              (quiet ["promptgen"; "view"; "sum"] "") sum_store) as (_ & H3 & _).
  destruct (missing_argument_prints_usage (E := TextTemplate.fragment)
              (quiet ["promptgen"; "remove"; "sum"] "") sum_store) as (_ & _ & _ & H1).
  split; [apply H2; reflexivity |]. split; [apply H3; reflexivity |].
  apply (H1 "remove"%string); [reflexivity |]. absent.
Defined.

Section Unloadable.

Context {E : TemplateEngine}.

(** X27.  A latest record that is there and cannot be loaded (damaged, or not
    readable): [generate] prints the error of the load, [update] and
    [review] answer that the template is not found, and [add] answers that
    it exists already.  None of them changes anything. *)
Theorem unloadable_latest_record f name d x :
  files f !! getTemplatePath name = Some d ->
  loadTemplate name f = Err x ->
  (forall e, Args e !! 2%nat = Some name ->
             run generatePrompt e f = (f, [Print (ErrorLoadingTemplate x)]))
  /\ (forall e, Args e !! 2%nat = Some name ->
                run updateTemplate e f = (f, [Print (TemplateNotFound name)]))
  /\ (forall e, Args e !! 2%nat = Some name ->
                run reviewTemplate e f = (f, [Print (ReviewNotFound name)]))
  /\ (forall e line rest,
        read_line (Stdin e) = (line, rest) ->
        TrimSpace line = name ->
        name <> "" ->
        run addTemplate e f = (f, [Print PromptTemplateName; Print AlreadyExists])).
Proof.
  intros Hthere Hload. repeat split.
  - intros e Hname. eapply run_of_state.
    unfold generatePrompt, init. repeat mstep. rewrite Hname. repeat mstep.
    rewrite Hload. repeat mstep. reflexivity.
  - intros e Hname. eapply run_of_state.
    unfold updateTemplate, init. repeat mstep. rewrite Hname. repeat mstep.
    rewrite Hload. repeat mstep. reflexivity.
  - intros e Hname. eapply run_of_state.
    unfold reviewTemplate, init. repeat mstep. rewrite Hname. repeat mstep.
    rewrite Hload. repeat mstep. reflexivity.
  - intros e line rest Hread Htrim Hne. eapply run_of_state.
    unfold addTemplate, init. repeat mstep.
    rewrite bind_run. unfold ReadString at 1. cbn [input]. rewrite Hread, Htrim.
    cbn [fs out].
    destruct (String.eqb_spec name "") as [|_]; [done |].
    repeat mstep. unfold os.Stat at 1. rewrite Hthere.
    repeat mstep. reflexivity.
Qed.

End Unloadable.

Lemma unloadable_latest_record_witness :
  let f := store [("sum.json", Undecodable "{")] in
  run (generatePrompt (E := TextTemplate.fragment))
      (quiet ["promptgen"; "generate"; "sum"; "x"] "") f
  = (f, [Print (ErrorLoadingTemplate ErrSyntax)])
  /\ run updateTemplate (quiet ["promptgen"; "update"; "sum"] "new") f
     = (f, [Print (TemplateNotFound "sum")])
  /\ run reviewTemplate (quiet ["promptgen"; "review"; "sum"] "") f
     = (f, [Print (ReviewNotFound "sum")])
  /\ run addTemplate (quiet ["promptgen"; "add"] ("sum" +:+ nl +:+ "new")) f
     = (f, [Print PromptTemplateName; Print AlreadyExists]).
Proof.
  destruct (unloadable_latest_record (E := TextTemplate.fragment)
              (store [("sum.json", Undecodable "{")]) "sum" (Undecodable "{") ErrSyntax
              eq_refl eq_refl) as (Hg & Hu & Hr & Ha).
  split; [by apply Hg |]. split; [by apply Hu |]. split; [by apply Hr |].
  apply (Ha (quiet ["promptgen"; "add"] ("sum" +:+ nl +:+ "new")) ("sum" +:+ nl) "new");
    first [reflexivity | discriminate].
Defined.

(** ** Where the code departs from its documentation *)

(** C1.  A successful generation leaves the files as they are: there is no
    history log before it and none after it, and [history] has nothing to
    show. *)
Theorem generation_appends_no_history :
  run (generatePrompt (E := TextTemplate.fragment))
      (quiet ["promptgen"; "generate"; "sum"; "x"] "") sum_store
  = (sum_store,
     [Print (GeneratedPrompt 1 "Q: x"); ClipboardWrite "Q: x"; Print CopiedToClipboard])
  /\ files sum_store !! getHistoryPath = None
  /\ run showHistory (quiet ["promptgen"; "history"] "") sum_store
     = (sum_store, [Print NoHistoryFound]).
Proof. repeat split; reflexivity. Qed.

(** C2.  [delete sum] also removes the records of [summary]; and where
    there is no record of [sum] at all, it removes those of [summary] and
    reports that [sum] was deleted. *)
Theorem delete_removes_templates_with_the_same_prefix :
  run deleteTemplate (quiet ["promptgen"; "delete"; "sum"] "") two_templates
  = (store [], [Print (DeletedAll "sum")])
  /\ run deleteTemplate (quiet ["promptgen"; "delete"; "sum"] "") summary_store
     = (store [], [Print (DeletedAll "sum")]).
Proof. split; vm_compute; reflexivity. Qed.

(** C6.  After [add] of [my_var] the latest record and version 1 are there,
    and [versions my_var] prints its heading and no version. *)
Theorem versions_of_my_var_are_not_listed :
  loadTemplate "my_var" my_var_store
  = Ok {| Name := "my_var"; Version := 1; Template := "Q: <input>" |}
  /\ loadTemplateVersion "my_var" 1 my_var_store
     = Ok {| Name := "my_var"; Version := 1; Template := "Q: <input>" |}
  /\ run listVersions (quiet ["promptgen"; "versions"; "my_var"] "") my_var_store
     = (my_var_store, [Print (VersionsHeader "my_var")]).
Proof. repeat split; vm_compute; reflexivity. Qed.

(** C9.  [list] does not show the template [my_var]. *)
Theorem my_var_is_not_listed :
  loadTemplate "my_var" my_var_store
  = Ok {| Name := "my_var"; Version := 1; Template := "Q: <input>" |}
  /\ run listTemplates (quiet ["promptgen"; "list"] "") my_var_store
     = (my_var_store, [Print TemplatesHeader]).
Proof. split; vm_compute; reflexivity. Qed.
